(** * Polling, classification and normalisation core of the plan generator

    A shallow embedding of the TypeScript sources that drive the
    asynchronous polling / reconciliation engine:

    - [pollingUtils]         interval policy, terminal-error patterns,
                             minimum-content check;
    - [api]                  embedded-error detection and completeness;
    - [domainUtils] and [marketingPlanService]
                             the two domain normalisers, the deep clone
                             and the storage write;
    - [parsePlanData]        the plan normaliser;
    - [usePolling]           the generic scheduler;
    - [useMarketingPlanData] the success path and the polling callback;
    - [useCompetitorStackData] competitor extraction.

    Conventions.  JavaScript values are the inductive type [JS.value]
    (JSON values plus [undefined]).  Numbers are integers ([Z]); strings
    are sequences of 8-bit characters on which [toLowerCase] and
    [toUpperCase] act on the ASCII letters and [trim] removes the ASCII
    white space and line terminators.  Objects keep their properties in
    enumeration order.  Code that can throw returns a [result]. *)

From Stdlib Require Import ZArith List String Ascii Bool Lia Arith.
From Stdlib Require Import DecimalString.
Import ListNotations.

Open Scope string_scope.
Open Scope list_scope.

(** ** Errors *)

Inductive result (A : Type) : Type :=
| Ok (a : A)
| Throw (message : string).
Arguments Ok {A} a.
Arguments Throw {A} message.

Definition bind {A B : Type} (r : result A) (k : A -> result B) : result B :=
  match r with
  | Ok a => k a
  | Throw m => Throw m
  end.

Notation "x <- r ;; k" := (bind r (fun x => k))
  (at level 61, r at next level, right associativity).

(** ** JavaScript strings and values *)

Module JS.

(** *** Characters and strings *)

Definition is_upper (c : ascii) : bool :=
  let n := nat_of_ascii c in (65 <=? n)%nat && (n <=? 90)%nat.

Definition is_lower (c : ascii) : bool :=
  let n := nat_of_ascii c in (97 <=? n)%nat && (n <=? 122)%nat.

Definition lower_char (c : ascii) : ascii :=
  if is_upper c then ascii_of_nat (nat_of_ascii c + 32) else c.

Definition upper_char (c : ascii) : ascii :=
  if is_lower c then ascii_of_nat (nat_of_ascii c - 32) else c.

Fixpoint toLowerCase (s : string) : string :=
  match s with
  | EmptyString => EmptyString
  | String c s' => String (lower_char c) (toLowerCase s')
  end.

Fixpoint toUpperCase (s : string) : string :=
  match s with
  | EmptyString => EmptyString
  | String c s' => String (upper_char c) (toUpperCase s')
  end.

(** [s.startsWith(p)] *)
Fixpoint startsWith (s p : string) {struct p} : bool :=
  match p, s with
  | EmptyString, _ => true
  | String _ _, EmptyString => false
  | String a p', String b s' => Ascii.eqb a b && startsWith s' p'
  end.

(** [s.includes(sub)] *)
Fixpoint includes (s sub : string) : bool :=
  startsWith s sub ||
  match s with
  | EmptyString => false
  | String _ s' => includes s' sub
  end.

(** White space and line terminators removed by [trim]. *)
Definition is_space (c : ascii) : bool :=
  let n := nat_of_ascii c in
  (n =? 32)%nat || ((9 <=? n)%nat && (n <=? 13)%nat).

(** Line terminators, which [.] of a regular expression does not match. *)
Definition is_line_terminator (c : ascii) : bool :=
  let n := nat_of_ascii c in (n =? 10)%nat || (n =? 13)%nat.

Fixpoint trimStart (s : string) : string :=
  match s with
  | EmptyString => EmptyString
  | String c s' => if is_space c then trimStart s' else s
  end.

Fixpoint all_space (s : string) : bool :=
  match s with
  | EmptyString => true
  | String c s' => is_space c && all_space s'
  end.

Fixpoint trimEnd (s : string) : string :=
  match s with
  | EmptyString => EmptyString
  | String c s' => if all_space s then EmptyString else String c (trimEnd s')
  end.

Definition trim (s : string) : string := trimEnd (trimStart s).

(** [s.slice(n)] for [0 <= n]. *)
Fixpoint slice (n : nat) (s : string) : string :=
  match n, s with
  | O, _ => s
  | S _, EmptyString => EmptyString
  | S n', String _ s' => slice n' s'
  end.

(** [s.charAt(0)] *)
Definition charAt0 (s : string) : string :=
  match s with
  | EmptyString => EmptyString
  | String c _ => String c EmptyString
  end.

(** [s.split(sep)[0]] for a one-character separator. *)
Fixpoint split_first (sep : ascii) (s : string) : string :=
  match s with
  | EmptyString => EmptyString
  | String c s' => if Ascii.eqb c sep then EmptyString else String c (split_first sep s')
  end.

Fixpoint join (sep : string) (l : list string) : string :=
  match l with
  | [] => EmptyString
  | [x] => x
  | x :: l' => x ++ sep ++ join sep l'
  end.

Definition is_digit (c : ascii) : bool :=
  let n := nat_of_ascii c in (48 <=? n)%nat && (n <=? 57)%nat.

Fixpoint all_digits (s : string) : bool :=
  match s with
  | EmptyString => true
  | String c s' => is_digit c && all_digits s'
  end.

(** [parseInt(s, 10)] on a string of decimal digits. *)
Fixpoint parse_digits (acc : N) (s : string) : N :=
  match s with
  | EmptyString => acc
  | String c s' => parse_digits (acc * 10 + (N.of_nat (nat_of_ascii c) - 48))%N s'
  end.

Definition parseInt (s : string) : N := parse_digits 0%N s.

(** [String(n)] for an integer. *)
Definition string_of_Z (z : Z) : string := NilZero.string_of_int (Z.to_int z).
Definition string_of_nat (n : nat) : string := NilZero.string_of_uint (Nat.to_uint n).

(** *** Values *)

#[local] Unset Elimination Schemes.

Inductive value : Type :=
| JUndefined
| JNull
| JBool (b : bool)
| JNum (z : Z)
| JStr (s : string)
| JArr (items : list value)
| JObj (fields : list (string * value)).

#[local] Set Elimination Schemes.

(** [!!v] *)
Definition truthy (v : value) : bool :=
  match v with
  | JUndefined | JNull => false
  | JBool b => b
  | JNum z => negb (z =? 0)%Z
  | JStr s => negb (s =? "")
  | JArr _ | JObj _ => true
  end.

(** [a || b] and [a && b] on values. *)
Definition or (a b : value) : value := if truthy a then a else b.
Definition and (a b : value) : value := if truthy a then b else a.

Definition typeof (v : value) : string :=
  match v with
  | JUndefined => "undefined"
  | JNull | JArr _ | JObj _ => "object"
  | JBool _ => "boolean"
  | JNum _ => "number"
  | JStr _ => "string"
  end.

Definition isArray (v : value) : bool :=
  match v with JArr _ => true | _ => false end.

Definition nullish (v : value) : bool :=
  match v with JUndefined | JNull => true | _ => false end.

(** [a === b] where one side is a string literal. *)
Definition str_eq (v : value) (s : string) : bool :=
  match v with JStr t => t =? s | _ => false end.

Fixpoint lookup (k : string) (fields : list (string * value)) : option value :=
  match fields with
  | [] => None
  | (k', v) :: rest => if k' =? k then Some v else lookup k rest
  end.

(** A canonical array index: ["0"], or digits without a leading zero. *)
Definition index_of_key (k : string) : option nat :=
  match k with
  | EmptyString => None
  | String c rest =>
      if all_digits k && (negb (Ascii.eqb c "0") || (rest =? ""))
      then Some (N.to_nat (parseInt k)) else None
  end.

(** Property read [v.k] / [v[k]] on a receiver that is not nullish, and
    [v?.k] on any receiver.  The property names read by the program are
    data keys; none of them names a prototype member. *)
Definition get (v : value) (k : string) : value :=
  match v with
  | JObj fields =>
      match lookup k fields with Some x => x | None => JUndefined end
  | JArr items =>
      if k =? "length" then JNum (Z.of_nat (List.length items))
      else match index_of_key k with
           | Some i => nth i items JUndefined
           | None => JUndefined
           end
  | JStr s =>
      if k =? "length" then JNum (Z.of_nat (String.length s))
      else match index_of_key k with
           | Some i => match String.get i s with
                       | Some c => JStr (String c EmptyString)
                       | None => JUndefined
                       end
           | None => JUndefined
           end
  | _ => JUndefined
  end.

(** [k in v] for an object or array receiver. *)
Definition has (k : string) (v : value) : bool :=
  match v with
  | JObj fields => match lookup k fields with Some _ => true | None => false end
  | JArr items =>
      (k =? "length") ||
      match index_of_key k with
      | Some i => (i <? List.length items)%nat
      | None => false
      end
  | _ => false
  end.

Fixpoint index_keys (start count : nat) : list string :=
  match count with
  | O => []
  | S c => string_of_nat start :: index_keys (S start) c
  end.

(** [Object.keys(v)] on a value that is not nullish. *)
Definition keys (v : value) : list string :=
  match v with
  | JObj fields => map fst fields
  | JArr items => index_keys 0 (List.length items)
  | JStr s => index_keys 0 (String.length s)
  | _ => []
  end.

(** [Object.entries(v)] on an object or array. *)
Definition entries (v : value) : list (string * value) :=
  match v with
  | JObj fields => fields
  | JArr items => combine (index_keys 0 (List.length items)) items
  | _ => []
  end.

(** *** JSON.stringify *)

Definition hex_digit (n : nat) : ascii :=
  if (n <? 10)%nat then ascii_of_nat (48 + n) else ascii_of_nat (87 + n).

Definition escape_char (c : ascii) : string :=
  let n := nat_of_ascii c in
  if (n =? 34)%nat then "\" ++ String c EmptyString
  else if (n =? 92)%nat then "\\"
  else if (n =? 8)%nat then "\b"
  else if (n =? 9)%nat then "\t"
  else if (n =? 10)%nat then "\n"
  else if (n =? 12)%nat then "\f"
  else if (n =? 13)%nat then "\r"
  else if (n <? 32)%nat
       then "\u00" ++ String (hex_digit (n / 16)) (String (hex_digit (n mod 16)) EmptyString)
  else String c EmptyString.

Fixpoint escape (s : string) : string :=
  match s with
  | EmptyString => EmptyString
  | String c s' => escape_char c ++ escape s'
  end.

Definition dquote : string := String (ascii_of_nat 34) EmptyString.

Definition quote (s : string) : string := dquote ++ escape s ++ dquote.

(** [JSON.stringify(v)] for a value that is not [undefined]; inside an
    array [undefined] prints as [null], inside an object the property
    is left out. *)
Fixpoint stringify (v : value) : string :=
  match v with
  | JUndefined | JNull => "null"
  | JBool true => "true"
  | JBool false => "false"
  | JNum z => string_of_Z z
  | JStr s => quote s
  | JArr items => "[" ++ join "," (map stringify items) ++ "]"
  | JObj fields =>
      "{" ++ join ","
        ((fix members (l : list (string * value)) : list string :=
            match l with
            | [] => []
            | (k, x) :: l' =>
                match x with
                | JUndefined => members l'
                | _ => (quote k ++ ":" ++ stringify x)%string :: members l'
                end
            end) fields) ++ "}"
  end.

(** *** The pattern [/^program_\d+_details$/] *)

Fixpoint digits_then (suffix : string) (s : string) : bool :=
  match s with
  | EmptyString => false
  | String c s' =>
      is_digit c && ((s' =? suffix) || digits_then suffix s')
  end.

(** [key.match(/^program_\d+_details$/)] as a test. *)
Definition is_program_details_key (key : string) : bool :=
  startsWith key "program_" && digits_then "_details" (slice 8 key).

Fixpoint take_digits (s : string) : string :=
  match s with
  | EmptyString => EmptyString
  | String c s' => if is_digit c then String c (take_digits s') else EmptyString
  end.

(** The capture group of [/^program_(\d+)_details$/] on a matching key. *)
Definition program_details_number (key : string) : string :=
  take_digits (slice 8 key).

(** *** Object literals *)

(** [obj[k] = x]: an existing property keeps its place. *)
Fixpoint set_field (k : string) (x : value) (fields : list (string * value))
  : list (string * value) :=
  match fields with
  | [] => [(k, x)]
  | (k', y) :: rest =>
      if k' =? k then (k, x) :: rest else (k', y) :: set_field k x rest
  end.

Definition assign (v : value) (k : string) (x : value) : value :=
  match v with
  | JObj fields => JObj (set_field k x fields)
  | _ => v
  end.

Fixpoint chars (s : string) : list value :=
  match s with
  | EmptyString => []
  | String c s' => JStr (String c EmptyString) :: chars s'
  end.

(** The properties copied by [{...v}]. *)
Definition spread (v : value) : list (string * value) :=
  match v with
  | JObj fields => fields
  | JArr items => combine (index_keys 0 (List.length items)) items
  | JStr s => combine (index_keys 0 (String.length s)) (chars s)
  | _ => []
  end.

(** [String(v)], the message of [new Error(v)]. *)
Fixpoint to_string (v : value) : string :=
  match v with
  | JUndefined => "undefined"
  | JNull => "null"
  | JBool true => "true"
  | JBool false => "false"
  | JNum z => string_of_Z z
  | JStr s => s
  | JArr items =>
      join "," (map (fun x => if nullish x then EmptyString else to_string x) items)
  | JObj _ => "[object Object]"
  end.

End JS.

Import JS.

(** ** pollingUtils *)

Module PollingUtils.

Definition errorPatterns : list string :=
  [ "no agent response"; "no agent response found"; "404"; "conversation id";
    "invalid"; "expired"; "not found"; "conversation not found";
    "does not exist"; "couldn't process" ].

(** [isInvalidConversationIdError(errorMessage)]; the empty message
    stands for a missing one as well. *)
Definition isInvalidConversationIdError (errorMessage : string) : bool :=
  if errorMessage =? "" then false
  else existsb (fun pattern => includes (toLowerCase errorMessage) (toLowerCase pattern))
               errorPatterns.

Definition getProgressivePollingInterval (attemptNumber : Z) : Z :=
  if (attemptNumber <=? 10)%Z then 10000%Z
  else if (attemptNumber <=? 20)%Z then 20000%Z
  else 30000%Z.

Definition shouldStopPolling (errorMessage : string) (consecutiveErrors : Z) : bool :=
  if includes (toLowerCase errorMessage) "no agent response found"
  then (1 <=? consecutiveErrors)%Z
  else if isInvalidConversationIdError errorMessage then true
  else false.

(** [getInitialPollingDelay(domain)]; the empty domain stands for a
    missing one. *)
Definition getInitialPollingDelay (domain : string) : Z :=
  if domain =? "" then 3000%Z
  else if includes domain "com" || (10 <? String.length domain)%nat then 5000%Z
  else 3000%Z.

Definition hasMinimumContent (response : value) : bool :=
  if negb (truthy response)
     || negb (truthy (get (get (get response "response") "data") "content"))
  then false
  else if str_eq (get response "status") "succeeded" then true
  else
    let content := get (get (get response "response") "data") "content" in
    let hasCompanySummary :=
      truthy (get content "company_summary")
      && (typeof (get content "company_summary") =? "object") in
    let hasProgramsList :=
      truthy (get content "programs_list")
      && (isArray (get content "programs_list")
          || (typeof (get content "programs_list") =? "object")) in
    let hasProgramDetails := existsb is_program_details_key (keys content) in
    hasCompanySummary || hasProgramsList || hasProgramDetails.

Definition hasAnyUsableData (response : value) : bool :=
  if truthy response && str_eq (get response "status") "succeeded" then true
  else if negb (truthy response)
          || negb (truthy (get response "response"))
          || negb (truthy (get (get response "response") "data"))
          || negb (truthy (get (get (get response "response") "data") "content"))
  then false
  else
    let content := get (get (get response "response") "data") "content" in
    truthy (get content "company_summary")
    || truthy (get content "programs_list")
    || existsb is_program_details_key (keys content).

End PollingUtils.

(** ** api *)

Module Api.

Definition errorPhrases : list string :=
  [ "encountered an issue"; "i'm sorry"; "couldn't analyze";
    "failed to analyze"; "unable to"; "error occurred"; "invalid domain" ].

(** The value the classifier inspects:
    [response.response?.data?.content || response.content]. *)
Definition inspected_content (response : value) : value :=
  or (get (get (get response "response") "data") "content")
     (get response "content").

Definition containsErrorMessage (response : value) : bool :=
  if negb (truthy response) then false
  else
    let content := inspected_content response in
    match content with
    | JStr s =>
        existsb (fun phrase => includes (toLowerCase s) (toLowerCase phrase))
                errorPhrases
    | JArr _ | JObj _ =>
        let stringContent := toLowerCase (stringify content) in
        existsb (fun phrase => includes stringContent (toLowerCase phrase))
                errorPhrases
    | _ => false
    end.

Definition isAnalysisComplete (response : value) : bool :=
  if negb (truthy response) then false
  else if containsErrorMessage response then false
  else
    let hasValidStatus :=
      str_eq (get response "status") "succeeded"
      || str_eq (get response "status") "completed" in
    if negb hasValidStatus then false
    else
      let content := get (get (get response "response") "data") "content" in
      if negb (truthy content) then false
      else if negb (typeof content =? "object")
              || (List.length (keys content) =? 0)%nat then false
      else
        let hasCompanySummary :=
          truthy (get content "company_summary")
          && (typeof (get content "company_summary") =? "object")
          && (0 <? List.length (keys (get content "company_summary")))%nat in
        let hasProgramsList := truthy (get content "programs_list") in
        let programsListValid :=
          if hasProgramsList then
            match get content "programs_list" with
            | JArr items => (0 <? List.length items)%nat
            | programs =>
                if typeof programs =? "object"
                then (0 <? List.length (keys programs))%nat
                else false
            end
          else false in
        let hasProgramDetails := existsb is_program_details_key (keys content) in
        if hasCompanySummary && (programsListValid || hasProgramDetails)
        then true else false.

(** What [fetch] gives back for one status request. *)
Inductive HttpReply : Type :=
| NetworkError (message : string)
| Reply (ok : bool) (http_status : Z) (text : string) (json : result value).

(** [getAnalysisAnswer(conversationId, attemptCount)] on the reply of
    the remote side (the request log is left out). *)
Definition getAnalysisAnswer (reply : HttpReply) : result value :=
  match reply with
  | NetworkError message => Throw message
  | Reply ok http_status text json =>
      if negb ok
      then Throw ("Server error: " ++ string_of_Z http_status ++ " - " ++ text)
      else
        data <- json ;;
        if containsErrorMessage data
        then
          let content := inspected_content data in
          let errorMessage :=
            match content with
            | JStr s => s
            | _ => "Unknown error in response content"
            end in
          Ok (assign (assign data "contentError" (JBool true))
                     "contentErrorMessage" (JStr errorMessage))
        else Ok data
  end.

End Api.

(** ** domainUtils *)

(** The three replacements shared by both normalisers. *)
Module DomainRegex.

(** [s.replace(/^https?:\/\//, "")] *)
Definition strip_protocol (s : string) : string :=
  if startsWith s "http://" then slice 7 s
  else if startsWith s "https://" then slice 8 s
  else s.

Fixpoint no_line_terminator (s : string) : bool :=
  match s with
  | EmptyString => true
  | String c s' => negb (is_line_terminator c) && no_line_terminator s'
  end.

(** [s.replace(/\/.*$/, "")]: the leftmost ['/'] after which no line
    terminator occurs, and everything behind it, is removed. *)
Fixpoint strip_path (s : string) : string :=
  match s with
  | EmptyString => EmptyString
  | String c s' =>
      if Ascii.eqb c "/" && no_line_terminator s' then EmptyString
      else String c (strip_path s')
  end.

(** [s.replace(/^www\./, "")] *)
Definition strip_www (s : string) : string :=
  if startsWith s "www." then slice 4 s else s.

End DomainRegex.

Module DomainUtils.
Import DomainRegex.

Definition normalizeDomain (domain : string) : string :=
  strip_www (strip_path (strip_protocol (toLowerCase (trim domain)))).

End DomainUtils.

(** ** marketingPlanService *)

Module MarketingPlanService.
Import DomainRegex.

Definition normalizeDomain (domain : string) : string :=
  if domain =? "" then ""
  else
    let normalizedDomain := strip_protocol domain in
    let normalizedDomain := strip_path normalizedDomain in
    let normalizedDomain := strip_www normalizedDomain in
    let normalizedDomain := toLowerCase normalizedDomain in
    trim normalizedDomain.

(** *** The deep clone *)

(** What [deepStructureClone] returns.  An object it builds has the own
    properties created by [result[key] = ...] and a prototype: for the
    key ["__proto__"] that assignment creates no property, it replaces
    the prototype of [result] (by an object, an array or [null]; any
    other value is ignored).  Primitives are returned as they are. *)
#[local] Unset Elimination Schemes.

Inductive Clone : Type :=
| CPrimitive (v : value)
| CArray (items : list Clone)
| CObject (own : list (string * Clone)) (proto : Prototype)
with Prototype : Type :=
| ObjectPrototype
| NullPrototype
| ClonedPrototype (c : Clone).

#[local] Set Elimination Schemes.

(** The prototype of a fresh object after [result["__proto__"] = c]. *)
Definition installed (c : Clone) : Prototype :=
  match c with
  | CObject _ _ | CArray _ => ClonedPrototype c
  | CPrimitive JNull => NullPrototype
  | CPrimitive _ => ObjectPrototype
  end.

(** [Object.keys(data).forEach(key => result[key] = deepStructureClone(data[key]))]
    on an object; its keys are distinct, so each assignment adds a
    property behind the ones made so far. *)
Fixpoint deepStructureClone (data : value) : Clone :=
  match data with
  | JArr items => CArray (map deepStructureClone items)
  | JObj fields =>
      CObject
        ((fix own (l : list (string * value)) : list (string * Clone) :=
            match l with
            | [] => []
            | (key, x) :: l' =>
                if key =? "__proto__" then own l'
                else (key, deepStructureClone x) :: own l'
            end) fields)
        ((fix proto (l : list (string * value)) : Prototype :=
            match l with
            | [] => ObjectPrototype
            | (key, x) :: l' =>
                if key =? "__proto__" then installed (deepStructureClone x)
                else proto l'
            end) fields)
  | _ => CPrimitive data
  end.

Fixpoint lookup_own (k : string) (own : list (string * Clone)) : option Clone :=
  match own with
  | [] => None
  | (k', c) :: rest => if k' =? k then Some c else lookup_own k rest
  end.

(** [k in c] on a clone, through its prototypes. *)
Fixpoint clone_has (k : string) (c : Clone) : bool :=
  match c with
  | CObject own proto =>
      match lookup_own k own with
      | Some _ => true
      | None =>
          match proto with
          | ClonedPrototype p => clone_has k p
          | _ => false
          end
      end
  | CArray items =>
      (k =? "length") ||
      match index_of_key k with
      | Some i => (i <? List.length items)%nat
      | None => false
      end
  | CPrimitive _ => false
  end.

(** [c.k] on a clone, through its prototypes. *)
Fixpoint clone_get (c : Clone) (k : string) : Clone :=
  match c with
  | CObject own proto =>
      match lookup_own k own with
      | Some x => x
      | None =>
          match proto with
          | ClonedPrototype p => clone_get p k
          | _ => CPrimitive JUndefined
          end
      end
  | CArray items =>
      if k =? "length" then CPrimitive (JNum (Z.of_nat (List.length items)))
      else match index_of_key k with
           | Some i => nth i items (CPrimitive JUndefined)
           | None => CPrimitive JUndefined
           end
  | CPrimitive v => CPrimitive (get v k)
  end.

Definition clone_truthy (c : Clone) : bool :=
  match c with CPrimitive v => truthy v | _ => true end.

Definition clone_typeof (c : Clone) : string :=
  match c with CPrimitive v => typeof v | _ => "object" end.

(** The own properties of a clone: what [JSON.stringify], and so the
    table, sees of it. *)
Fixpoint own_properties (c : Clone) : value :=
  match c with
  | CPrimitive v => v
  | CArray items => JArr (map own_properties items)
  | CObject own _ =>
      JObj ((fix fields (l : list (string * Clone)) : list (string * value) :=
               match l with
               | [] => []
               | (k, x) :: l' => (k, own_properties x) :: fields l'
               end) own)
  end.

(** *** The storage write *)

(** A row handed to [supabase.from('marketing_plans').insert]. *)
Record Row : Type := mkRow {
  company_domain : string;
  email : string;
  form_data : Clone;
  user_language : string
}.

Record SaveResult : Type := mkSaveResult {
  success : bool;
  error : option string
}.

(** The storage collaborator: the language read by [getUserLanguage]
    and the error, if any, with which the table answers an insert. *)
Record Storage : Type := mkStorage {
  userLanguage : string;
  insert_error : Row -> option string
}.

(** [Object.keys(x)] throws a [TypeError] on [null] and [undefined];
    this is its message in V8. *)
Definition keys_of_nullish : string := "Cannot convert undefined or null to object".

Definition clone_nullish (c : Clone) : bool :=
  match c with CPrimitive v => nullish v | _ => false end.

(** The [contentStructure] entry of the log written for a refused
    insert calls [Object.keys(preservedData.content)] as soon as
    ['content' in preservedData]. *)
Definition refused_log_throws (preservedData : Clone) : bool :=
  clone_truthy preservedData
  && (clone_typeof preservedData =? "object")
  && clone_has "content" preservedData
  && clone_nullish (clone_get preservedData "content").

(** The [preservedProgramDetails] entry of the log written for an
    accepted insert calls [Object.keys(preservedData.response.data.content)]
    when that content has type ["object"], which [null] has. *)
Definition accepted_log_throws (preservedData : Clone) : bool :=
  let response := clone_get preservedData "response" in
  let data := clone_get response "data" in
  let content := clone_get data "content" in
  clone_truthy preservedData
  && (clone_typeof preservedData =? "object")
  && clone_has "response" preservedData
  && clone_truthy response
  && (clone_typeof response =? "object")
  && clone_has "data" response
  && clone_truthy data
  && (clone_typeof data =? "object")
  && clone_has "content" data
  && (clone_typeof content =? "object")
  && clone_nullish content.

(** [saveMarketingPlan]; the second component is the log of rows handed
    to the table, most recent last.  Whatever is thrown after the row
    has been handed over is caught and reported in the result. *)
Definition saveMarketingPlan (db : Storage) (companyDomain email : string)
    (planData : value) (writes : list Row) : SaveResult * list Row :=
  if (companyDomain =? "") || (email =? "")
  then (mkSaveResult false (Some "Missing required fields"), writes)
  else
    let preservedData := deepStructureClone planData in
    let row := mkRow companyDomain email preservedData (userLanguage db) in
    (match insert_error db row with
     | Some message =>
         if refused_log_throws preservedData
         then mkSaveResult false (Some keys_of_nullish)
         else mkSaveResult false (Some message)
     | None =>
         if accepted_log_throws preservedData
         then mkSaveResult false (Some keys_of_nullish)
         else mkSaveResult true None
     end,
     writes ++ [row]).

(** [isEmptyObject(obj)] as a test. *)
Definition isEmptyObject (obj : value) : bool :=
  truthy obj && (typeof obj =? "object") && (List.length (keys obj) =? 0)%nat.

End MarketingPlanService.

(** ** parsePlanData *)

Module ParsePlanData.

Record CompanySummary : Type := mkCompanySummary {
  name : value;
  website : value;
  activities : value;
  target : value;
  industry : value;
  target_audience : value;
  nb_employees : value;
  business_model : value;
  linkedin_scrape_status : value;
  customer_lifecycle_key_steps : value
}.

Record MarketingProgram : Type := mkMarketingProgram {
  program_name : value;
  program_target : value;
  objective : value;
  kpi : value;
  description : value;
  scenarios : option value
}.

Record RawContentStructure : Type := mkRawContentStructure {
  contentKeys : list string;
  programDetailKeys : list string;
  contentPath : string
}.

Record MarketingPlan : Type := mkMarketingPlan {
  company_summary : CompanySummary;
  programs_list : list MarketingProgram;
  introduction : value;
  tools_used : value;
  conclusion : value;
  how_brevo_helps_you : value;
  raw_content_structure : RawContentStructure;
  metadata_conversation_id : option value
}.

(** An optional string argument as a value. *)
Definition of_domain (domain : option string) : value :=
  match domain with Some d => JStr d | None => JUndefined end.

Definition extractCompanyName (domain : option string) : string :=
  match domain with
  | None => "Unknown Company"
  | Some d =>
      if d =? "" then "Unknown Company"
      else toUpperCase (charAt0 (split_first "." d)) ++ slice 1 (split_first "." d)
  end.

(** One path of [getNestedValue]: [None] when a step is not valid. *)
Fixpoint follow (current : value) (path : list string) : option value :=
  match path with
  | [] => Some current
  | key :: rest =>
      if truthy current && (typeof current =? "object") && has key current
      then follow (get current key) rest
      else None
  end.

Fixpoint getNestedValue (obj : value) (pathOptions : list (list string))
  : value * list string :=
  match pathOptions with
  | [] => (JNull, [])
  | path :: others =>
      match follow obj path with
      | Some current => (current, path)
      | None => getNestedValue obj others
      end
  end.


(** [hasContent(str)] for a string or a missing argument. *)
Definition hasContent (str : value) : bool :=
  match str with
  | JStr s =>
      if s =? "" then false
      else if s =? "Not specified" then false
      else if (String.length (trim s) =? 0)%nat then false
      else true
  | _ => false
  end.

Definition parseCompanySummary (data : value) (domain : option string)
  : CompanySummary :=
  if negb (truthy data) || negb (typeof data =? "object")
  then
    mkCompanySummary
      (JStr (extractCompanyName domain))
      (or (of_domain domain) (JStr "Unknown"))
      (JStr "Not specified")
      (JStr "Not specified")
      JUndefined JUndefined JUndefined JUndefined JUndefined JUndefined
  else
    let name := or (get data "name") (JStr (extractCompanyName domain)) in
    let website := or (get data "website") (or (of_domain domain) (JStr "Unknown")) in
    let activities :=
      or (get data "activities") (or (get data "industry") (JStr "Not specified")) in
    let target :=
      or (get data "target") (or (get data "target_audience") (JStr "Not specified")) in
    let industry := or (get data "industry") activities in
    let targetAudience := or (get data "target_audience") target in
    mkCompanySummary name website activities target industry targetAudience
      (get data "nb_employees")
      (get data "business_model")
      (get data "linkedin_scrape_status")
      (get data "customer_lifecycle_key_steps").

(** *** Programs *)

Definition placeholder : MarketingProgram :=
  mkMarketingProgram
    (JStr "Marketing Program") (JStr "Not specified") (JStr "Not specified")
    (JStr "") (JStr "No program details available") None.

(** The callback of [data.map((program, index) => ...)]: reading a
    property of [null] or [undefined] throws a [TypeError]. *)
Definition program_of_entry (program : value) (index : nat)
  : result MarketingProgram :=
  if nullish program then Throw "Cannot read properties of null"
  else
    Ok (mkMarketingProgram
          (or (get program "program_name")
              (or (get program "name")
                  (JStr ("Program " ++ string_of_nat (index + 1)))))
          (or (get program "target") (JStr "Not specified"))
          (or (get program "objective") (JStr "Not specified"))
          (or (get program "kpi") (JStr ""))
          (or (get program "description") (JStr ""))
          None).

Fixpoint map_programs (items : list value) (index : nat)
  : result (list MarketingProgram) :=
  match items with
  | [] => Ok []
  | program :: rest =>
      p <- program_of_entry program index ;;
      ps <- map_programs rest (S index) ;;
      Ok (p :: ps)
  end.

(** [Array.prototype.sort()] on strings: ascending by character code. *)
Fixpoint insert_sorted (k : string) (l : list string) : list string :=
  match l with
  | [] => [k]
  | x :: l' => if String.leb k x then k :: l else x :: insert_sorted k l'
  end.

Definition sort (l : list string) : list string :=
  fold_right insert_sorted [] l.

Fixpoint update_at (i : nat) (f : MarketingProgram -> MarketingProgram)
    (l : list MarketingProgram) {struct l} : list MarketingProgram :=
  match l, i with
  | [], _ => []
  | p :: l', O => f p :: l'
  | p :: l', S i' => p :: update_at i' f l'
  end.

Definition set_program_name (n : value) (p : MarketingProgram) : MarketingProgram :=
  mkMarketingProgram n (program_target p) (objective p) (kpi p) (description p)
    (scenarios p).

Definition set_scenarios (sc : value) (p : MarketingProgram) : MarketingProgram :=
  mkMarketingProgram (program_name p) (program_target p) (objective p) (kpi p)
    (description p) (Some sc).

(** What one [program_<N>_details] entry does to the program it names. *)
Definition enrich (details : value) (p : MarketingProgram) : MarketingProgram :=
  let p :=
    if truthy (get details "program_name") || truthy (get details "name")
    then set_program_name (or (get details "program_name") (get details "name")) p
    else p in
  if truthy (get details "scenarios")
  then set_scenarios (get details "scenarios") p
  else p.

(** The body of [detailsKeys.forEach((detailKey) => ...)]. *)
Definition apply_details (allContentData : value)
    (programs : list MarketingProgram) (detailKey : string)
  : list MarketingProgram :=
  let number := parseInt (program_details_number detailKey) in
  if (1 <=? number)%N && (number - 1 <? N.of_nat (List.length programs))%N
  then
    let details := get allContentData detailKey in
    if truthy details && (typeof details =? "object")
    then update_at (N.to_nat (number - 1)) (enrich details) programs
    else programs
  else programs.

Definition parsePrograms (data allContentData : value)
  : result (list MarketingProgram) :=
  if negb (truthy data) then Ok []
  else
    programs <-
      match data with
      | JArr items => map_programs items 0
      | _ =>
          if typeof data =? "object"
          then map_programs (map snd (entries data)) 0
          else Ok []
      end ;;
    let programs :=
      if (List.length programs =? 0)%nat then [placeholder] else programs in
    let programs :=
      if truthy allContentData && (typeof allContentData =? "object")
      then
        let detailsKeys :=
          sort (filter is_program_details_key (keys allContentData)) in
        fold_left (apply_details allContentData) detailsKeys programs
      else programs in
    Ok programs.

(** *** The plan *)

Definition contentPaths : list (list string) :=
  [ ["response"; "data"; "content"];
    ["content"];
    ["response"; "data"; "content"; "json_response"];
    ["content"; "json_response"];
    [] ].

(** [parsePlanData(responseData, domain)]: [Ok None] is the [null]
    result, [Throw] the rethrown error. *)
Definition parsePlanData (responseData : value) (domain : option string)
  : result (option MarketingPlan) :=
  if negb (truthy responseData) then Ok None
  else
    let '(content, contentPath) := getNestedValue responseData contentPaths in
    if negb (truthy content) || negb (typeof content =? "object")
    then Throw "Invalid content structure or missing content"
    else
      let companySummary :=
        parseCompanySummary (get content "company_summary") domain in
      programsList <- parsePrograms (get content "programs_list") content ;;
      let conversationId :=
        or (get (get (get (get responseData "response") "data") "metadata")
                "conversation_id")
           (or (get (get responseData "metadata") "conversation_id")
               (get responseData "conversation_id")) in
      Ok (Some
        (mkMarketingPlan
           companySummary
           programsList
           (or (get content "introduction") (JStr ""))
           (or (get content "tools_used") (JStr ""))
           (or (get content "conclusion") (JStr ""))
           (if isArray (get content "how_brevo_helps_you")
            then get content "how_brevo_helps_you" else JArr [])
           (mkRawContentStructure
              (keys content)
              (filter (fun k => includes k "program_" && includes k "details")
                      (keys content))
              (join "." contentPath))
           (if truthy conversationId then Some conversationId else None))).

End ParsePlanData.

(** ** usePolling *)

Module UsePolling.

Inductive Status : Type := idle | polling | success | error | timeout.

(** The state snapshot handed to the presentation layer ([lastPollTime],
    a clock reading, is left out). *)
Record PollingState : Type := mkPollingState {
  isPolling : bool;
  attempt : nat;
  data : value;
  last_error : option string;
  status : Status
}.

(** A pending [setTimeout] held in [timerRef]. *)
Inductive Timer : Type :=
| InitialTimer
| NextTimer (next_attempt : nat).

(** Calls made to the collaborators, most recent first. *)
Inductive Call : Type :=
| CallPollingFn (n : nat)
| CallOnSuccess (result : value)
| CallOnError (message : string)
| CallOnMaxAttemptsReached.

(** [isCompletedResponse] of [executePoll], as a test. *)
Definition isCompletedResponse (typedResult : value) : bool :=
  truthy typedResult
  && (typeof typedResult =? "object")
  && ((str_eq (get typedResult "status") "succeeded"
       && str_eq (get (get typedResult "response") "state") "completed")
      || str_eq (get (get typedResult "response") "state") "completed"
      || (truthy (get (get (get typedResult "response") "data") "content")
          && (0 <? List.length
                     (keys (get (get (get typedResult "response") "data") "content")))%nat)).

Section Scheduler.

(** The state of the component that owns the hook. *)
Context {C : Type}.

Record Options : Type := mkOptions {
  pollingFn : C -> C * result value;
  interval : Z;
  maxAttempts : option nat;
  initialDelay : Z;
  onSuccess : option (value -> C -> C);
  onError : option (string -> C -> C);
  onMaxAttemptsReached : option (C -> C);
  shouldContinuePolling : option (C -> bool)
}.

Variable options : Options.

(** The refs and state of one hook instance, the attempts suspended at
    [await pollingFnRef.current()], the owner's state and the calls
    made so far. *)
Record Hook : Type := mkHook {
  state : PollingState;
  isMounted : bool;
  timer : option Timer;
  pollHistory : list nat;
  isActivePolling : bool;
  hasSuccessfulResponse : bool;
  isLocked : bool;
  lastSuccessData : value;
  awaiting : list nat;
  owner : C;
  calls : list Call
}.

Definition set_state (f : PollingState -> PollingState) (h : Hook) : Hook :=
  mkHook (f (state h)) (isMounted h) (timer h) (pollHistory h) (isActivePolling h)
         (hasSuccessfulResponse h) (isLocked h) (lastSuccessData h) (awaiting h)
         (owner h) (calls h).
Definition set_isMounted (b : bool) (h : Hook) : Hook :=
  mkHook (state h) b (timer h) (pollHistory h) (isActivePolling h)
         (hasSuccessfulResponse h) (isLocked h) (lastSuccessData h) (awaiting h)
         (owner h) (calls h).
Definition set_timer (t : option Timer) (h : Hook) : Hook :=
  mkHook (state h) (isMounted h) t (pollHistory h) (isActivePolling h)
         (hasSuccessfulResponse h) (isLocked h) (lastSuccessData h) (awaiting h)
         (owner h) (calls h).
Definition set_pollHistory (l : list nat) (h : Hook) : Hook :=
  mkHook (state h) (isMounted h) (timer h) l (isActivePolling h)
         (hasSuccessfulResponse h) (isLocked h) (lastSuccessData h) (awaiting h)
         (owner h) (calls h).
Definition set_isActivePolling (b : bool) (h : Hook) : Hook :=
  mkHook (state h) (isMounted h) (timer h) (pollHistory h) b
         (hasSuccessfulResponse h) (isLocked h) (lastSuccessData h) (awaiting h)
         (owner h) (calls h).
Definition set_hasSuccessfulResponse (b : bool) (h : Hook) : Hook :=
  mkHook (state h) (isMounted h) (timer h) (pollHistory h) (isActivePolling h)
         b (isLocked h) (lastSuccessData h) (awaiting h) (owner h) (calls h).
Definition set_isLocked (b : bool) (h : Hook) : Hook :=
  mkHook (state h) (isMounted h) (timer h) (pollHistory h) (isActivePolling h)
         (hasSuccessfulResponse h) b (lastSuccessData h) (awaiting h)
         (owner h) (calls h).
Definition set_lastSuccessData (v : value) (h : Hook) : Hook :=
  mkHook (state h) (isMounted h) (timer h) (pollHistory h) (isActivePolling h)
         (hasSuccessfulResponse h) (isLocked h) v (awaiting h) (owner h) (calls h).
Definition set_awaiting (l : list nat) (h : Hook) : Hook :=
  mkHook (state h) (isMounted h) (timer h) (pollHistory h) (isActivePolling h)
         (hasSuccessfulResponse h) (isLocked h) (lastSuccessData h) l
         (owner h) (calls h).
Definition set_owner (c : C) (h : Hook) : Hook :=
  mkHook (state h) (isMounted h) (timer h) (pollHistory h) (isActivePolling h)
         (hasSuccessfulResponse h) (isLocked h) (lastSuccessData h) (awaiting h)
         c (calls h).
Definition log_call (c : Call) (h : Hook) : Hook :=
  mkHook (state h) (isMounted h) (timer h) (pollHistory h) (isActivePolling h)
         (hasSuccessfulResponse h) (isLocked h) (lastSuccessData h) (awaiting h)
         (owner h) (c :: calls h).

Definition initialState : PollingState := mkPollingState false 0 JNull None idle.

(** The hook right after the first render. *)
Definition mount (c : C) : Hook :=
  mkHook initialState true None [] false false false JNull [] c [].

Definition clearTimer (h : Hook) : Hook := set_timer None h.

Definition stopPolling (h : Hook) : Hook :=
  let h := clearTimer h in
  let h :=
    if isMounted h
    then set_state (fun prev =>
           mkPollingState false (attempt prev) (data prev) (last_error prev)
             (if hasSuccessfulResponse h then success else idle)) h
    else h in
  set_isLocked false (set_isActivePolling false h).

(** [optionsRef.current.maxAttempts && attempt >= optionsRef.current.maxAttempts] *)
Definition maxAttemptsReached (n : nat) : bool :=
  match maxAttempts options with
  | Some m => negb (m =? 0)%nat && (m <=? n)%nat
  | None => false
  end.

(** [optionsRef.current.shouldContinuePolling && !optionsRef.current.shouldContinuePolling()] *)
Definition toldToStop (h : Hook) : bool :=
  match shouldContinuePolling options with
  | Some f => negb (f (owner h))
  | None => false
  end.

Definition notify_success (result : value) (h : Hook) : Hook :=
  match onSuccess options with
  | Some f => log_call (CallOnSuccess result) (set_owner (f result (owner h)) h)
  | None => h
  end.

Definition notify_error (message : string) (h : Hook) : Hook :=
  match onError options with
  | Some f => log_call (CallOnError message) (set_owner (f message (owner h)) h)
  | None => h
  end.

Definition notify_maxAttempts (h : Hook) : Hook :=
  match onMaxAttemptsReached options with
  | Some f => log_call CallOnMaxAttemptsReached (set_owner (f (owner h)) h)
  | None => h
  end.

Definition to_timeout (h : Hook) : Hook :=
  let h := set_state (fun prev =>
             mkPollingState false (attempt prev) (data prev) (last_error prev)
               timeout) h in
  let h := notify_maxAttempts h in
  set_isLocked false (set_isActivePolling false h).

Definition schedule_next (n : nat) (h : Hook) : Hook :=
  if isActivePolling h && isMounted h
  then set_timer (Some (NextTimer (n + 1))) (clearTimer h)
  else set_isLocked false h.

(** [executePoll(attempt)] up to [await pollingFnRef.current()]. *)
Definition executePoll_begin (n : nat) (h : Hook) : Hook :=
  if isLocked h then h
  else
    let h := set_isLocked true h in
    if negb (isMounted h) || negb (isActivePolling h)
    then set_isLocked false h
    else
      let h := set_pollHistory (pollHistory h ++ [n]) h in
      if toldToStop h then stopPolling h
      else set_awaiting (awaiting h ++ [n]) h.

(** [executePoll(attempt)] from the point where the awaited call
    settles; the polling function runs against the owner's state. *)
Definition executePoll_resume (n : nat) (h : Hook) : Hook :=
  let '(c, outcome) := pollingFn options (owner h) in
  let h := log_call (CallPollingFn n) (set_owner c h) in
  match outcome with
  | Ok result =>
      let h := set_lastSuccessData result h in
      let isCompleted := isCompletedResponse result in
      let h := if isCompleted then set_hasSuccessfulResponse true h else h in
      if isMounted h && isActivePolling h
      then
        let h := set_state (fun prev =>
                   mkPollingState (isPolling prev) n result (last_error prev)
                     (if isCompleted then success else polling)) h in
        if isCompleted
        then
          let h := notify_success result h in
          set_isLocked false (set_isActivePolling false h)
        else if maxAttemptsReached n
        then (if isMounted h && isActivePolling h then to_timeout h else h)
        else if toldToStop h then stopPolling h
        else schedule_next n h
      else set_isLocked false h
  | Throw message =>
      if isMounted h && isActivePolling h
      then
        let h := set_state (fun prev =>
                   mkPollingState (isPolling prev) n (data prev) (Some message)
                     error) h in
        let h := notify_error message h in
        if maxAttemptsReached n
        then (if isMounted h then to_timeout h else h)
        else schedule_next n h
      else set_isLocked false h
  end.

Definition startPolling (h : Hook) : Hook :=
  if isActivePolling h || isLocked h then h
  else
    let h := clearTimer h in
    let h := set_isActivePolling true h in
    let h := set_hasSuccessfulResponse false h in
    let h := set_pollHistory [] h in
    let h := set_isLocked false h in
    let h := set_state (fun _ => mkPollingState true 0 JNull None polling) h in
    if (0 <? initialDelay options)%Z
    then set_timer (Some InitialTimer) h
    else executePoll_begin 1 h.

Definition resetPolling (h : Hook) : Hook :=
  let h := stopPolling h in
  let h := set_pollHistory [] h in
  let h := set_lastSuccessData JNull h in
  let h := set_hasSuccessfulResponse false h in
  set_state (fun _ => initialState) h.

(** The cleanup of the unmount effect. *)
Definition unmount (h : Hook) : Hook :=
  clearTimer (set_isActivePolling false (set_isMounted false h)).

(** The pending timer fires. *)
Definition fire_timer (h : Hook) : Hook :=
  match timer h with
  | None => h
  | Some InitialTimer =>
      let h := set_timer None h in
      if isMounted h && isActivePolling h then executePoll_begin 1 h else h
  | Some (NextTimer n) =>
      let h := set_timer None h in
      if isActivePolling h && isMounted h
      then executePoll_begin n (set_isLocked false h)
      else set_isLocked false h
  end.

(** The awaited call of the oldest suspended attempt settles. *)
Definition settle (h : Hook) : Hook :=
  match awaiting h with
  | [] => h
  | n :: rest => executePoll_resume n (set_awaiting rest h)
  end.

Inductive Event : Type :=
| EvStart | EvStop | EvReset | EvUnmount | EvTimer | EvSettle.

Definition step (e : Event) (h : Hook) : Hook :=
  match e with
  | EvStart => startPolling h
  | EvStop => stopPolling h
  | EvReset => resetPolling h
  | EvUnmount => unmount h
  | EvTimer => fire_timer h
  | EvSettle => settle h
  end.

(** The scheduler left to itself: a suspended attempt settles, else the
    pending timer fires. *)
Definition tick (h : Hook) : Hook :=
  match awaiting h with
  | _ :: _ => step EvSettle h
  | [] => step EvTimer h
  end.

Fixpoint run (n : nat) (h : Hook) : Hook :=
  match n with
  | O => h
  | S n' => run n' (tick h)
  end.

Definition count_maxAttemptsCalls (h : Hook) : nat :=
  List.length (filter (fun c => match c with CallOnMaxAttemptsReached => true | _ => false end)
                      (calls h)).

Definition count_pollingFnCalls (h : Hook) : nat :=
  List.length (filter (fun c => match c with CallPollingFn _ => true | _ => false end)
                      (calls h)).

End Scheduler.

End UsePolling.

(** ** useCompetitorStackData *)

Module UseCompetitorStackData.

(** [extractCompetitors(response)]: [JNull] or an array. *)
Definition extractCompetitors (response : value) : value :=
  if negb (truthy response)
     || negb (truthy (get (get (get response "response") "data") "content"))
  then JNull
  else
    let content := get (get (get response "response") "data") "content" in
    if truthy (get content "competitors") && isArray (get content "competitors")
    then get content "competitors"
    else if truthy (get content "competitor_list") && isArray (get content "competitor_list")
    then get content "competitor_list"
    else if truthy (get content "top_competitors") && isArray (get content "top_competitors")
    then get content "top_competitors"
    else JArr [content].

End UseCompetitorStackData.

(** ** useMarketingPlanData *)

Module UseMarketingPlanData.
Import ParsePlanData.

(** The props of the hook and its collaborators: the storage, the clock
    reading used for [generated_at], and the reply of the remote side to
    the status request made with a conversation id at a poll count. *)
Record Env : Type := mkEnv {
  email : string;
  db : MarketingPlanService.Storage;
  now : string;
  http : string -> Z -> Api.HttpReply
}.

(** Refs, state and effects of one mounted instance of the hook.  A
    value set with a state setter is read back at once: re-rendering and
    the refresh of the callbacks that close over the state are taken to
    happen between two polls.  The one closure that is called between
    a state update and the next render, [shouldContinuePolling], is
    modelled with the value it closes over: see [Owner]. *)
Record Session : Type := mkSession {
  (* refs *)
  latestDomainRef : option string;
  conversationIdRef : option string;
  hasNavigatedRef : bool;
  dataValidationPassedRef : bool;
  minimumPollingTimeReachedRef : bool;
  consecutive404ErrorsRef : Z;
  (* state *)
  planData : option MarketingPlan;
  isLoading : bool;
  error : option string;
  rawApiData : value;
  hasValidPlan : bool;
  pollCounter : Z;
  continuePolling : bool;
  autoNavigating : bool;
  isSaving : bool;
  (* effects *)
  writes : list MarketingPlanService.Row;
  navigations : list string
}.

Definition notFoundErrorThreshold : Z := 2.

Definition set_hasNavigatedRef (b : bool) (s : Session) : Session :=
  mkSession (latestDomainRef s) (conversationIdRef s) b (dataValidationPassedRef s)
    (minimumPollingTimeReachedRef s) (consecutive404ErrorsRef s) (planData s)
    (isLoading s) (error s) (rawApiData s) (hasValidPlan s) (pollCounter s)
    (continuePolling s) (autoNavigating s) (isSaving s) (writes s) (navigations s).
Definition set_dataValidationPassedRef (b : bool) (s : Session) : Session :=
  mkSession (latestDomainRef s) (conversationIdRef s) (hasNavigatedRef s) b
    (minimumPollingTimeReachedRef s) (consecutive404ErrorsRef s) (planData s)
    (isLoading s) (error s) (rawApiData s) (hasValidPlan s) (pollCounter s)
    (continuePolling s) (autoNavigating s) (isSaving s) (writes s) (navigations s).
Definition set_minimumPollingTimeReachedRef (b : bool) (s : Session) : Session :=
  mkSession (latestDomainRef s) (conversationIdRef s) (hasNavigatedRef s)
    (dataValidationPassedRef s) b (consecutive404ErrorsRef s) (planData s)
    (isLoading s) (error s) (rawApiData s) (hasValidPlan s) (pollCounter s)
    (continuePolling s) (autoNavigating s) (isSaving s) (writes s) (navigations s).
Definition set_consecutive404ErrorsRef (n : Z) (s : Session) : Session :=
  mkSession (latestDomainRef s) (conversationIdRef s) (hasNavigatedRef s)
    (dataValidationPassedRef s) (minimumPollingTimeReachedRef s) n (planData s)
    (isLoading s) (error s) (rawApiData s) (hasValidPlan s) (pollCounter s)
    (continuePolling s) (autoNavigating s) (isSaving s) (writes s) (navigations s).
Definition set_planData (p : option MarketingPlan) (s : Session) : Session :=
  mkSession (latestDomainRef s) (conversationIdRef s) (hasNavigatedRef s)
    (dataValidationPassedRef s) (minimumPollingTimeReachedRef s)
    (consecutive404ErrorsRef s) p
    (isLoading s) (error s) (rawApiData s) (hasValidPlan s) (pollCounter s)
    (continuePolling s) (autoNavigating s) (isSaving s) (writes s) (navigations s).
Definition set_isLoading (b : bool) (s : Session) : Session :=
  mkSession (latestDomainRef s) (conversationIdRef s) (hasNavigatedRef s)
    (dataValidationPassedRef s) (minimumPollingTimeReachedRef s)
    (consecutive404ErrorsRef s) (planData s)
    b (error s) (rawApiData s) (hasValidPlan s) (pollCounter s)
    (continuePolling s) (autoNavigating s) (isSaving s) (writes s) (navigations s).
Definition set_error (e : option string) (s : Session) : Session :=
  mkSession (latestDomainRef s) (conversationIdRef s) (hasNavigatedRef s)
    (dataValidationPassedRef s) (minimumPollingTimeReachedRef s)
    (consecutive404ErrorsRef s) (planData s)
    (isLoading s) e (rawApiData s) (hasValidPlan s) (pollCounter s)
    (continuePolling s) (autoNavigating s) (isSaving s) (writes s) (navigations s).
Definition set_rawApiData (v : value) (s : Session) : Session :=
  mkSession (latestDomainRef s) (conversationIdRef s) (hasNavigatedRef s)
    (dataValidationPassedRef s) (minimumPollingTimeReachedRef s)
    (consecutive404ErrorsRef s) (planData s)
    (isLoading s) (error s) v (hasValidPlan s) (pollCounter s)
    (continuePolling s) (autoNavigating s) (isSaving s) (writes s) (navigations s).
Definition set_hasValidPlan (b : bool) (s : Session) : Session :=
  mkSession (latestDomainRef s) (conversationIdRef s) (hasNavigatedRef s)
    (dataValidationPassedRef s) (minimumPollingTimeReachedRef s)
    (consecutive404ErrorsRef s) (planData s)
    (isLoading s) (error s) (rawApiData s) b (pollCounter s)
    (continuePolling s) (autoNavigating s) (isSaving s) (writes s) (navigations s).
Definition set_pollCounter (n : Z) (s : Session) : Session :=
  mkSession (latestDomainRef s) (conversationIdRef s) (hasNavigatedRef s)
    (dataValidationPassedRef s) (minimumPollingTimeReachedRef s)
    (consecutive404ErrorsRef s) (planData s)
    (isLoading s) (error s) (rawApiData s) (hasValidPlan s) n
    (continuePolling s) (autoNavigating s) (isSaving s) (writes s) (navigations s).
Definition set_continuePolling (b : bool) (s : Session) : Session :=
  mkSession (latestDomainRef s) (conversationIdRef s) (hasNavigatedRef s)
    (dataValidationPassedRef s) (minimumPollingTimeReachedRef s)
    (consecutive404ErrorsRef s) (planData s)
    (isLoading s) (error s) (rawApiData s) (hasValidPlan s) (pollCounter s)
    b (autoNavigating s) (isSaving s) (writes s) (navigations s).
Definition set_autoNavigating (b : bool) (s : Session) : Session :=
  mkSession (latestDomainRef s) (conversationIdRef s) (hasNavigatedRef s)
    (dataValidationPassedRef s) (minimumPollingTimeReachedRef s)
    (consecutive404ErrorsRef s) (planData s)
    (isLoading s) (error s) (rawApiData s) (hasValidPlan s) (pollCounter s)
    (continuePolling s) b (isSaving s) (writes s) (navigations s).
Definition set_isSaving (b : bool) (s : Session) : Session :=
  mkSession (latestDomainRef s) (conversationIdRef s) (hasNavigatedRef s)
    (dataValidationPassedRef s) (minimumPollingTimeReachedRef s)
    (consecutive404ErrorsRef s) (planData s)
    (isLoading s) (error s) (rawApiData s) (hasValidPlan s) (pollCounter s)
    (continuePolling s) (autoNavigating s) b (writes s) (navigations s).
Definition set_writes (w : list MarketingPlanService.Row) (s : Session) : Session :=
  mkSession (latestDomainRef s) (conversationIdRef s) (hasNavigatedRef s)
    (dataValidationPassedRef s) (minimumPollingTimeReachedRef s)
    (consecutive404ErrorsRef s) (planData s)
    (isLoading s) (error s) (rawApiData s) (hasValidPlan s) (pollCounter s)
    (continuePolling s) (autoNavigating s) (isSaving s) w (navigations s).
Definition set_navigations (l : list string) (s : Session) : Session :=
  mkSession (latestDomainRef s) (conversationIdRef s) (hasNavigatedRef s)
    (dataValidationPassedRef s) (minimumPollingTimeReachedRef s)
    (consecutive404ErrorsRef s) (planData s)
    (isLoading s) (error s) (rawApiData s) (hasValidPlan s) (pollCounter s)
    (continuePolling s) (autoNavigating s) (isSaving s) (writes s) l.

(** The hook right after its first render; the minimum-wait timer has
    not fired and polling is disabled. *)
Definition mount (initialDomain initialConversationId : option string) : Session :=
  mkSession initialDomain initialConversationId false false false 0
    None false None JNull false 0 false false false [] [].

(** The 3 s timer of the mount effect fires. *)
Definition minimumWaitElapsed (s : Session) : Session :=
  set_minimumPollingTimeReachedRef true s.

(** A ref holding an optional string, as a test [!!ref.current]. *)
Definition present (r : option string) : bool :=
  match r with Some d => negb (d =? "") | None => false end.

Definition ref_text (r : option string) : string :=
  match r with Some d => d | None => "undefined" end.

(** The object saved by the success path:
    [{...rawData.response.data, metadata: {...rawData.metadata,
      conversation_id, generated_at}}]. *)
Definition dataToSave (env : Env) (rawData : value) (s : Session) : value :=
  let metadata :=
    JObj (set_field "generated_at" (JStr (now env))
           (set_field "conversation_id" (of_domain (conversationIdRef s))
              (spread (get rawData "metadata")))) in
  JObj (set_field "metadata" metadata
          (spread (get (get rawData "response") "data"))).

(** The [finally] block of the success path. *)
Definition finally_saving (s : Session) : Session :=
  if negb (minimumPollingTimeReachedRef s)
  then set_isSaving true s
  else set_isSaving false s.

(** [handleSuccessfulPlan(parsedData, rawData)] from the point where
    [await saveMarketingPlan(...)] has returned, or from the test of
    [latestDomainRef.current] when that is empty, to its end: the
    success states, the navigation latch and the [finally] block.  The
    refs are read as they are at that moment. *)
Definition handleSuccessfulPlan_resume (parsedData : MarketingPlan)
    (s : Session) : Session :=
  let s := set_planData (Some parsedData) s in
  let s := set_hasValidPlan true s in
  let s := set_isLoading false s in
  let s := set_continuePolling false s in
  let s := set_error None s in
  let shouldNavigate :=
    negb (hasNavigatedRef s)
    && present (latestDomainRef s)
    && dataValidationPassedRef s
    && minimumPollingTimeReachedRef s in
  let s :=
    if shouldNavigate
    then
      set_navigations
        (navigations s ++ [("/results/" ++ ref_text (latestDomainRef s))%string])
        (set_hasNavigatedRef true s)
    else s in
  finally_saving s.

(** [handleSuccessfulPlan(parsedData, rawData)] up to
    [await saveMarketingPlan(...)].  [parsedData] is the plan object
    built by [parsePlanData], [None] for [null]; such an object always
    has keys, a [company_summary] and an array [programs_list], which
    settles the first tests of the source.  The row is handed to the
    table inside the call; the entry is then suspended, holding its
    [parsedData], and the second component says so.  An entry that
    returns early, throws, or has no domain to save under runs to its
    end. *)
Definition handleSuccessfulPlan_begin (env : Env)
    (parsedData : option MarketingPlan) (rawData : value) (s : Session)
  : Session * option MarketingPlan :=
  if hasNavigatedRef s then (s, None)
  else
    match parsedData with
    | None => (set_dataValidationPassedRef false s, None)
    | Some plan =>
        if (List.length (programs_list plan) =? 0)%nat
        then (set_dataValidationPassedRef false s, None)
        else
          let s := set_dataValidationPassedRef true s in
          let s := set_isSaving true s in
          if present (latestDomainRef s)
          then
            if nullish rawData || nullish (get rawData "response")
            then
              (* [rawData.response.data] throws: the [catch] block *)
              (finally_saving (set_isSaving false s), None)
            else
              let '(_, w) :=
                MarketingPlanService.saveMarketingPlan (db env)
                  (ref_text (latestDomainRef s)) (email env)
                  (dataToSave env rawData s) (writes s) in
              (set_writes w s, Some plan)
          else (handleSuccessfulPlan_resume plan s, None)
    end.

(** An entry of the success path during which nothing else runs: the
    awaited save returns before any other callback is entered. *)
Definition handleSuccessfulPlan (env : Env) (parsedData : option MarketingPlan)
    (rawData : value) (s : Session) : Session :=
  match handleSuccessfulPlan_begin env parsedData rawData s with
  | (s, Some plan) => handleSuccessfulPlan_resume plan s
  | (s, None) => s
  end.




Definition formattedErrorMsg (s : Session) (currentConversationId : string) : string :=
  "We couldn't generate a marketing plan for " ++ dquote
    ++ ref_text (latestDomainRef s) ++ dquote
    ++ ". The conversation ID " ++ currentConversationId
    ++ " appears to be invalid. Please try with a different domain.".

(** The [catch] block of the polling callback. *)
Definition handle_apiError (errorMessage currentConversationId : string)
    (s : Session) : Session * value :=
  let isNotFoundError :=
    includes (toLowerCase errorMessage) "no agent response"
    || includes errorMessage "404" in
  let record_error (s : Session) : Session * value :=
    (set_error (Some (if errorMessage =? ""
                      then "Failed to retrieve marketing plan"
                      else errorMessage)) s,
     JNull) in
  if isNotFoundError
  then
    let s := set_consecutive404ErrorsRef (consecutive404ErrorsRef s + 1) s in
    if (notFoundErrorThreshold <=? consecutive404ErrorsRef s)%Z
    then
      let s := set_error (Some (formattedErrorMsg s currentConversationId)) s in
      let s := set_continuePolling false s in
      if negb (autoNavigating s)
      then
        (set_autoNavigating true s,
         JObj [ ("status", JStr "invalid_conversation");
                ("error", JStr (formattedErrorMsg s currentConversationId));
                ("shouldNavigateToInput", JBool true) ])
      else (s, JNull)
    else record_error s
  else record_error (set_consecutive404ErrorsRef 0 s).

(** The polling callback handed to [usePolling]; it never throws. *)
Definition pollingCallback (env : Env) (s : Session) : Session * value :=
  if negb (present (conversationIdRef s)) then (s, JNull)
  else
    let currentConversationId := ref_text (conversationIdRef s) in
    let currentPollCount := (pollCounter s + 1)%Z in
    let s := set_pollCounter (pollCounter s + 1) s in
    match Api.getAnalysisAnswer (http env currentConversationId currentPollCount) with
    | Throw message => handle_apiError message currentConversationId s
    | Ok response =>
        let s := set_consecutive404ErrorsRef 0 s in
        let s := set_rawApiData response s in
        if str_eq (get response "status") "failed"
        then
          handle_apiError
            (to_string (or (get (get response "response") "error")
                           (JStr "Polling failed")))
            currentConversationId s
        else if Api.isAnalysisComplete response
        then
          match parsePlanData (get (get response "response") "data") None with
          | Throw message => handle_apiError message currentConversationId s
          | Ok None =>
              handle_apiError "Generated plan data is empty or invalid"
                              currentConversationId s
          | Ok (Some plan) =>
              let s := handleSuccessfulPlan env (Some plan) response s in
              if minimumPollingTimeReachedRef s && dataValidationPassedRef s
              then (s, response)
              else (s, JNull)
          end
        else (s, response)
    end.

(** The owner of the scheduler: the session, and the value of
    [continuePolling] that the options object held by [optionsRef]
    closes over.  That object is the one of the last render whose
    effects have run; a [setContinuePolling] made by the polling
    function is not seen through it before the next render, and
    [executePoll] goes on, after the awaited call, before that render
    takes place. *)
Record Owner : Type := mkOwner {
  session : Session;
  rendered_continuePolling : bool
}.

Definition on_session (f : Session -> Session) (o : Owner) : Owner :=
  mkOwner (f (session o)) (rendered_continuePolling o).

(** The component renders and the effect of [usePolling] stores the new
    options in [optionsRef]. *)
Definition render (o : Owner) : Owner :=
  mkOwner (session o) (continuePolling (session o)).

(** The options with which the hook drives [usePolling].  The interval
    is the one of the first render (later renders pass the interval of
    the next poll count); no step of the scheduler model reads it. *)
Definition pollingOptions (env : Env) (initialDomain : string)
  : UsePolling.Options (C := Owner) :=
  UsePolling.mkOptions
    (fun o =>
       let '(s', v) := pollingCallback env (session o) in
       (mkOwner s' (rendered_continuePolling o), Ok v))
    (PollingUtils.getProgressivePollingInterval 1)
    (Some 30%nat)
    (PollingUtils.getInitialPollingDelay initialDomain)
    None
    (Some (fun message =>
             on_session
               (set_error (Some (if message =? ""
                                 then "Failed to retrieve marketing plan"
                                 else message)))))
    (* the message also quotes the elapsed seconds, a clock reading *)
    (Some (on_session
             (fun s => set_continuePolling false
                         (set_error (Some "Analysis timeout") s))))
    (Some (fun o => rendered_continuePolling o
                    && present (conversationIdRef (session o)))).

(** The state updates of a step are rendered, and the options
    refreshed, before the scheduler takes its next step: the timer of
    the next attempt runs seconds later. *)
Definition rerender (h : UsePolling.Hook (C := Owner))
  : UsePolling.Hook (C := Owner) :=
  UsePolling.set_owner (render (UsePolling.owner h)) h.

Definition hook_tick (env : Env) (initialDomain : string)
    (h : UsePolling.Hook (C := Owner)) : UsePolling.Hook (C := Owner) :=
  rerender (UsePolling.tick (pollingOptions env initialDomain) h).

Fixpoint hook_run (env : Env) (initialDomain : string) (n : nat)
    (h : UsePolling.Hook (C := Owner)) : UsePolling.Hook (C := Owner) :=
  match n with
  | O => h
  | S n' => hook_run env initialDomain n' (hook_tick env initialDomain h)
  end.

(** The scheduler of a session in which polling has been switched on
    and rendered, as the setup effect leaves it when it calls
    [polling.startPolling()]. *)
Definition hook_start (env : Env) (initialDomain : string) (s : Session)
  : UsePolling.Hook (C := Owner) :=
  UsePolling.startPolling (pollingOptions env initialDomain)
    (UsePolling.mount (render (mkOwner s false))).

End UseMarketingPlanData.

(** ** Vocabulary of the statements *)

Module Spec.

(** The content subtree read by the classifiers and extractors. *)
Definition content_of (response : value) : value :=
  get (get (get response "response") "data") "content".

(** The first array among the recognised competitor properties. *)
Definition recognised_array (content : value) : option value :=
  find isArray
    [ get content "competitors"; get content "competitor_list";
      get content "top_competitors" ].

(** *** Classifier *)

(** One of the known phrases occurs, whatever the case of the letters,
    in the textual content or in the serialised content. *)
Definition embeds_error_phrase (response : value) : Prop :=
  exists phrase, In phrase Api.errorPhrases /\
    match Api.inspected_content response with
    | JStr s => includes (toLowerCase s) phrase = true
    | JArr items => includes (toLowerCase (stringify (JArr items))) phrase = true
    | JObj fields => includes (toLowerCase (stringify (JObj fields))) phrase = true
    | _ => False
    end.

Definition reports_success (response : value) : Prop :=
  get response "status" = JStr "succeeded".

(** A summary-shaped object. *)
Definition summary_shaped (v : value) : Prop :=
  exists fields, v = JObj fields.

(** A non-empty list or map of items. *)
Definition nonempty_items (v : value) : Prop :=
  (exists item items, v = JArr (item :: items))
  \/ (exists field fields, v = JObj (field :: fields)).

(** A key of the form [program_<N>_details], [N] one or more digits. *)
Definition program_details_name (key : string) : Prop :=
  exists digits, digits <> EmptyString /\ all_digits digits = true
                 /\ key = ("program_" ++ digits ++ "_details")%string.

(** *** Domain keys *)

Fixpoint all_lower (s : string) : bool :=
  match s with
  | EmptyString => true
  | String c s' => negb (is_upper c) && all_lower s'
  end.

(** A bare host name: no ['/'], no leading ["www."], no white space at
    either end. *)
Definition bare (s : string) : bool :=
  negb (includes s "/") && negb (startsWith s "www.") && (trim s =? s).

(** *** Normaliser *)





(** The content subtree located by the normaliser. *)
Definition located_content (raw : value) : value :=
  fst (ParsePlanData.getNestedValue raw ParsePlanData.contentPaths).


(** *** Scheduler *)

(** Attempt [k] is suspended at the awaited call. *)
Definition waiting {C : Type} (k : nat) (h : UsePolling.Hook (C := C)) : Prop :=
  UsePolling.isMounted h = true /\ UsePolling.isActivePolling h = true
  /\ UsePolling.isLocked h = true
  /\ UsePolling.timer h = None /\ UsePolling.awaiting h = [k]
  /\ UsePolling.count_maxAttemptsCalls h = 0
  /\ UsePolling.count_pollingFnCalls h + 1 = k.

(** Attempt [k] is scheduled on the timer. *)
Definition scheduled {C : Type} (k : nat) (h : UsePolling.Hook (C := C)) : Prop :=
  UsePolling.isMounted h = true /\ UsePolling.isActivePolling h = true
  /\ UsePolling.isLocked h = true
  /\ UsePolling.timer h = Some (UsePolling.NextTimer k) /\ UsePolling.awaiting h = []
  /\ UsePolling.count_maxAttemptsCalls h = 0
  /\ UsePolling.count_pollingFnCalls h + 1 = k.

(** The initial delay is running. *)
Definition delayed {C : Type} (h : UsePolling.Hook (C := C)) : Prop :=
  UsePolling.isMounted h = true /\ UsePolling.isActivePolling h = true
  /\ UsePolling.isLocked h = false
  /\ UsePolling.timer h = Some UsePolling.InitialTimer /\ UsePolling.awaiting h = []
  /\ UsePolling.count_maxAttemptsCalls h = 0 /\ UsePolling.count_pollingFnCalls h = 0.

(** The session has timed out and nothing is pending. *)
Definition timed_out {C : Type} (m : nat) (h : UsePolling.Hook (C := C)) : Prop :=
  UsePolling.status (UsePolling.state h) = UsePolling.timeout
  /\ UsePolling.isPolling (UsePolling.state h) = false
  /\ UsePolling.isActivePolling h = false
  /\ UsePolling.timer h = None /\ UsePolling.awaiting h = []
  /\ UsePolling.count_maxAttemptsCalls h = 1 /\ UsePolling.count_pollingFnCalls h = m.

(** *** Success path *)



(** The error message matches the not-found test of the polling
    callback. *)
Definition not_found_message (errorMessage : string) : bool :=
  includes (toLowerCase errorMessage) "no agent response"
  || includes errorMessage "404".

(** *** Deep clone *)

(** A value without its ["__proto__"] keys, at every depth. *)
Fixpoint without_proto (v : value) : value :=
  match v with
  | JArr items => JArr (map without_proto items)
  | JObj fields =>
      JObj ((fix rest (l : list (string * value)) : list (string * value) :=
               match l with
               | [] => []
               | (key, x) :: l' =>
                   if key =? "__proto__" then rest l'
                   else (key, without_proto x) :: rest l'
               end) fields)
  | _ => v
  end.

(** No object of the value has a key ["__proto__"]. *)
Fixpoint proto_free (v : value) : bool :=
  match v with
  | JArr items => forallb proto_free items
  | JObj fields =>
      (fix all (l : list (string * value)) : bool :=
         match l with
         | [] => true
         | (key, x) :: l' => negb (key =? "__proto__") && proto_free x && all l'
         end) fields
  | _ => true
  end.

End Spec.

(** ** Sample payloads *)

Module Samples.

Definition sample_competitor_response : value :=
  JObj [ ("status", JStr "succeeded");
         ("response",
          JObj [ ("data",
                  JObj [ ("content",
                          JObj [ ("summary", JStr "three rivals") ]) ]) ]) ].

(** Process-level success whose generated text is an apology. *)
Definition apology_response : value :=
  JObj [ ("status", JStr "succeeded");
         ("response",
          JObj [ ("data",
                  JObj [ ("content",
                          JObj [ ("company_summary",
                                  JObj [ ("name", JStr "I'm SORRY, no data") ]);
                                 ("programs_list",
                                  JArr [ JObj [ ("program_name", JStr "X") ] ]) ]) ]) ]) ].

(** The same payload with a proper name. *)
Definition complete_response : value :=
  JObj [ ("status", JStr "succeeded");
         ("response",
          JObj [ ("data",
                  JObj [ ("content",
                          JObj [ ("company_summary",
                                  JObj [ ("name", JStr "Acme") ]);
                                 ("programs_list",
                                  JArr [ JObj [ ("program_name", JStr "X") ] ]) ]) ]) ]) ].

(** Success reported without any content. *)
Definition bare_success : value := JObj [ ("status", JStr "succeeded") ].

(** Success reported with a content that has none of the expected parts. *)
Definition thin_success : value :=
  JObj [ ("status", JStr "succeeded");
         ("response",
          JObj [ ("data", JObj [ ("content", JObj [ ("note", JStr "n/a") ]) ]) ]) ].





(** The empty map next to a details entry that names program 1. *)
Definition renamed_placeholder_payload : value :=
  JObj [ ("content",
          JObj [ ("programs_list", JObj []);
                 ("program_1_details", JObj [ ("program_name", JStr "Welcome") ]) ]) ].

(** A remote side that always answers [{status: "running"}], polled by
    an owner that only counts the time-outs it is told about. *)
Definition always_running : UsePolling.Options (C := nat) :=
  UsePolling.mkOptions
    (fun c => (c, Ok (JObj [ ("status", JStr "running") ])))
    10000%Z (Some 30) 0%Z None None
    (Some (fun c => S c))
    (Some (fun _ => true)).

(** The remote side is still working and already shows a part of the
    plan. *)
Definition partial_running : value :=
  JObj [ ("status", JStr "running");
         ("response",
          JObj [ ("data",
                  JObj [ ("content",
                          JObj [ ("company_summary",
                                  JObj [ ("name", JStr "Acme") ]) ]) ]) ]) ].

Definition always_partial : UsePolling.Options (C := nat) :=
  UsePolling.mkOptions
    (fun c => (c, Ok partial_running))
    10000%Z (Some 30) 0%Z None None
    (Some (fun c => S c))
    (Some (fun _ => true)).

(** *** Sessions *)

Definition quiet_storage : MarketingPlanService.Storage :=
  MarketingPlanService.mkStorage "en" (fun _ => None).

(** The remote side holds a completed plan. *)
Definition ready_env : UseMarketingPlanData.Env :=
  UseMarketingPlanData.mkEnv "ada@example.com" quiet_storage
    "2025-01-01T00:00:00.000Z"
    (fun _ _ => Api.Reply true 200 "" (Ok complete_response)).

(** The remote side does not know the conversation. *)
Definition dead_key_reply : Api.HttpReply :=
  Api.Reply false 404 "No agent response found" (Throw "").

Definition dead_key_env : UseMarketingPlanData.Env :=
  UseMarketingPlanData.mkEnv "ada@example.com" quiet_storage
    "2025-01-01T00:00:00.000Z" (fun _ _ => dead_key_reply).

(** A freshly mounted hook with polling enabled. *)
Definition fresh_session : UseMarketingPlanData.Session :=
  UseMarketingPlanData.set_continuePolling true
    (UseMarketingPlanData.mount (Some "acme.com") (Some "conv-12345")).

(** The same once the minimum wait has elapsed. *)
Definition settled_session : UseMarketingPlanData.Session :=
  UseMarketingPlanData.minimumWaitElapsed fresh_session.




(** The remote side is still working. *)
Definition running_env : UseMarketingPlanData.Env :=
  UseMarketingPlanData.mkEnv "ada@example.com" quiet_storage
    "2025-01-01T00:00:00.000Z"
    (fun _ _ => Api.Reply true 200 "" (Ok (JObj [ ("status", JStr "running") ]))).

(** *** Payloads for the deep clone *)

(** A JSON body with an own key ["__proto__"]. *)
Definition proto_payload : value :=
  JObj [ ("content", JObj [ ("company_summary", JObj [ ("name", JStr "Acme") ]) ]);
         ("__proto__", JObj [ ("response", JStr "injected") ]) ].

(** A saved object whose nested content is [null]. *)
Definition null_content_payload : value :=
  JObj [ ("response", JObj [ ("data", JObj [ ("content", JNull) ]) ]) ].

End Samples.


(** ** parsePlanData: validation *)

Module ValidatePlanData.
Import ParsePlanData.

Record ValidationError : Type := mkValidationError {
  field : string;
  message : string
}.

Record ParsedDataResult : Type := mkParsedDataResult {
  data : option MarketingPlan;
  isValid : bool;
  errors : list ValidationError
}.

(** [hasContent(str)] on any value: a truthy value that is not a string
    has no [trim] method, so the call throws a [TypeError]. *)
Definition hasContent_call (str : value) : result bool :=
  if negb (truthy str) then Ok false
  else
    match str with
    | JStr _ => Ok (hasContent str)
    | _ => Throw "str.trim is not a function"
    end.

(** [(a && hasContent(a)) || (b && hasContent(b))] as a test. *)
Definition has_either (a b : value) : result bool :=
  first <- (if truthy a then hasContent_call a else Ok false) ;;
  if first then Ok true
  else if truthy b then hasContent_call b else Ok false.

Definition missing_activities : ValidationError :=
  mkValidationError "company_summary.activities"
    "Missing required field: either activities or industry must be provided".

Definition missing_target : ValidationError :=
  mkValidationError "company_summary.target"
    "Missing required field: either target or target_audience must be provided".

(** [validatePlanData(data, domain)]; it catches every error. *)
Definition validatePlanData (raw : value) (domain : option string)
  : ParsedDataResult :=
  if negb (truthy raw)
  then mkParsedDataResult None false
         [ mkValidationError "data" "Response data is null or undefined" ]
  else
    match parsePlanData raw domain with
    | Throw parseError =>
        mkParsedDataResult None false [ mkValidationError "parsing" parseError ]
    | Ok None =>
        mkParsedDataResult None false
          [ mkValidationError "parsing" "Failed to parse marketing plan data" ]
    | Ok (Some parsedData) =>
        let summaryObj := company_summary parsedData in
        match has_either (activities summaryObj) (industry summaryObj) with
        | Throw error =>
            mkParsedDataResult None false [ mkValidationError "validation" error ]
        | Ok hasActivities =>
            match has_either (target summaryObj) (target_audience summaryObj) with
            | Throw error =>
                mkParsedDataResult None false
                  [ mkValidationError "validation" error ]
            | Ok hasTarget =>
                let errors :=
                  (if hasActivities then [] else [ missing_activities ])
                  ++ (if hasTarget then [] else [ missing_target ]) in
                if (0 <? List.length errors)%nat
                then mkParsedDataResult None false errors
                else mkParsedDataResult (Some parsedData) true []
            end
        end
    end.

End ValidatePlanData.

Module SpecMore.

(** The entries of a list or map of programs. *)
Definition program_entries (data : value) : list value :=
  match data with
  | JArr items => items
  | JObj fields => map snd fields
  | _ => []
  end.

(** The summary object found in the located content. *)
Definition located_summary (raw : value) : value :=
  get (Spec.located_content raw) "company_summary".

End SpecMore.

Module SamplesMore.

Definition three_programs : value :=
  JArr [ JObj [ ("program_name", JStr "Welcome") ];
         JObj [ ("name", JStr "Win back") ];
         JStr "loyalty" ].

Definition details_for_two : value :=
  JObj [ ("program_2_details",
          JObj [ ("program_name", JStr "Reactivation");
                 ("scenarios", JArr [ JStr "day 30" ]) ]);
         ("program_9_details", JObj [ ("program_name", JStr "Nobody") ]) ].

(** A null content under the first path next to a valid one under the
    second. *)
Definition shadowed_content : value :=
  JObj [ ("response", JObj [ ("data", JObj [ ("content", JNull) ]) ]);
         ("content", JObj [ ("company_summary", JObj [ ("name", JStr "Acme") ]) ]) ].

Definition full_summary_payload : value :=
  JObj [ ("content",
          JObj [ ("company_summary",
                  JObj [ ("name", JStr "Acme");
                         ("activities", JStr "Retail");
                         ("target", JStr "Developers") ]);
                 ("programs_list", JArr [ JObj [ ("program_name", JStr "X") ] ]) ]) ].

Definition no_target_payload : value :=
  JObj [ ("content",
          JObj [ ("company_summary",
                  JObj [ ("name", JStr "Acme"); ("activities", JStr "Retail") ]);
                 ("programs_list", JArr [ JObj [ ("program_name", JStr "X") ] ]) ]) ].

End SamplesMore.

Module SpecScheduler.

(** The calls made to the owner's callbacks, the polling function left
    aside. *)
Definition callbacks {C : Type} (h : UsePolling.Hook (C := C))
  : list UsePolling.Call :=
  filter (fun c => match c with UsePolling.CallPollingFn _ => false | _ => true end)
         (UsePolling.calls h).

Definition count_successCalls {C : Type} (h : UsePolling.Hook (C := C)) : nat :=
  List.length
    (filter (fun c => match c with UsePolling.CallOnSuccess _ => true | _ => false end)
            (UsePolling.calls h)).

(** The events of a list happen one after the other. *)
Definition apply_events {C : Type} (options : UsePolling.Options (C := C))
    (events : list UsePolling.Event) (h : UsePolling.Hook (C := C))
  : UsePolling.Hook (C := C) :=
  fold_left (fun h e => UsePolling.step options e h) events h.

(** Every event but [stop] and [reset]. *)
Definition quiet (e : UsePolling.Event) : bool :=
  match e with
  | UsePolling.EvStop | UsePolling.EvReset => false
  | _ => true
  end.

(** At most one attempt is suspended, and then it holds the lock and no
    timer is pending. *)
Definition single_flight {C : Type} (h : UsePolling.Hook (C := C)) : Prop :=
  UsePolling.awaiting h = []
  \/ exists k, UsePolling.awaiting h = [k]
               /\ UsePolling.timer h = None
               /\ UsePolling.isLocked h = true.

(** The session has been stopped: inactive, and no timer pending. *)
Definition halted {C : Type} (h : UsePolling.Hook (C := C)) : Prop :=
  UsePolling.isActivePolling h = false /\ UsePolling.timer h = None.

End SpecScheduler.

Module SamplesScheduler.

(** A remote side that answers with a completed plan at once. *)
Definition always_ready : UsePolling.Options (C := nat) :=
  UsePolling.mkOptions
    (fun c => (c, Ok Samples.complete_response))
    10000%Z (Some 30) 0%Z
    (Some (fun _ c => S c)) None None
    (Some (fun _ => true)).

End SamplesScheduler.

(** ** useCompetitorStackData: the polling loop *)

Module CompetitorPolling.

(** The data handed to the page; its [metadata] (time of the analysis,
    language of the browser, version) plays no part in the loop and is
    left out. *)
Record CompetitorStackData : Type := mkCompetitorStackData {
  domain : string;
  analysis : value;
  competitors : value
}.

(** The props of the hook and the reply of the remote side to the
    request made after [made] earlier requests with an attempt count. *)
Record Env : Type := mkEnv {
  companyDomain : option string;
  conversationId : option string;
  http : nat -> nat -> Api.HttpReply
}.

(** State and refs of one instance of the hook, and the attempt counts
    of the requests made so far, oldest first.  An interval callback is
    taken to finish before the next one runs. *)
Record Hook : Type := mkHook {
  data : option CompetitorStackData;
  isLoading : bool;
  error : option string;
  hasValidData : bool;
  rawApiData : value;
  pollingIntervalRef : bool;
  attemptCountRef : nat;
  mountedRef : bool;
  requests : list nat
}.

Definition maxAttempts : nat := 30.

Definition present (r : option string) : bool :=
  match r with Some d => negb (d =? "") | None => false end.

Definition text (r : option string) : string :=
  match r with Some d => d | None => "" end.

Definition stopPolling (h : Hook) : Hook :=
  mkHook (data h) (isLoading h) (error h) (hasValidData h) (rawApiData h)
    false (attemptCountRef h) (mountedRef h) (requests h).

Definition startPolling (env : Env) (h : Hook) : Hook :=
  if negb (present (conversationId env)) || pollingIntervalRef h then h
  else
    mkHook (data h) (isLoading h) (error h) (hasValidData h) (rawApiData h)
      true (attemptCountRef h) (mountedRef h) (requests h).

(** [getAnalysisAnswer(conversationId, attempt)] and the request log. *)
Definition request (env : Env) (attempt : nat) (h : Hook)
  : Hook * result value :=
  (mkHook (data h) (isLoading h) (error h) (hasValidData h) (rawApiData h)
     (pollingIntervalRef h) (attemptCountRef h) (mountedRef h)
     (requests h ++ [attempt]),
   Api.getAnalysisAnswer (http env (List.length (requests h)) attempt)).

(** The state updates made for a complete response. *)
Definition accept (env : Env) (response : value) (h : Hook) : Hook :=
  mkHook
    (Some (mkCompetitorStackData (text (companyDomain env)) response
             (UseCompetitorStackData.extractCompetitors response)))
    false (error h) true (rawApiData h)
    (pollingIntervalRef h) (attemptCountRef h) (mountedRef h) (requests h).

Definition set_rawApiData (response : value) (h : Hook) : Hook :=
  mkHook (data h) (isLoading h) (error h) (hasValidData h) response
    (pollingIntervalRef h) (attemptCountRef h) (mountedRef h) (requests h).

Definition set_error (e : option string) (h : Hook) : Hook :=
  mkHook (data h) (isLoading h) e (hasValidData h) (rawApiData h)
    (pollingIntervalRef h) (attemptCountRef h) (mountedRef h) (requests h).

Definition set_isLoading (b : bool) (h : Hook) : Hook :=
  mkHook (data h) b (error h) (hasValidData h) (rawApiData h)
    (pollingIntervalRef h) (attemptCountRef h) (mountedRef h) (requests h).

Definition set_attemptCountRef (n : nat) (h : Hook) : Hook :=
  mkHook (data h) (isLoading h) (error h) (hasValidData h) (rawApiData h)
    (pollingIntervalRef h) n (mountedRef h) (requests h).

(** The callback of [setInterval]; it runs only while the interval is
    set. *)
Definition interval_tick (env : Env) (h : Hook) : Hook :=
  if negb (pollingIntervalRef h) then h
  else if negb (mountedRef h) || (maxAttempts <=? attemptCountRef h)%nat
  then
    let h' := stopPolling h in
    if (maxAttempts <=? attemptCountRef h)%nat
    then set_error (Some "Analysis timed out. Please try again.") h'
    else h'
  else
    let h := set_attemptCountRef (attemptCountRef h + 1) h in
    let '(h, outcome) := request env (attemptCountRef h) h in
    match outcome with
    | Ok response =>
        let h := set_rawApiData response h in
        if Api.isAnalysisComplete response
        then stopPolling (accept env response h)
        else h
    | Throw message =>
        if (3 <=? attemptCountRef h)%nat
        then stopPolling (set_error (Some message) h)
        else h
    end.

(** The check made with attempt count 0 by the mount effect and by
    [retryConnection]. *)
Definition check_now (env : Env) (stop_when_complete : bool) (h : Hook) : Hook :=
  let h := set_isLoading true h in
  let h := set_error None h in
  let h := set_attemptCountRef 0 h in
  let '(h, outcome) := request env 0 h in
  match outcome with
  | Ok response =>
      let h := set_rawApiData response h in
      if Api.isAnalysisComplete response
      then (if stop_when_complete
            then stopPolling (accept env response h)
            else accept env response h)
      else startPolling env (set_isLoading false h)
  | Throw message => set_isLoading false (set_error (Some message) h)
  end.

Definition retryConnection (env : Env) (h : Hook) : Hook :=
  if negb (present (conversationId env))
  then set_error (Some "No conversation ID available for retry") h
  else check_now env true h.

Definition initial : Hook :=
  mkHook None false None false JNull false 0 true [].

(** The hook after its mount effect and the settling of the first
    check. *)
Definition mount (env : Env) : Hook :=
  if present (conversationId env) then check_now env false initial else initial.

Definition unmount (h : Hook) : Hook :=
  stopPolling
    (mkHook (data h) (isLoading h) (error h) (hasValidData h) (rawApiData h)
       (pollingIntervalRef h) (attemptCountRef h) false (requests h)).

Inductive Event : Type := EvTick | EvRetry | EvUnmount.

Definition step (env : Env) (e : Event) (h : Hook) : Hook :=
  match e with
  | EvTick => interval_tick env h
  | EvRetry => retryConnection env h
  | EvUnmount => unmount h
  end.

Definition apply_events (env : Env) (events : list Event) (h : Hook) : Hook :=
  fold_left (fun h e => step env e h) events h.

Fixpoint ticks (env : Env) (n : nat) (h : Hook) : Hook :=
  match n with
  | O => h
  | S n' => ticks env n' (interval_tick env h)
  end.

End CompetitorPolling.

Module SpecCompetitor.
Import CompetitorPolling.

(** The attempt counter is capped and so is every logged attempt. *)
Definition capped (h : Hook) : Prop :=
  attemptCountRef h <= maxAttempts
  /\ Forall (fun a => a <= maxAttempts) (requests h).

(** The interval is set, the hook is mounted and [k] polls were made. *)
Definition polling_at (k : nat) (h : Hook) : Prop :=
  pollingIntervalRef h = true /\ mountedRef h = true /\ attemptCountRef h = k.

End SpecCompetitor.

Module SamplesCompetitor.

Definition running_reply : Api.HttpReply :=
  Api.Reply true 200 "" (Ok (JObj [ ("status", JStr "running") ])).

(** The first check finds the analysis running; every later request
    fails. *)
Definition failing_env : CompetitorPolling.Env :=
  CompetitorPolling.mkEnv (Some "acme.com") (Some "conv-12345")
    (fun made _ => if (made =? 0)%nat then running_reply
                   else Api.NetworkError "Failed to fetch").

Definition running_env : CompetitorPolling.Env :=
  CompetitorPolling.mkEnv (Some "acme.com") (Some "conv-12345")
    (fun _ _ => running_reply).

(** The analysis is complete at the second poll. *)
Definition ready_at_two : CompetitorPolling.Env :=
  CompetitorPolling.mkEnv (Some "acme.com") (Some "conv-12345")
    (fun made _ => if (made <? 2)%nat then running_reply
                   else Api.Reply true 200 "" (Ok Samples.complete_response)).

End SamplesCompetitor.

(** ** Vocabulary for runs of the polling callback *)

Module SpecCallback.
Import UseMarketingPlanData.

(** [n] runs of the polling callback, one after the other. *)
Fixpoint polls (env : Env) (n : nat) (s : Session) : Session :=
  match n with
  | O => s
  | S n' => polls env n' (fst (pollingCallback env s))
  end.

(** Every row is filed under the key and the address. *)
Definition filed_under (key address : string)
    (rows : list MarketingPlanService.Row) : Prop :=
  Forall (fun row => MarketingPlanService.company_domain row = key
                     /\ MarketingPlanService.email row = address
                     /\ key <> "" /\ address <> "") rows.

(** What one run of the callback, or of one of its two exits, may do
    to the parts of the session that outlive it. *)
Definition advance (env : Env) (s s' : Session) : Prop :=
  latestDomainRef s' = latestDomainRef s
  /\ (continuePolling s = false -> continuePolling s' = false)
  /\ (hasNavigatedRef s = true ->
        hasNavigatedRef s' = true /\ navigations s' = navigations s)
  /\ (hasNavigatedRef s = false ->
        (hasNavigatedRef s' = false /\ navigations s' = navigations s)
        \/ (hasNavigatedRef s' = true
            /\ navigations s'
               = navigations s
                 ++ [ ("/results/" ++ ref_text (latestDomainRef s))%string ]))
  /\ exists rows,
       writes s' = writes s ++ rows
       /\ filed_under (ref_text (latestDomainRef s)) (email env) rows.

(** The bookkeeping done by the callback before it takes an exit. *)
Definition same_frame (s s1 : Session) : Prop :=
  latestDomainRef s1 = latestDomainRef s
  /\ continuePolling s1 = continuePolling s
  /\ hasNavigatedRef s1 = hasNavigatedRef s
  /\ navigations s1 = navigations s
  /\ writes s1 = writes s.

Fixpoint no_space (s : string) : bool :=
  match s with
  | EmptyString => true
  | String c s' => negb (is_space c) && no_space s'
  end.

End SpecCallback.

(** ** api.ts: the request log *)

Module ApiLogs.
Section Log.
Context {ApiLogEntry : Type}.

(** [apiLogs = [log, ...apiLogs].slice(0, 100)] *)
Definition addLog (log : ApiLogEntry) (apiLogs : list ApiLogEntry)
  : list ApiLogEntry :=
  firstn 100 (log :: apiLogs).

Definition resetApiLogs (apiLogs : list ApiLogEntry) : list ApiLogEntry := [].

(** The calls [addLog(l1); addLog(l2); ...] in this order. *)
Definition addLogs (logs apiLogs : list ApiLogEntry) : list ApiLogEntry :=
  fold_left (fun acc log => addLog log acc) logs apiLogs.

End Log.
End ApiLogs.

(** ** languageDetection.ts *)

Module LanguageDetection.

Definition SUPPORTED_LANGUAGES : list string :=
  [ "en"; "fr"; "es"; "de"; "it"; "pt"; "nl"; "ru"; "zh"; "ja"; "ko"; "ar" ].

(** The names an object literal inherits from [Object.prototype]; each
    of them reads as a truthy value. *)
Definition inherited : list string :=
  [ "constructor"; "__defineGetter__"; "__defineSetter__"; "hasOwnProperty";
    "__lookupGetter__"; "__lookupSetter__"; "isPrototypeOf";
    "propertyIsEnumerable"; "toString"; "valueOf"; "__proto__";
    "toLocaleString" ].

Definition mem (k : string) (l : list string) : bool :=
  existsb (String.eqb k) l.

(** [SUPPORTED_LANGUAGES[langCode]] as a test. *)
Definition lookup_truthy (langCode : string) : bool :=
  mem langCode SUPPORTED_LANGUAGES || mem langCode inherited.

(** [language in SUPPORTED_LANGUAGES] *)
Definition isLanguageSupported (language : string) : bool :=
  mem language SUPPORTED_LANGUAGES || mem language inherited.

(** The loop of [detectUserLanguage] over
    [[navigator.language, ...(navigator.languages || [])]]; an entry
    that is not a string ([None]) makes [lang.split] throw, and the
    [catch] block answers "en". *)
Fixpoint first_supported (browserLanguages : list (option string)) : string :=
  match browserLanguages with
  | [] => "en"
  | None :: _ => "en"
  | Some lang :: rest =>
      let langCode := toLowerCase (split_first "-" lang) in
      if lookup_truthy langCode then langCode else first_supported rest
  end.

(** The browser: [navigator.language], [navigator.languages] ([None]
    when it is missing), the preference held by [localStorage] and
    whether [setItem] succeeds. *)
Record Browser : Type := mkBrowser {
  language : option string;
  languages : option (list (option string));
  preference : option string;
  writable : bool
}.

Definition detectUserLanguage (b : Browser) : string :=
  first_supported
    (language b :: match languages b with Some l => l | None => [] end).

Definition storeLanguagePreference (lang : string) (b : Browser) : Browser :=
  if writable b
  then mkBrowser (language b) (languages b) (Some lang) (writable b)
  else b.

Definition getStoredLanguagePreference (b : Browser) : option string :=
  preference b.

Definition getUserLanguage (b : Browser) : Browser * string :=
  match getStoredLanguagePreference b with
  | Some storedPreference =>
      if negb (storedPreference =? "") then (b, storedPreference)
      else
        let detected := detectUserLanguage b in
        (storeLanguagePreference detected b, detected)
  | None =>
      let detected := detectUserLanguage b in
      (storeLanguagePreference detected b, detected)
  end.

(** The user changes the language settings of the browser. *)
Definition change_settings (lang : option string)
    (langs : option (list (option string))) (b : Browser) : Browser :=
  mkBrowser lang langs (preference b) (writable b).

End LanguageDetection.

Module SamplesCallback.

Definition french_browser : LanguageDetection.Browser :=
  LanguageDetection.mkBrowser (Some "fr-CA") (Some [ Some "fr-CA"; Some "en-US" ])
    None true.

End SamplesCallback.
(** * Properties *)

Import Spec Samples.

(** ** Interval policy *)

Section IntervalPolicy.
Import PollingUtils.
Local Open Scope Z_scope.

Lemma interval_monotone (a b : Z) :
  a <= b -> getProgressivePollingInterval a <= getProgressivePollingInterval b.
Proof.
  intros Hab. unfold getProgressivePollingInterval.
  destruct (Z.leb_spec a 10), (Z.leb_spec b 10),
           (Z.leb_spec a 20), (Z.leb_spec b 20); lia.
Qed.

(** C9.  The interval is 10000 ms for attempts 1 to 10, 20000 ms for
    attempts 11 to 20 and 30000 ms from attempt 21 on; it never decreases
    as the attempt number grows, attempt 1 waits no longer than attempt
    11, and an attempt number of 0 or less is treated like attempt 1. *)
Theorem interval_staircase (a : Z) :
  (1 <= a <= 10 -> getProgressivePollingInterval a = 10000)
  /\ (11 <= a <= 20 -> getProgressivePollingInterval a = 20000)
  /\ (21 <= a -> getProgressivePollingInterval a = 30000)
  /\ (forall b, 1 <= a <= b ->
        getProgressivePollingInterval a <= getProgressivePollingInterval b)
  /\ getProgressivePollingInterval 1 <= getProgressivePollingInterval 11
  /\ (a <= 0 -> getProgressivePollingInterval a = getProgressivePollingInterval 1).
Proof.
  repeat split.
  - intros [_ H]. unfold getProgressivePollingInterval.
    destruct (Z.leb_spec a 10); [ reflexivity | lia ].
  - intros [H1 H2]. unfold getProgressivePollingInterval.
    destruct (Z.leb_spec a 10); [ lia | ].
    destruct (Z.leb_spec a 20); [ reflexivity | lia ].
  - intros H. unfold getProgressivePollingInterval.
    destruct (Z.leb_spec a 10); [ lia | ].
    destruct (Z.leb_spec a 20); [ lia | reflexivity ].
  - intros b [_ Hab]. now apply interval_monotone.
  - apply interval_monotone. lia.
  - intros H. unfold getProgressivePollingInterval.
    destruct (Z.leb_spec a 10); [ reflexivity | lia ].
Qed.

Lemma interval_staircase_witness :
  getProgressivePollingInterval 7 = 10000
  /\ getProgressivePollingInterval 7 <= getProgressivePollingInterval 25.
Proof.
  destruct (interval_staircase 7) as (H1 & _ & _ & H4 & _).
  split; [ apply H1; lia | apply H4; lia ].
Defined.

End IntervalPolicy.

(** ** Competitor extraction *)

Section Competitors.
Import UseCompetitorStackData.

(** A present content subtree is only found in an object. *)
Lemma content_truthy_response (response : value) :
  truthy (content_of response) = true -> truthy response = true.
Proof.
  unfold content_of. destruct response; simpl; try discriminate; auto.
Qed.

Lemma isArray_truthy (v : value) : isArray v = true -> truthy v = true.
Proof. destruct v; simpl; congruence. Qed.

(** C10.  [extractCompetitors] answers [null] exactly when the content
    subtree [response.response.data.content] is absent (missing, [null]
    or another falsy value).  Otherwise it returns the first of
    [competitors], [competitor_list], [top_competitors] that is an array,
    and the one-element list [[content]] when none is; in that last case
    the result is neither [null] nor empty. *)
Theorem extractCompetitors_spec (response : value) :
  (extractCompetitors response = JNull <-> truthy (content_of response) = false)
  /\ (truthy (content_of response) = true ->
      extractCompetitors response =
        match recognised_array (content_of response) with
        | Some competitors => competitors
        | None => JArr [content_of response]
        end)
  /\ (truthy (content_of response) = true ->
      recognised_array (content_of response) = None ->
      exists item, extractCompetitors response = JArr [item]).
Proof.
  assert (Hmain : truthy (content_of response) = true ->
      extractCompetitors response =
        match recognised_array (content_of response) with
        | Some competitors => competitors
        | None => JArr [content_of response]
        end).
  { intros Hc. pose proof (content_truthy_response _ Hc) as Hr.
    unfold extractCompetitors, recognised_array. fold (content_of response).
    rewrite Hr, Hc. simpl.
    destruct (isArray (get (content_of response) "competitors")) eqn:E1.
    { now rewrite (isArray_truthy _ E1). }
    rewrite andb_false_r.
    destruct (isArray (get (content_of response) "competitor_list")) eqn:E2.
    { now rewrite (isArray_truthy _ E2). }
    rewrite andb_false_r.
    destruct (isArray (get (content_of response) "top_competitors")) eqn:E3.
    { now rewrite (isArray_truthy _ E3). }
    now rewrite andb_false_r. }
  split; [ | split ].
  - split.
    + intros Hnull. destruct (truthy (content_of response)) eqn:Hc; [ | reflexivity ].
      rewrite (Hmain eq_refl) in Hnull.
      destruct (recognised_array (content_of response)) eqn:Hf; [ | discriminate ].
      apply find_some in Hf. destruct Hf as [_ Hf]. subst v. discriminate.
    + intros Hc. unfold extractCompetitors. fold (content_of response).
      rewrite Hc. simpl. now rewrite orb_true_r.
  - exact Hmain.
  - intros Hc Hnone. rewrite (Hmain Hc), Hnone. eauto.
Qed.

Lemma extractCompetitors_spec_witness :
  exists item, extractCompetitors sample_competitor_response = JArr [item].
Proof.
  destruct (extractCompetitors_spec sample_competitor_response) as (_ & _ & H).
  apply H; reflexivity.
Defined.

End Competitors.

(** ** Response classifier *)

Section Classifier.
Import Api PollingUtils.

Lemma errorPhrases_lowercase (phrase : string) :
  In phrase errorPhrases -> toLowerCase phrase = phrase.
Proof.
  unfold errorPhrases. simpl.
  intros H. repeat (destruct H as [H | H]; [ now subst phrase | ]).
  contradiction.
Qed.

Lemma existsb_phrase (text : string) (phrase : string) :
  In phrase errorPhrases -> includes text phrase = true ->
  existsb (fun p => includes text (toLowerCase p)) errorPhrases = true.
Proof.
  intros Hin Hinc. apply existsb_exists. exists phrase. split; [ exact Hin | ].
  now rewrite (errorPhrases_lowercase _ Hin).
Qed.

Lemma embedded_error_detected (response : value) :
  truthy response = true -> embeds_error_phrase response ->
  containsErrorMessage response = true.
Proof.
  intros Ht (phrase & Hin & Hc). unfold containsErrorMessage. rewrite Ht. simpl.
  destruct (inspected_content response) eqn:E; try contradiction;
    now apply existsb_phrase with phrase.
Qed.

(** C4.  A response whose content holds one of the known error phrases,
    in any letter case, in its text or in its serialised form, is never
    classified as complete, whatever its status field says. *)
Theorem embedded_error_not_complete (response : value) :
  embeds_error_phrase response -> isAnalysisComplete response = false.
Proof.
  intros H. unfold isAnalysisComplete.
  destruct (truthy response) eqn:Ht; [ | reflexivity ]. simpl.
  now rewrite (embedded_error_detected _ Ht H).
Qed.

Lemma embedded_error_not_complete_witness :
  reports_success apology_response
  /\ isAnalysisComplete apology_response = false
  /\ isAnalysisComplete complete_response = true.
Proof.
  split; [ reflexivity | split; [ | reflexivity ] ].
  apply embedded_error_not_complete.
  exists "i'm sorry". split; [ simpl; tauto | reflexivity ].
Defined.

(** *** Minimum content *)

Lemma digits_then_suffix (digits suffix : string) :
  digits <> EmptyString -> all_digits digits = true ->
  digits_then suffix (digits ++ suffix)%string = true.
Proof.
  induction digits as [ | c digits IH ]; intros Hne Hall; [ congruence | ].
  simpl in Hall. apply andb_prop in Hall. destruct Hall as [Hc Hall].
  simpl. rewrite Hc. simpl.
  destruct digits as [ | c' digits' ].
  - simpl. now rewrite String.eqb_refl.
  - rewrite IH; [ apply orb_true_r | discriminate | exact Hall ].
Qed.

Lemma program_details_name_matches (key : string) :
  program_details_name key -> is_program_details_key key = true.
Proof.
  intros (digits & Hne & Hall & ->). unfold is_program_details_key.
  simpl. now apply digits_then_suffix.
Qed.

(** C5, as the code has it.  When the content subtree is present,
    [hasMinimumContent] is true as soon as the remote side reports
    success, or the content has a summary-shaped object, a non-empty
    list or map of items, or a key of the form [program_<N>_details];
    with a present content a reported success needs nothing else.
    Without a content subtree the result is false, whatever the status
    and the rest of the payload. *)
Theorem hasMinimumContent_sufficient (response : value) :
  (truthy (content_of response) = true ->
   reports_success response
   \/ summary_shaped (get (content_of response) "company_summary")
   \/ nonempty_items (get (content_of response) "programs_list")
   \/ (exists key, In key (keys (content_of response)) /\ program_details_name key) ->
   hasMinimumContent response = true)
  /\ (truthy (content_of response) = false -> hasMinimumContent response = false).
Proof.
  split.
  - intros Hc H. pose proof (content_truthy_response _ Hc) as Hr.
    unfold hasMinimumContent. fold (content_of response).
    rewrite Hr, Hc. simpl.
    destruct H as [Hs | [Hs | [Hs | Hs]]].
    + unfold reports_success in Hs. now rewrite Hs.
    + destruct (str_eq (get response "status") "succeeded"); [ reflexivity | ].
      destruct Hs as (fields & ->). reflexivity.
    + destruct (str_eq (get response "status") "succeeded"); [ reflexivity | ].
      destruct Hs as [(item & items & ->) | (field & fields & ->)];
        simpl; now rewrite orb_true_r.
    + destruct (str_eq (get response "status") "succeeded"); [ reflexivity | ].
      destruct Hs as (key & Hin & Hname).
      assert (existsb is_program_details_key (keys (content_of response)) = true) as ->.
      { apply existsb_exists. exists key. split; [ exact Hin | ].
        now apply program_details_name_matches. }
      now rewrite orb_true_r.
  - intros Hc. unfold hasMinimumContent. fold (content_of response).
    rewrite Hc. cbn [negb]. now rewrite orb_true_r.
Qed.

Lemma hasMinimumContent_sufficient_witness :
  hasMinimumContent thin_success = true
  /\ hasMinimumContent bare_success = false.
Proof.
  split.
  - apply (proj1 (hasMinimumContent_sufficient thin_success));
      [ reflexivity | left; reflexivity ].
  - apply (proj2 (hasMinimumContent_sufficient bare_success)). reflexivity.
Defined.

(** C5 as stated fails: a reported success without a content subtree is
    rejected by the guard that precedes the status test. *)
Lemma hasMinimumContent_success_without_content :
  reports_success bare_success /\ hasMinimumContent bare_success = false.
Proof. split; reflexivity. Qed.

End Classifier.

(** ** Domain normalisation *)

Section Domains.
Import DomainRegex.

Lemma lower_char_not_upper (c : ascii) : is_upper (lower_char c) = false.
Proof.
  destruct c as [[] [] [] [] [] [] [] []]; reflexivity.
Qed.

Lemma all_lower_toLowerCase (s : string) : all_lower (toLowerCase s) = true.
Proof.
  induction s as [ | c s IH ]; [ reflexivity | ].
  simpl. now rewrite lower_char_not_upper, IH.
Qed.

Lemma toLowerCase_fixed (s : string) : all_lower s = true -> toLowerCase s = s.
Proof.
  induction s as [ | c s IH ]; [ reflexivity | ].
  simpl. intros H. apply andb_prop in H. destruct H as [Hc Hs].
  unfold lower_char. apply negb_true_iff in Hc. rewrite Hc.
  now rewrite IH.
Qed.

Lemma all_lower_slice (n : nat) (s : string) :
  all_lower s = true -> all_lower (slice n s) = true.
Proof.
  revert s. induction n as [ | n IH ]; intros s H; [ exact H | ].
  destruct s as [ | c s ]; [ reflexivity | ].
  simpl in *. apply andb_prop in H. now apply IH.
Qed.

Lemma all_lower_strip_path (s : string) :
  all_lower s = true -> all_lower (strip_path s) = true.
Proof.
  induction s as [ | c s IH ]; [ reflexivity | ].
  simpl. intros H. apply andb_prop in H. destruct H as [Hc Hs].
  destruct (Ascii.eqb c "/" && no_line_terminator s); [ reflexivity | ].
  simpl. now rewrite Hc, IH.
Qed.

Lemma all_lower_strip_protocol (s : string) :
  all_lower s = true -> all_lower (strip_protocol s) = true.
Proof.
  intros H. unfold strip_protocol.
  destruct (startsWith s "http://"); [ now apply all_lower_slice | ].
  destruct (startsWith s "https://"); [ now apply all_lower_slice | exact H ].
Qed.

Lemma all_lower_strip_www (s : string) :
  all_lower s = true -> all_lower (strip_www s) = true.
Proof.
  intros H. unfold strip_www.
  destruct (startsWith s "www."); [ now apply all_lower_slice | exact H ].
Qed.

Lemma all_lower_trimStart (s : string) :
  all_lower s = true -> all_lower (trimStart s) = true.
Proof.
  induction s as [ | c s IH ]; [ reflexivity | ].
  intros H. simpl. destruct (is_space c); [ | exact H ].
  simpl in H. apply andb_prop in H. now apply IH.
Qed.

Lemma all_lower_trimEnd (s : string) :
  all_lower s = true -> all_lower (trimEnd s) = true.
Proof.
  induction s as [ | c s IH ]; [ reflexivity | ].
  intros H. cbn [trimEnd]. destruct (all_space (String c s)); [ reflexivity | ].
  simpl in *. apply andb_prop in H. destruct H as [Hc Hs].
  now rewrite Hc, IH.
Qed.

Lemma all_lower_trim (s : string) : all_lower s = true -> all_lower (trim s) = true.
Proof.
  intros H. unfold trim. now apply all_lower_trimEnd, all_lower_trimStart.
Qed.

(** Both normalisers answer in lower case. *)
Lemma normalizeDomain_lower (s : string) :
  all_lower (MarketingPlanService.normalizeDomain s) = true
  /\ all_lower (DomainUtils.normalizeDomain s) = true.
Proof.
  split.
  - unfold MarketingPlanService.normalizeDomain.
    destruct (s =? ""); [ reflexivity | ].
    apply all_lower_trim, all_lower_toLowerCase.
  - unfold DomainUtils.normalizeDomain.
    apply all_lower_strip_www, all_lower_strip_path, all_lower_strip_protocol,
      all_lower_toLowerCase.
Qed.

Lemma startsWith_includes (s p t : string) :
  startsWith s p = true -> includes p t = true -> includes s t = true.
Proof.
  revert s. induction p as [ | a p IH ]; intros s Hs Hp.
  - destruct t as [ | b t ]; [ destruct s; reflexivity | ].
    simpl in Hp. discriminate.
  - destruct s as [ | b s ]; [ discriminate | ].
    simpl in Hs. apply andb_prop in Hs. destruct Hs as [Hab Hs].
    apply Ascii.eqb_eq in Hab. subst b.
    cbn [includes] in Hp |- *. apply orb_prop in Hp. destruct Hp as [Hp | Hp].
    + assert (startsWith (String a s) t = true) as ->; [ | reflexivity ].
      clear IH. revert s p Hs a Hp. induction t as [ | c t IHt ]; intros s p Hs a Hp.
      * reflexivity.
      * simpl in Hp |- *. apply andb_prop in Hp. destruct Hp as [Hca Hp].
        rewrite Hca. simpl.
        destruct t as [ | c' t' ]; [ reflexivity | ].
        destruct p as [ | a' p' ]; [ discriminate | ].
        destruct s as [ | b' s' ]; [ discriminate | ].
        simpl in Hs. apply andb_prop in Hs. destruct Hs as [Hab' Hs].
        apply Ascii.eqb_eq in Hab'. subst b'.
        now apply IHt with p'.
    + rewrite (IH s Hs Hp). apply orb_true_r.
Qed.

Lemma no_slash_strip_protocol (s : string) :
  includes s "/" = false -> strip_protocol s = s.
Proof.
  intros H. unfold strip_protocol.
  destruct (startsWith s "http://") eqn:E1.
  { rewrite (startsWith_includes s "http://" "/" E1 eq_refl) in H. discriminate. }
  destruct (startsWith s "https://") eqn:E2.
  { rewrite (startsWith_includes s "https://" "/" E2 eq_refl) in H. discriminate. }
  reflexivity.
Qed.

Lemma no_slash_strip_path (s : string) :
  includes s "/" = false -> strip_path s = s.
Proof.
  induction s as [ | c s IH ]; [ reflexivity | ].
  cbn [includes startsWith]. intros H. apply orb_false_elim in H.
  destruct H as [Hc Hs]. rewrite andb_true_r in Hc.
  simpl. rewrite Ascii.eqb_sym, Hc. simpl. now rewrite IH.
Qed.

Lemma bare_fixed_DomainUtils (r : string) :
  all_lower r = true -> bare r = true -> DomainUtils.normalizeDomain r = r.
Proof.
  intros Hl Hb. unfold bare in Hb.
  apply andb_prop in Hb. destruct Hb as [Hb Ht].
  apply andb_prop in Hb. destruct Hb as [Hs Hw].
  apply negb_true_iff in Hs. apply negb_true_iff in Hw.
  apply String.eqb_eq in Ht.
  unfold DomainUtils.normalizeDomain.
  rewrite Ht, (toLowerCase_fixed _ Hl), (no_slash_strip_protocol _ Hs),
    (no_slash_strip_path _ Hs).
  unfold strip_www. now rewrite Hw.
Qed.

Lemma bare_fixed_MarketingPlanService (r : string) :
  all_lower r = true -> bare r = true -> MarketingPlanService.normalizeDomain r = r.
Proof.
  intros Hl Hb. unfold bare in Hb.
  apply andb_prop in Hb. destruct Hb as [Hb Ht].
  apply andb_prop in Hb. destruct Hb as [Hs Hw].
  apply negb_true_iff in Hs. apply negb_true_iff in Hw.
  apply String.eqb_eq in Ht.
  unfold MarketingPlanService.normalizeDomain.
  destruct (r =? "") eqn:E; [ now apply String.eqb_eq in E | ].
  rewrite (no_slash_strip_protocol _ Hs), (no_slash_strip_path _ Hs).
  unfold strip_www. rewrite Hw. now rewrite (toLowerCase_fixed _ Hl).
Qed.

(** C6, as the code has it.  For either normaliser, normalising again
    changes nothing whenever the first result is a bare host name: free
    of ['/'], not starting with ["www."], without white space at either
    end. *)
Theorem normalizeDomain_idempotent_on_bare (s : string) :
  (bare (MarketingPlanService.normalizeDomain s) = true ->
   MarketingPlanService.normalizeDomain (MarketingPlanService.normalizeDomain s)
   = MarketingPlanService.normalizeDomain s)
  /\ (bare (DomainUtils.normalizeDomain s) = true ->
      DomainUtils.normalizeDomain (DomainUtils.normalizeDomain s)
      = DomainUtils.normalizeDomain s).
Proof.
  destruct (normalizeDomain_lower s) as [H1 H2]. split; intros Hb.
  - now apply bare_fixed_MarketingPlanService.
  - now apply bare_fixed_DomainUtils.
Qed.

Lemma normalizeDomain_idempotent_on_bare_witness :
  MarketingPlanService.normalizeDomain
    (MarketingPlanService.normalizeDomain "https://www.Example.COM/pricing?x=1")
  = "example.com"
  /\ DomainUtils.normalizeDomain
       (DomainUtils.normalizeDomain "  HTTPS://WWW.Example.com/pricing ")
     = "example.com".
Proof.
  split.
  - exact (proj1 (normalizeDomain_idempotent_on_bare
                    "https://www.Example.COM/pricing?x=1") eq_refl).
  - exact (proj2 (normalizeDomain_idempotent_on_bare
                    "  HTTPS://WWW.Example.com/pricing ") eq_refl).
Defined.

(** C6 as stated fails for both normalisers: only one leading ["www."]
    is removed per pass. *)
Lemma normalizeDomain_not_idempotent :
  MarketingPlanService.normalizeDomain
    (MarketingPlanService.normalizeDomain "www.www.x.com")
  <> MarketingPlanService.normalizeDomain "www.www.x.com"
  /\ DomainUtils.normalizeDomain (DomainUtils.normalizeDomain "www.www.x.com")
     <> DomainUtils.normalizeDomain "www.www.x.com".
Proof. split; discriminate. Qed.

End Domains.

(** ** Plan normaliser *)

Section Normaliser.
Import ParsePlanData.










(** *** Programs *)

Lemma update_at_length (i : nat) (f : MarketingProgram -> MarketingProgram)
    (l : list MarketingProgram) :
  List.length (update_at i f l) = List.length l.
Proof.
  revert i. induction l as [ | p l IH ]; intros i; [ reflexivity | ].
  destruct i; simpl; [ reflexivity | now rewrite IH ].
Qed.

Lemma apply_details_length (allContentData : value) (key : string)
    (programs : list MarketingProgram) :
  List.length (apply_details allContentData programs key) = List.length programs.
Proof.
  unfold apply_details.
  destruct ((1 <=? _)%N && _); [ | reflexivity ].
  destruct (truthy _ && _); [ apply update_at_length | reflexivity ].
Qed.

Lemma enrichment_length (allContentData : value) (detailsKeys : list string)
    (programs : list MarketingProgram) :
  List.length (fold_left (apply_details allContentData) detailsKeys programs)
  = List.length programs.
Proof.
  revert programs. induction detailsKeys as [ | key l IH ]; intros programs;
    [ reflexivity | ].
  simpl. now rewrite IH, apply_details_length.
Qed.









(** A details entry for program 1 renames the placeholder. *)
Example renamed_placeholder :
  exists plan,
    parsePlanData renamed_placeholder_payload None = Ok (Some plan)
    /\ map program_name (programs_list plan) = [JStr "Welcome"].
Proof.
  eexists. split; reflexivity.
Qed.

End Normaliser.

(** ** Polling scheduler *)

Section SchedulerTimeout.
Import UsePolling.

Context {C : Type}.
Variable options : Options (C := C).
Variable m : nat.

(** The attempt cap is [m], at least 1. *)
Hypothesis cap : maxAttempts options = Some m.
Hypothesis cap_positive : 0 < m.
(** The owner listens for the time-out. *)
Hypothesis listens : onMaxAttemptsReached options <> None.
(** The owner never asks to stop. *)
Hypothesis keeps_going :
  forall f, shouldContinuePolling options = Some f -> forall c, f c = true.
(** The polling function never yields a response that the scheduler
    takes for completed. *)
Hypothesis never_complete :
  forall c result, snd (pollingFn options c) = Ok result ->
                   isCompletedResponse result = false.

Lemma toldToStop_never (h : Hook) : toldToStop options h = false.
Proof.
  unfold toldToStop. pose proof keeps_going as K.
  destruct (shouldContinuePolling options) as [ f | ]; [ | reflexivity ].
  now rewrite (K f eq_refl).
Qed.

Lemma maxAttemptsReached_spec (k : nat) :
  maxAttemptsReached options k = (m <=? k)%nat.
Proof.
  unfold maxAttemptsReached. rewrite cap.
  destruct m; [ lia | reflexivity ].
Qed.

Ltac open_hook h :=
  destruct h as [st mounted tm hist active succeeded locked lastData susp own log];
  cbn in *; subst.

Lemma start_first_attempt (h : Hook) :
  isMounted h = true -> isActivePolling h = true -> isLocked h = false ->
  timer h = None -> awaiting h = [] ->
  count_maxAttemptsCalls h = 0 -> count_pollingFnCalls h + 1 = 1 ->
  waiting 1 (executePoll_begin options 1 h).
Proof.
  intros Hm Ha Hl Ht Hw Hc Hp. unfold executePoll_begin, waiting.
  open_hook h. cbn -[toldToStop]. rewrite toldToStop_never. cbn.
  repeat split; assumption.
Qed.

Lemma startPolling_mount (c : C) :
  delayed (startPolling options (mount c))
  \/ waiting 1 (startPolling options (mount c)).
Proof.
  unfold startPolling. cbn [mount isActivePolling isLocked orb].
  destruct (0 <? initialDelay options)%Z.
  - left. repeat split.
  - right. apply start_first_attempt; reflexivity.
Qed.

Lemma tick_delayed (h : Hook) : delayed h -> waiting 1 (tick options h).
Proof.
  intros (Hm & Ha & Hl & Ht & Hw & Hc & Hp).
  unfold tick. rewrite Hw. cbn [step]. unfold fire_timer. rewrite Ht.
  cbn [set_timer isMounted isActivePolling]. rewrite Hm, Ha. cbn [andb].
  apply start_first_attempt; open_hook h; try reflexivity; try assumption.
  now rewrite Hp.
Qed.

Lemma tick_scheduled (k : nat) (h : Hook) :
  scheduled k h -> waiting k (tick options h).
Proof.
  intros (Hm & Ha & Hl & Ht & Hw & Hc & Hp).
  unfold tick. rewrite Hw. cbn [step]. unfold fire_timer. rewrite Ht.
  unfold executePoll_begin, waiting. open_hook h.
  cbn -[toldToStop]. rewrite toldToStop_never. cbn.
  repeat split; assumption.
Qed.

Ltac split_on_cap :=
  match goal with
  | |- context [(m <=? ?x)%nat] => destruct (Nat.leb_spec m x)
  end.

Lemma tick_waiting (k : nat) (h : Hook) :
  waiting k h ->
  (k < m -> scheduled (k + 1) (tick options h))
  /\ (k = m -> timed_out m (tick options h)).
Proof.
  intros (Hm & Ha & Hl & Ht & Hw & Hc & Hp).
  pose proof (never_complete (owner h)) as Hnever.
  pose proof listens as Hlistens.
  pose proof (maxAttemptsReached_spec k) as Hcap.
  unfold tick, step, settle, executePoll_resume, scheduled, timed_out.
  open_hook h.
  destruct (pollingFn options own) as [c outcome].
  destruct (onMaxAttemptsReached options) as [ onMax | ] eqn:Emax;
    [ clear Hlistens | congruence ].
  destruct outcome as [ result | message ].
  - rewrite (Hnever result eq_refl).
    cbn -[toldToStop maxAttemptsReached]. rewrite toldToStop_never, Hcap.
    split_on_cap.
    + split; intros Hk; [ lia | ].
      unfold to_timeout, notify_maxAttempts. rewrite Emax. cbn.
      repeat split; try assumption; lia.
    + split; intros Hk; [ | lia ].
      cbn. repeat split; try assumption; lia.
  - unfold notify_error.
    destruct (onError options);
      cbn -[maxAttemptsReached]; rewrite Hcap; split_on_cap;
      [ split; intros Hk; [ lia | ];
        unfold to_timeout, notify_maxAttempts; rewrite Emax; cbn;
        repeat split; try assumption; lia
      | split; intros Hk; [ | lia ];
        cbn; repeat split; try assumption; lia
      | split; intros Hk; [ lia | ];
        unfold to_timeout, notify_maxAttempts; rewrite Emax; cbn;
        repeat split; try assumption; lia
      | split; intros Hk; [ | lia ];
        cbn; repeat split; try assumption; lia ].
Qed.

Lemma tick_timed_out (h : Hook) : timed_out m h -> tick options h = h.
Proof.
  intros (_ & _ & _ & Ht & Hw & _). unfold tick. rewrite Hw. cbn [step].
  unfold fire_timer. now rewrite Ht.
Qed.

Lemma run_timed_out (n : nat) (h : Hook) : timed_out m h -> run options n h = h.
Proof.
  intros H. induction n as [ | n IH ]; [ reflexivity | ].
  cbn [run]. now rewrite (tick_timed_out h H).
Qed.

Lemma run_add (a b : nat) (h : Hook) :
  run options (a + b) h = run options b (run options a h).
Proof.
  revert h. induction a as [ | a IH ]; intros h; [ reflexivity | ].
  cbn [Nat.add run]. apply IH.
Qed.

(** From a suspended attempt [k] the cap is reached after the remaining
    attempts, two steps apart. *)
Lemma run_waiting (d k : nat) (h : Hook) :
  k + d = m -> waiting k h -> timed_out m (run options (2 * d + 1) h).
Proof.
  revert k h. induction d as [ | d IH ]; intros k h Hk Hw.
  - cbn [Nat.mul Nat.add run]. apply (tick_waiting k h Hw). lia.
  - replace (2 * S d + 1) with (2 + (2 * d + 1)) by lia.
    rewrite run_add. apply (IH (k + 1)); [ lia | ].
    cbn [run]. apply tick_scheduled. apply (tick_waiting k h Hw). lia.
Qed.

Lemma reaches_timeout (c : C) :
  timed_out m (run options (2 * m) (startPolling options (mount c))).
Proof.
  destruct (startPolling_mount c) as [H | H].
  - replace (2 * m) with (1 + (2 * (m - 1) + 1)) by lia.
    rewrite run_add. apply (run_waiting (m - 1) 1); [ lia | ].
    cbn [run]. now apply tick_delayed.
  - replace (2 * m) with ((2 * (m - 1) + 1) + 1) by lia.
    rewrite run_add.
    pose proof (run_waiting (m - 1) 1 _ ltac:(lia) H) as Hdone.
    now rewrite (run_timed_out 1 _ Hdone).
Qed.

(** C7, as the code has it.  When the polling function never yields a
    response that the scheduler takes for completed (its own test
    [isCompletedResponse], not the classifier) and nobody stops the
    session, then after [maxAttempts] attempts the status is [timeout],
    [onMaxAttemptsReached] has been called exactly once, the polling
    function exactly [maxAttempts] times, and no timer or attempt is
    pending: whatever number of further steps is taken, nothing
    changes. *)
Theorem polling_times_out (c : C) (n : nat) :
  2 * m <= n ->
  let h := run options n (startPolling options (mount c)) in
  status (state h) = timeout
  /\ count_maxAttemptsCalls h = 1
  /\ count_pollingFnCalls h = m
  /\ timer h = None /\ awaiting h = []
  /\ isActivePolling h = false
  /\ forall extra, run options extra h = h.
Proof.
  intros Hn h. subst h.
  replace n with (2 * m + (n - 2 * m)) by lia.
  rewrite run_add. pose proof (reaches_timeout c) as Hdone.
  rewrite (run_timed_out _ _ Hdone).
  destruct Hdone as (Hs & Hp & Ha & Ht & Hw & Hc & Hf).
  repeat split; try assumption.
  intros extra. apply run_timed_out.
  repeat split; assumption.
Qed.

End SchedulerTimeout.

(** The end-to-end scenario: the remote side always answers
    [{status: "running"}] and the cap is 30. *)
Lemma polling_times_out_witness :
  let h := UsePolling.run always_running 60
             (UsePolling.startPolling always_running (UsePolling.mount 0)) in
  UsePolling.status (UsePolling.state h) = UsePolling.timeout
  /\ UsePolling.count_maxAttemptsCalls h = 1
  /\ UsePolling.count_pollingFnCalls h = 30
  /\ UsePolling.owner h = 1.
Proof.
  destruct (polling_times_out always_running 30 eq_refl
              ltac:(unfold lt; repeat constructor) ltac:(discriminate)
              ltac:(intros f H; injection H as <-; reflexivity)
              ltac:(intros c result H; injection H as <-; reflexivity)
              0 60 ltac:(repeat constructor))
    as (H1 & H2 & H3 & _).
  repeat split; assumption || reflexivity.
Defined.

(** C7 as stated fails: a fetch function that always answers
    [{status: "running"}] together with a part of the content never
    yields a response that the classifier calls complete, yet the
    scheduler takes the first answer for completed: it ends in [success]
    after one attempt, never calls [onMaxAttemptsReached] and never
    reaches [timeout]. *)
Lemma partial_content_ends_in_success :
  let h := UsePolling.run always_partial 60
             (UsePolling.startPolling always_partial (UsePolling.mount 0)) in
  Api.isAnalysisComplete partial_running = false
  /\ UsePolling.status (UsePolling.state h) = UsePolling.success
  /\ UsePolling.count_pollingFnCalls h = 1
  /\ UsePolling.count_maxAttemptsCalls h = 0
  /\ UsePolling.timer h = None
  /\ UsePolling.tick always_partial h = h.
Proof. vm_compute. repeat split. Qed.

(** The plan hook itself, against a remote side that is still working:
    thirty polls, then the time-out, and polling switched off. *)
Example plan_hook_times_out :
  let h := UseMarketingPlanData.hook_run running_env "acme.com" 60
             (UseMarketingPlanData.hook_start running_env "acme.com" fresh_session) in
  UsePolling.status (UsePolling.state h) = UsePolling.timeout
  /\ UsePolling.count_pollingFnCalls h = 30
  /\ UsePolling.count_maxAttemptsCalls h = 1
  /\ UseMarketingPlanData.continuePolling
       (UseMarketingPlanData.session (UsePolling.owner h)) = false
  /\ UsePolling.timer h = None.
Proof. vm_compute. repeat split. Qed.

(** ** Success path and storage *)

Section SuccessPath.
Import ParsePlanData UseMarketingPlanData.

Variable env : Env.

Ltac open_session s :=
  destruct s as [s_dom s_conv s_nav s_valid s_wait s_miss s_plan s_load s_err
                 s_raw s_has s_polls s_cont s_auto s_saving s_rows s_navs];
  cbn in *; subst.
















End SuccessPath.

Section SuccessPathScenarios.
Import ParsePlanData UseMarketingPlanData.



End SuccessPathScenarios.

(** ** Terminal errors of the polling callback *)

Section TerminalErrors.
Import UseMarketingPlanData.

Ltac open_session s :=
  destruct s as [s_dom s_conv s_nav s_valid s_wait s_miss s_plan s_load s_err
                 s_raw s_has s_polls s_cont s_auto s_saving s_rows s_navs];
  cbn in *; subst.

(** A matching error counts; polling is switched off exactly when the
    count reaches the threshold. *)
Lemma not_found_counts (errorMessage conversation : string) (s : Session) :
  not_found_message errorMessage = true ->
  let s' := fst (handle_apiError errorMessage conversation s) in
  consecutive404ErrorsRef s' = (consecutive404ErrorsRef s + 1)%Z
  /\ ((consecutive404ErrorsRef s + 1 < notFoundErrorThreshold)%Z ->
      continuePolling s' = continuePolling s)
  /\ ((notFoundErrorThreshold <= consecutive404ErrorsRef s + 1)%Z ->
      continuePolling s' = false).
Proof.
  unfold not_found_message. intros H. unfold handle_apiError. rewrite H.
  open_session s.
  destruct (Z.leb_spec notFoundErrorThreshold (s_miss + 1)) as [Hle | Hlt].
  - destruct s_auto; cbn; repeat split; try reflexivity; intros; lia.
  - cbn. repeat split; try reflexivity. intros; lia.
Qed.

(** Any other error puts the count back to zero and leaves polling on. *)
Lemma other_error_resets (errorMessage conversation : string) (s : Session) :
  not_found_message errorMessage = false ->
  let s' := fst (handle_apiError errorMessage conversation s) in
  consecutive404ErrorsRef s' = 0%Z /\ continuePolling s' = continuePolling s.
Proof.
  unfold not_found_message. intros H. unfold handle_apiError. rewrite H.
  open_session s. split; reflexivity.
Qed.

(** A generic 404 stops polling at its second consecutive occurrence,
    not at the first. *)
Lemma generic_404_two_in_a_row (errorMessage conversation : string) (s : Session) :
  not_found_message errorMessage = true ->
  consecutive404ErrorsRef s = 0%Z -> continuePolling s = true ->
  let s1 := fst (handle_apiError errorMessage conversation s) in
  let s2 := fst (handle_apiError errorMessage conversation s1) in
  continuePolling s1 = true /\ continuePolling s2 = false.
Proof.
  intros Hm H0 Hc s1 s2.
  destruct (not_found_counts errorMessage conversation s Hm) as (Hn1 & Hk1 & _).
  fold s1 in Hn1, Hk1.
  destruct (not_found_counts errorMessage conversation s1 Hm) as (_ & _ & Hs2).
  fold s2 in Hs2. unfold notFoundErrorThreshold in *.
  split.
  - rewrite Hk1; [ exact Hc | lia ].
  - apply Hs2. lia.
Qed.

(** A response that is neither failed nor complete puts the count back
    to zero. *)
Example running_response_resets :
  consecutive404ErrorsRef
    (fst (pollingCallback running_env
            (set_consecutive404ErrorsRef 1 fresh_session))) = 0%Z.
Proof. reflexivity. Qed.

(** C1, on the failing input.  The remote side answers every status
    request with [404 No agent response found].  The helper
    [shouldStopPolling] says to stop at the first occurrence, but the
    polling callback does not consult it: it counts the error as one of
    two, leaves polling switched on, and the scheduler sets the timer
    for attempt 2.  The second occurrence switches [continuePolling]
    off; the scheduler, whose options still close over the value of
    the previous render, sets the timer for attempt 3 all the same.
    When that timer runs the options have been refreshed: the attempt
    stops the scheduler before it calls the polling function. *)
Theorem no_agent_response_found_polls_again :
  let message := "Server error: 404 - No agent response found" in
  let first := hook_run dead_key_env "acme.com" 2
                 (hook_start dead_key_env "acme.com" fresh_session) in
  let second := hook_run dead_key_env "acme.com" 2 first in
  let third := hook_run dead_key_env "acme.com" 1 second in
  Api.getAnalysisAnswer dead_key_reply = Throw message
  /\ PollingUtils.shouldStopPolling message 1 = true
  /\ continuePolling (fst (pollingCallback dead_key_env fresh_session)) = true
  /\ consecutive404ErrorsRef (fst (pollingCallback dead_key_env fresh_session)) = 1%Z
  /\ UsePolling.count_pollingFnCalls first = 1
  /\ UsePolling.timer first = Some (UsePolling.NextTimer 2)
  /\ UsePolling.isActivePolling first = true
  /\ UsePolling.count_pollingFnCalls second = 2
  /\ continuePolling (session (UsePolling.owner second)) = false
  /\ UsePolling.timer second = Some (UsePolling.NextTimer 3)
  /\ UsePolling.isActivePolling second = true
  /\ UsePolling.count_pollingFnCalls third = 2
  /\ UsePolling.timer third = None
  /\ UsePolling.isActivePolling third = false.
Proof. vm_compute. repeat split. Qed.

End TerminalErrors.

(** * Further properties of the code *)

(** ** Values and strings *)

Section ValueFacts.

Lemma includes_trans (s t u : string) :
  includes s t = true -> includes t u = true -> includes s u = true.
Proof.
  induction s as [ | c s IH ]; intros Hst Htu.
  - cbn [includes] in Hst. rewrite orb_false_r in Hst.
    now apply (startsWith_includes "" t u).
  - cbn [includes] in Hst. apply orb_prop in Hst. destruct Hst as [Hst | Hst].
    + now apply (startsWith_includes (String c s) t u).
    + cbn [includes]. rewrite (IH Hst Htu). apply orb_true_r.
Qed.

Lemma lookup_set_field_same (k : string) (x : value) (fields : list (string * value)) :
  lookup k (set_field k x fields) = Some x.
Proof.
  induction fields as [ | [k' y] fields IH ]; cbn.
  - now rewrite String.eqb_refl.
  - destruct (k' =? k) eqn:E; cbn.
    + now rewrite String.eqb_refl.
    + now rewrite E.
Qed.

Lemma lookup_set_field_other (k k' : string) (x : value)
    (fields : list (string * value)) :
  (k =? k') = false -> lookup k' (set_field k x fields) = lookup k' fields.
Proof.
  intros Hk. induction fields as [ | [k0 y] fields IH ]; cbn.
  - now rewrite Hk.
  - destruct (k0 =? k) eqn:E; cbn.
    + apply String.eqb_eq in E. subst k0. now rewrite Hk.
    + destruct (k0 =? k'); [ reflexivity | exact IH ].
Qed.

(** The own properties of the deep clone are the value without its
    ["__proto__"] keys. *)
Lemma own_properties_clone (v : value) :
  MarketingPlanService.own_properties (MarketingPlanService.deepStructureClone v)
  = without_proto v.
Proof.
  revert v. fix IH 1. intros [ | | b | z | s | items | fields ]; try reflexivity.
  - cbn [MarketingPlanService.deepStructureClone
           MarketingPlanService.own_properties without_proto].
    f_equal. induction items as [ | x items IHitems ]; [ reflexivity | ].
    cbn [map]. now rewrite IH, IHitems.
  - cbn [MarketingPlanService.deepStructureClone
           MarketingPlanService.own_properties without_proto].
    f_equal. induction fields as [ | [k x] fields IHfields ]; [ reflexivity | ].
    destruct (k =? "__proto__"); [ exact IHfields | ].
    now rewrite IH, IHfields.
Qed.

Lemma without_proto_free (v : value) :
  proto_free v = true -> without_proto v = v.
Proof.
  revert v. fix IH 1. intros [ | | b | z | s | items | fields ]; try reflexivity.
  - cbn [proto_free without_proto]. intros H. f_equal.
    induction items as [ | x items IHitems ]; [ reflexivity | ].
    cbn [forallb] in H. apply andb_prop in H. destruct H as [Hx Hitems].
    cbn [map]. now rewrite IH, IHitems.
  - cbn [proto_free without_proto]. intros H. f_equal.
    induction fields as [ | [k x] fields IHfields ]; [ reflexivity | ].
    apply andb_prop in H. destruct H as [H Hfields].
    apply andb_prop in H. destruct H as [Hk Hx].
    apply negb_true_iff in Hk. rewrite Hk.
    now rewrite IH, IHfields.
Qed.

End ValueFacts.

(** ** Storage write *)

Section StorageWrite.
Import MarketingPlanService.

(** X1.  [saveMarketingPlan] hands exactly one row to the table when
    both the domain and the email are given.  The row carries the deep
    clone of the plan data, whose own properties are the plan data
    without its ["__proto__"] keys, hence the plan data itself when it
    has no such key.  Success is reported only for an insert that the
    table accepted.  When the domain or the email is missing nothing is
    handed over and the missing fields are reported. *)
Theorem saveMarketingPlan_row (db : Storage) (companyDomain mail : string)
    (planData : value) (rows : list Row) :
  (companyDomain <> "" -> mail <> "" ->
     let row := mkRow companyDomain mail (deepStructureClone planData)
                  (userLanguage db) in
     snd (saveMarketingPlan db companyDomain mail planData rows) = rows ++ [row]
     /\ own_properties (form_data row) = without_proto planData
     /\ (proto_free planData = true -> own_properties (form_data row) = planData)
     /\ (success (fst (saveMarketingPlan db companyDomain mail planData rows)) = true ->
          insert_error db row = None))
  /\ (companyDomain = "" \/ mail = "" ->
        saveMarketingPlan db companyDomain mail planData rows
        = (mkSaveResult false (Some "Missing required fields"), rows)).
Proof.
  unfold saveMarketingPlan. split.
  - intros Hd Hm. apply String.eqb_neq in Hd. apply String.eqb_neq in Hm.
    rewrite Hd, Hm. cbn [orb snd fst form_data].
    split; [ reflexivity | ]. split; [ apply own_properties_clone | ].
    split.
    + intros Hfree. now rewrite own_properties_clone, without_proto_free.
    + destruct (insert_error db _); [ | reflexivity ].
      now destruct (refused_log_throws (deepStructureClone planData)).
  - intros [-> | ->]; [ reflexivity | ].
    now rewrite String.eqb_refl, orb_true_r.
Qed.

Lemma saveMarketingPlan_row_witness :
  map (fun row => own_properties (form_data row))
    (snd (saveMarketingPlan Samples.quiet_storage "acme.com" "ada@example.com"
            Samples.complete_response []))
  = [ Samples.complete_response ].
Proof.
  destruct (proj1 (saveMarketingPlan_row Samples.quiet_storage "acme.com"
                     "ada@example.com" Samples.complete_response [])
              ltac:(discriminate) ltac:(discriminate)) as (Hrows & _ & Hsame & _).
  rewrite Hrows. cbn [app map]. now rewrite (Hsame eq_refl).
Defined.

(** An own ["__proto__"] key of the plan data is not among the own
    properties of the row: the clone has it for prototype. *)
Example clone_drops_proto_key :
  own_properties (deepStructureClone Samples.proto_payload)
  = JObj [ ("content", JObj [ ("company_summary", JObj [ ("name", JStr "Acme") ]) ]) ]
  /\ clone_has "response" (deepStructureClone Samples.proto_payload) = true.
Proof. split; reflexivity. Qed.

(** An accepted insert is reported as a failure when the log written
    after it throws. *)
Example accepted_insert_reported_failed :
  saveMarketingPlan Samples.quiet_storage "acme.com" "ada@example.com"
    Samples.null_content_payload []
  = (mkSaveResult false (Some keys_of_nullish),
     [ mkRow "acme.com" "ada@example.com"
         (deepStructureClone Samples.null_content_payload) "en" ]).
Proof. reflexivity. Qed.

End StorageWrite.

(** ** Terminal-error patterns *)

Section ErrorPatterns.
Import PollingUtils.

Lemma errorPatterns_lowercase (pattern : string) :
  In pattern errorPatterns -> toLowerCase pattern = pattern.
Proof.
  unfold errorPatterns. simpl.
  intros H. repeat (destruct H as [H | H]; [ now subst pattern | ]).
  contradiction.
Qed.

Lemma pattern_found (errorMessage pattern : string) :
  In pattern errorPatterns ->
  includes (toLowerCase errorMessage) pattern = true ->
  isInvalidConversationIdError errorMessage = true.
Proof.
  intros Hin Hinc. unfold isInvalidConversationIdError.
  destruct errorMessage as [ | c rest ].
  - destruct pattern; [ | discriminate ].
    unfold errorPatterns in Hin. simpl in Hin.
    repeat (destruct Hin as [Hin | Hin]; [ discriminate | ]). contradiction.
  - cbn [String.eqb]. apply existsb_exists. exists pattern.
    split; [ exact Hin | ]. now rewrite (errorPatterns_lowercase _ Hin).
Qed.

(** X2.  [shouldStopPolling] only ever says stop for a message that
    [isInvalidConversationIdError] recognises; and for a message without
    the phrase "no agent response found" the two tests agree, whatever
    the count. *)
Theorem shouldStopPolling_recognised (errorMessage : string) (consecutiveErrors : Z) :
  (shouldStopPolling errorMessage consecutiveErrors = true ->
     isInvalidConversationIdError errorMessage = true)
  /\ (includes (toLowerCase errorMessage) "no agent response found" = false ->
        shouldStopPolling errorMessage consecutiveErrors
        = isInvalidConversationIdError errorMessage).
Proof.
  unfold shouldStopPolling. split.
  - destruct (includes (toLowerCase errorMessage) "no agent response found") eqn:E.
    + intros _. apply pattern_found with "no agent response".
      * unfold errorPatterns. simpl. tauto.
      * now apply includes_trans with "no agent response found".
    + now destruct (isInvalidConversationIdError errorMessage).
  - intros ->. now destruct (isInvalidConversationIdError errorMessage).
Qed.

Lemma shouldStopPolling_recognised_witness :
  isInvalidConversationIdError "Conversation EXPIRED" = true
  /\ shouldStopPolling "Conversation EXPIRED" 0 = true.
Proof.
  destruct (shouldStopPolling_recognised "Conversation EXPIRED" 0) as [H1 H2].
  split; [ apply H1 | rewrite H2 ]; reflexivity.
Defined.

(** X3.  Whatever text the remote side sends with an HTTP 404, the
    error thrown by [getAnalysisAnswer] is one that the polling callback
    counts as not-found and that [isInvalidConversationIdError]
    recognises. *)
Theorem http_404_is_not_found (text : string) (json : result value) :
  exists message,
    Api.getAnalysisAnswer (Api.Reply false 404 text json) = Throw message
    /\ Spec.not_found_message message = true
    /\ isInvalidConversationIdError message = true.
Proof.
  exists ("Server error: 404 - " ++ text)%string.
  split; [ reflexivity | split ].
  - unfold Spec.not_found_message. apply orb_true_iff. right. reflexivity.
  - apply pattern_found with "404".
    + unfold errorPatterns. simpl. tauto.
    + reflexivity.
Qed.

End ErrorPatterns.

(** ** Classifier *)

Section ClassifierFacts.
Import Api PollingUtils Spec.

Lemma get_assign_other (v : value) (k k' : string) (x : value) :
  (k =? k') = false -> get (assign v k x) k' = get v k'.
Proof.
  intros Hk. destruct v; try reflexivity.
  cbn [assign get]. now rewrite lookup_set_field_other.
Qed.

Lemma truthy_assign (v : value) (k : string) (x : value) :
  truthy (assign v k x) = truthy v.
Proof. now destruct v. Qed.

Lemma containsErrorMessage_object (data : value) :
  containsErrorMessage data = true -> exists fields, data = JObj fields.
Proof.
  unfold containsErrorMessage, inspected_content.
  destruct data as [ | | b | z | s | items | fields ]; eauto;
    destruct (truthy _); cbn; discriminate.
Qed.

(** X4.  A reply that parses is handed on by [getAnalysisAnswer]
    untouched when its content holds no error phrase; otherwise it is
    handed on with [contentError] set, its status and content as they
    were, and the classifier never calls the flagged response
    complete. *)
Theorem getAnalysisAnswer_flags (http_status : Z) (text : string) (data : value) :
  exists answer,
    getAnalysisAnswer (Reply true http_status text (Ok data)) = Ok answer
    /\ (containsErrorMessage data = false -> answer = data)
    /\ (containsErrorMessage data = true ->
          get answer "contentError" = JBool true
          /\ get answer "status" = get data "status"
          /\ content_of answer = content_of data
          /\ isAnalysisComplete answer = false).
Proof.
  cbn [getAnalysisAnswer negb bind].
  destruct (containsErrorMessage data) eqn:E.
  - eexists. split; [ reflexivity | ]. split; [ discriminate | ]. intros _.
    destruct (containsErrorMessage_object data E) as (fields & ->).
    set (flag := match inspected_content (JObj fields) with
                 | JStr s => s
                 | _ => "Unknown error in response content"
                 end).
    assert (Hget : forall k, (k =? "contentError") = false ->
                             (k =? "contentErrorMessage") = false ->
              get (assign (assign (JObj fields) "contentError" (JBool true))
                     "contentErrorMessage" (JStr flag)) k
              = get (JObj fields) k).
    { intros k H1 H2.
      rewrite get_assign_other by (now rewrite String.eqb_sym).
      now rewrite get_assign_other by (now rewrite String.eqb_sym). }
    repeat split.
    + rewrite get_assign_other by reflexivity.
      cbn [assign get]. now rewrite lookup_set_field_same.
    + now apply Hget.
    + unfold content_of. now rewrite Hget.
    + unfold isAnalysisComplete.
      assert (containsErrorMessage
                (assign (assign (JObj fields) "contentError" (JBool true))
                   "contentErrorMessage" (JStr flag))
              = containsErrorMessage (JObj fields)) as ->.
      { unfold containsErrorMessage, inspected_content.
        rewrite !truthy_assign, !Hget by reflexivity. reflexivity. }
      now rewrite E.
  - eexists. split; [ reflexivity | ]. split; [ reflexivity | discriminate ].
Qed.

Lemma getAnalysisAnswer_flags_witness :
  exists answer,
    getAnalysisAnswer (Reply true 200 "" (Ok apology_response)) = Ok answer
    /\ isAnalysisComplete answer = false.
Proof.
  destruct (getAnalysisAnswer_flags 200 "" apology_response)
    as (answer & H1 & _ & H3).
  exists answer. split; [ exact H1 | now apply H3 ].
Defined.

(** What a complete response is made of. *)
Lemma complete_parts (response : value) :
  isAnalysisComplete response = true ->
  truthy response = true
  /\ (str_eq (get response "status") "succeeded" = true
      \/ str_eq (get response "status") "completed" = true)
  /\ truthy (content_of response) = true
  /\ typeof (content_of response) = "object"
  /\ (0 <? List.length (keys (content_of response)))%nat = true
  /\ truthy (get (content_of response) "company_summary") = true
  /\ typeof (get (content_of response) "company_summary") = "object".
Proof.
  unfold isAnalysisComplete. fold (content_of response).
  destruct (truthy response); [ | discriminate ]. cbn [negb].
  destruct (containsErrorMessage response); [ discriminate | ].
  destruct (str_eq (get response "status") "succeeded"
            || str_eq (get response "status") "completed") eqn:Es;
    [ | discriminate ]. cbn [negb].
  destruct (truthy (content_of response)); [ | discriminate ]. cbn [negb].
  destruct (typeof (content_of response) =? "object") eqn:Et;
    [ | discriminate ]. cbn [negb orb].
  destruct (List.length (keys (content_of response))) as [ | n ] eqn:El;
    [ discriminate | ]. cbn [Nat.eqb].
  destruct (truthy (get (content_of response) "company_summary"));
    [ | discriminate ].
  destruct (typeof (get (content_of response) "company_summary") =? "object") eqn:Ec;
    [ | discriminate ].
  intros _. apply String.eqb_eq in Et. apply String.eqb_eq in Ec.
  apply orb_prop in Es. repeat split; auto.
Qed.

(** X5.  The three content checks are nested: a response that
    [isAnalysisComplete] accepts has the minimum content, and a response
    with the minimum content has usable data. *)
Theorem classifiers_nested (response : value) :
  (isAnalysisComplete response = true -> hasMinimumContent response = true)
  /\ (hasMinimumContent response = true -> hasAnyUsableData response = true).
Proof.
  split.
  - intros H. destruct (complete_parts response H) as (Hr & _ & Hc & _ & _ & Hs & Ht).
    unfold hasMinimumContent. fold (content_of response).
    rewrite Hr, Hc. cbn [negb orb].
    destruct (str_eq (get response "status") "succeeded"); [ reflexivity | ].
    now rewrite Hs, Ht.
  - unfold hasMinimumContent, hasAnyUsableData. fold (content_of response).
    destruct (truthy response); [ | discriminate ]. cbn [negb orb andb].
    destruct (truthy (content_of response)) eqn:Hc; [ | discriminate ].
    cbn [negb].
    destruct (str_eq (get response "status") "succeeded"); [ reflexivity | ].
    assert (Hd : truthy (get (get response "response") "data") = true).
    { unfold content_of in Hc.
      destruct (get (get response "response") "data"); try discriminate; reflexivity. }
    assert (Hresp : truthy (get response "response") = true).
    { destruct (get response "response"); try discriminate; reflexivity. }
    rewrite Hresp, Hd. cbn [negb orb].
    destruct (truthy (get (content_of response) "company_summary")); [ reflexivity | ].
    destruct (truthy (get (content_of response) "programs_list")); [ reflexivity | ].
    cbn [andb orb]. auto.
Qed.

Lemma classifiers_nested_witness :
  hasMinimumContent Samples.complete_response = true
  /\ hasAnyUsableData Samples.complete_response = true.
Proof.
  destruct (classifiers_nested Samples.complete_response) as [H1 H2].
  split; [ apply H1 | apply H2, H1 ]; reflexivity.
Defined.

(** X6.  A response that [isAnalysisComplete] accepts is also a
    completed response for the scheduler, so returning it from the
    polling function ends the session. *)
Theorem complete_ends_polling (response : value) :
  isAnalysisComplete response = true ->
  UsePolling.isCompletedResponse response = true.
Proof.
  intros H. destruct (complete_parts response H) as (Hr & _ & Hc & _ & Hk & _).
  unfold UsePolling.isCompletedResponse. fold (content_of response).
  rewrite Hr, Hc, Hk.
  assert (typeof response = "object") as ->.
  { unfold content_of in Hc. destruct response; try discriminate; reflexivity. }
  cbn. apply orb_true_r.
Qed.

Lemma complete_ends_polling_witness :
  UsePolling.isCompletedResponse Samples.complete_response = true.
Proof. apply complete_ends_polling. reflexivity. Defined.

Lemma complete_has_competitors_parts (response : value) :
  isAnalysisComplete response = true ->
  exists items, UseCompetitorStackData.extractCompetitors response = JArr items.
Proof.
  intros H. destruct (complete_parts response H) as (Hr & _ & Hc & _).
  unfold UseCompetitorStackData.extractCompetitors. fold (content_of response).
  rewrite Hr, Hc. cbn [negb orb].
  destruct (get (content_of response) "competitors") eqn:E1;
    cbn [truthy isArray andb]; eauto;
    destruct (get (content_of response) "competitor_list") eqn:E2;
      cbn [truthy isArray andb]; eauto;
      destruct (get (content_of response) "top_competitors") eqn:E3;
        cbn [truthy isArray andb]; rewrite ?andb_false_r; eauto.
Qed.

(** X7.  For a response that [isAnalysisComplete] accepts,
    [extractCompetitors] always answers an array, never [null]. *)
Theorem complete_has_competitors (response : value) :
  isAnalysisComplete response = true ->
  exists items, UseCompetitorStackData.extractCompetitors response = JArr items.
Proof.
  intros H. now apply complete_has_competitors_parts.
Qed.

Lemma complete_has_competitors_witness :
  exists items,
    UseCompetitorStackData.extractCompetitors Samples.complete_response = JArr items.
Proof. apply complete_has_competitors. reflexivity. Defined.

End ClassifierFacts.

(** ** Programs and enrichment *)

Section ProgramFacts.
Import ParsePlanData SpecMore.

Lemma map_programs_ok (items : list value) (index : nat) :
  existsb nullish items = false ->
  exists programs,
    map_programs items index = Ok programs
    /\ List.length programs = List.length items.
Proof.
  revert index. induction items as [ | x items IH ]; intros index H.
  - now exists [].
  - cbn [existsb] in H. apply orb_false_elim in H. destruct H as [Hx Hrest].
    destruct (IH (S index) Hrest) as (programs & Hp & Hlen).
    cbn [map_programs]. unfold program_of_entry. rewrite Hx. cbn [bind].
    rewrite Hp. cbn [bind]. eexists. split; [ reflexivity | ]. cbn. now rewrite Hlen.
Qed.

Lemma map_programs_throw (items : list value) (index : nat) :
  existsb nullish items = true -> exists m, map_programs items index = Throw m.
Proof.
  revert index. induction items as [ | x items IH ]; intros index H;
    [ discriminate | ].
  cbn [existsb] in H. cbn [map_programs]. unfold program_of_entry.
  destruct (nullish x); cbn [bind]; [ eauto | ].
  cbn [orb] in H. destruct (IH (S index) H) as (m & ->). cbn [bind]. eauto.
Qed.

Lemma base_programs (data : value) :
  truthy data = true ->
  match data with
  | JArr items => map_programs items 0
  | _ => if typeof data =? "object"
         then map_programs (map snd (entries data)) 0 else Ok []
  end = map_programs (program_entries data) 0.
Proof.
  destruct data; try discriminate; reflexivity.
Qed.

(** X8.  Given a present list or map of programs, [parsePrograms] throws
    exactly when one entry is [null] (or [undefined]); otherwise it
    returns one program per entry, and a single placeholder when there
    is no entry. *)
Theorem parsePrograms_entries (data allContentData : value) :
  truthy data = true ->
  (existsb nullish (program_entries data) = true ->
     exists m, parsePrograms data allContentData = Throw m)
  /\ (existsb nullish (program_entries data) = false ->
        exists programs,
          parsePrograms data allContentData = Ok programs
          /\ List.length programs = Nat.max 1 (List.length (program_entries data))).
Proof.
  intros Ht. unfold parsePrograms. rewrite Ht, (base_programs data Ht).
  cbn [negb]. split; intros H.
  - destruct (map_programs_throw _ 0 H) as (m & ->). cbn [bind]. eauto.
  - destruct (map_programs_ok _ 0 H) as (programs & -> & Hlen). cbn [bind].
    eexists. split; [ reflexivity | ].
    assert (Hbase : List.length
              (if (List.length programs =? 0)%nat then [placeholder] else programs)
            = Nat.max 1 (List.length (program_entries data))).
    { rewrite <- Hlen. destruct programs; cbn; lia. }
    destruct (truthy allContentData && (typeof allContentData =? "object"));
      [ now rewrite enrichment_length | exact Hbase ].
Qed.

Lemma parsePrograms_entries_witness :
  exists programs,
    parsePrograms SamplesMore.three_programs SamplesMore.details_for_two = Ok programs
    /\ List.length programs = 3.
Proof.
  exact (proj2 (parsePrograms_entries SamplesMore.three_programs
                  SamplesMore.details_for_two eq_refl) eq_refl).
Defined.

Lemma update_at_map {A : Type} (f : MarketingProgram -> A)
    (g : MarketingProgram -> MarketingProgram) (i : nat)
    (l : list MarketingProgram) :
  (forall p, f (g p) = f p) -> map f (update_at i g l) = map f l.
Proof.
  intros Hg. revert i. induction l as [ | p l IH ]; intros i; [ reflexivity | ].
  destruct i; cbn; [ now rewrite Hg | now rewrite IH ].
Qed.

Lemma enrichment_map {A : Type} (f : MarketingProgram -> A)
    (allContentData : value) (detailsKeys : list string)
    (programs : list MarketingProgram) :
  (forall details p, f (enrich details p) = f p) ->
  map f (fold_left (apply_details allContentData) detailsKeys programs)
  = map f programs.
Proof.
  intros Hf. revert programs.
  induction detailsKeys as [ | key l IH ]; intros programs; [ reflexivity | ].
  cbn [fold_left]. rewrite IH. unfold apply_details.
  destruct ((1 <=? _)%N && _); [ | reflexivity ].
  destruct (truthy _ && _); [ | reflexivity ].
  apply update_at_map. intros p. apply Hf.
Qed.

Lemma enrich_keeps (details : value) (p : MarketingProgram) :
  program_target (enrich details p) = program_target p
  /\ objective (enrich details p) = objective p
  /\ kpi (enrich details p) = kpi p
  /\ description (enrich details p) = description p.
Proof.
  unfold enrich.
  destruct (truthy (get details "program_name") || truthy (get details "name"));
    destruct (truthy (get details "scenarios")); repeat split.
Qed.

(** X9.  The sweep over the [program_<N>_details] keys of the content
    only renames programs and attaches scenarios: compared with the same
    programs parsed without any content, it keeps their number, their
    order and every target, objective, kpi and description. *)
Theorem enrichment_only_renames (data allContentData : value)
    (programs plain : list MarketingProgram) :
  parsePrograms data allContentData = Ok programs ->
  parsePrograms data JNull = Ok plain ->
  List.length programs = List.length plain
  /\ map program_target programs = map program_target plain
  /\ map objective programs = map objective plain
  /\ map kpi programs = map kpi plain
  /\ map description programs = map description plain.
Proof.
  unfold parsePrograms. destruct (truthy data); cbn [negb].
  - destruct (match data with
              | JArr items => map_programs items 0
              | _ => if typeof data =? "object"
                     then map_programs (map snd (entries data)) 0 else Ok []
              end) as [ base | ]; cbn [bind truthy andb]; [ | discriminate ].
    intros H1 H2. injection H2 as <-. injection H1 as <-.
    destruct (truthy allContentData && (typeof allContentData =? "object"));
      [ | repeat split ].
    split; [ apply enrichment_length | ].
    repeat split; apply enrichment_map; intros details p;
      apply (enrich_keeps details p).
  - intros H1 H2. injection H2 as <-. injection H1 as <-. repeat split.
Qed.

Lemma enrichment_only_renames_witness :
  exists programs,
    parsePrograms SamplesMore.three_programs SamplesMore.details_for_two = Ok programs
    /\ map program_name programs
       = [ JStr "Welcome"; JStr "Reactivation"; JStr "Program 3" ]
    /\ map program_target programs
       = [ JStr "Not specified"; JStr "Not specified"; JStr "Not specified" ].
Proof.
  destruct (parsePrograms SamplesMore.three_programs SamplesMore.details_for_two)
    as [ programs | ] eqn:E; [ | discriminate ].
  exists programs. split; [ reflexivity | ].
  destruct (enrichment_only_renames _ _ programs _ E eq_refl) as (_ & Ht & _).
  split; [ | exact Ht ].
  injection E as <-. reflexivity.
Defined.

End ProgramFacts.

(** ** The plan parser and its validation *)

Section ParserEdges.
Import ParsePlanData ValidatePlanData Spec SpecMore.

Lemma located_first_path (raw content : value) :
  follow raw ["response"; "data"; "content"] = Some content ->
  getNestedValue raw contentPaths = (content, ["response"; "data"; "content"]).
Proof.
  intros H. unfold contentPaths. cbn [getNestedValue]. now rewrite H.
Qed.

(** X10.  [parsePlanData] answers [null] exactly for a missing (falsy)
    input.  When the key [response.data.content] exists, its value is
    the content that is used: if it is not an object the parser throws,
    without trying the other known paths. *)
Theorem parsePlanData_edges (raw : value) (domain : option string) :
  (parsePlanData raw domain = Ok None <-> truthy raw = false)
  /\ (forall content,
        truthy raw = true ->
        follow raw ["response"; "data"; "content"] = Some content ->
        truthy content = false \/ typeof content <> "object" ->
        parsePlanData raw domain
        = Throw "Invalid content structure or missing content").
Proof.
  split.
  - unfold parsePlanData. destruct (truthy raw); cbn [negb].
    + split; [ | discriminate ].
      destruct (getNestedValue raw contentPaths) as [content path].
      destruct (negb (truthy content) || negb (typeof content =? "object"));
        [ discriminate | ].
      destruct (parsePrograms (get content "programs_list") content);
        cbn [bind]; discriminate.
    + split; reflexivity.
  - intros content Ht Hf Hbad. unfold parsePlanData.
    rewrite Ht, (located_first_path raw content Hf). cbn [negb].
    destruct Hbad as [Hbad | Hbad].
    + now rewrite Hbad.
    + apply String.eqb_neq in Hbad. rewrite Hbad. cbn [negb]. now rewrite orb_true_r.
Qed.

Lemma parsePlanData_edges_witness :
  parsePlanData SamplesMore.shadowed_content None
  = Throw "Invalid content structure or missing content".
Proof.
  apply (proj2 (parsePlanData_edges SamplesMore.shadowed_content None) JNull);
    [ reflexivity | reflexivity | left; reflexivity ].
Defined.

(** X11.  [validatePlanData] keeps its three answers in step: a valid
    result carries the parsed plan and no error; an invalid result
    carries no plan and at least one error. *)
Theorem validatePlanData_consistent (raw : value) (domain : option string) :
  (isValid (validatePlanData raw domain) = true ->
     errors (validatePlanData raw domain) = []
     /\ exists plan, data (validatePlanData raw domain) = Some plan
                     /\ parsePlanData raw domain = Ok (Some plan))
  /\ (isValid (validatePlanData raw domain) = false ->
        data (validatePlanData raw domain) = None
        /\ errors (validatePlanData raw domain) <> []).
Proof.
  unfold validatePlanData.
  destruct (negb (truthy raw)); [ split; [ discriminate | split; [ reflexivity | discriminate ] ] | ].
  destruct (parsePlanData raw domain) as [ [ plan | ] | m ];
    try (split; [ discriminate | split; [ reflexivity | discriminate ] ]).
  destruct (has_either (activities (company_summary plan))
              (industry (company_summary plan))) as [ hasActivities | m ];
    [ | split; [ discriminate | split; [ reflexivity | discriminate ] ] ].
  destruct (has_either (target (company_summary plan))
              (target_audience (company_summary plan))) as [ hasTarget | m ];
    [ | split; [ discriminate | split; [ reflexivity | discriminate ] ] ].
  destruct hasActivities, hasTarget; cbn;
    (split; [ try discriminate | try discriminate ]).
  - intros _. split; [ reflexivity | ]. now exists plan.
  - intros _. split; [ reflexivity | discriminate ].
  - intros _. split; [ reflexivity | discriminate ].
  - intros _. split; [ reflexivity | discriminate ].
Qed.

Lemma validatePlanData_consistent_witness :
  errors (validatePlanData SamplesMore.full_summary_payload None) = []
  /\ errors (validatePlanData SamplesMore.no_target_payload None)
     = [ missing_target ].
Proof.
  destruct (validatePlanData_consistent SamplesMore.full_summary_payload None)
    as [H _].
  split; [ exact (proj1 (H eq_refl)) | reflexivity ].
Defined.

Lemma parsePlanData_summary (raw : value) (domain : option string)
    (plan : MarketingPlan) :
  parsePlanData raw domain = Ok (Some plan) ->
  company_summary plan = parseCompanySummary (located_summary raw) domain.
Proof.
  unfold parsePlanData, located_summary, located_content.
  destruct (truthy raw); cbn [negb]; [ | discriminate ].
  destruct (getNestedValue raw contentPaths) as [content contentPath]. cbn [fst].
  destruct (negb (truthy content) || negb (typeof content =? "object"));
    [ discriminate | ].
  destruct (parsePrograms (get content "programs_list") content) as [ l | ];
    cbn [bind]; [ | discriminate ].
  intros H. injection H as <-. reflexivity.
Qed.

(** X12.  A payload whose summary names neither a target nor a target
    audience never validates: the placeholder put in by the parser does
    not count as content. *)
Theorem validatePlanData_needs_target (raw : value) (domain : option string) :
  truthy (get (located_summary raw) "target") = false ->
  truthy (get (located_summary raw) "target_audience") = false ->
  isValid (validatePlanData raw domain) = false
  /\ data (validatePlanData raw domain) = None.
Proof.
  intros Ht Ha. unfold validatePlanData.
  destruct (negb (truthy raw)); [ now split | ].
  destruct (parsePlanData raw domain) as [ [ plan | ] | m ] eqn:E;
    try (now split).
  rewrite (parsePlanData_summary raw domain plan E).
  assert (Htarget : target (parseCompanySummary (located_summary raw) domain)
                    = JStr "Not specified").
  { unfold parseCompanySummary.
    destruct (negb (truthy (located_summary raw))
              || negb (typeof (located_summary raw) =? "object"));
      [ reflexivity | ].
    cbn [target]. unfold or. now rewrite Ht, Ha. }
  assert (Haudience : target_audience (parseCompanySummary (located_summary raw) domain)
                      = JStr "Not specified" \/
                      target_audience (parseCompanySummary (located_summary raw) domain)
                      = JUndefined).
  { unfold parseCompanySummary.
    destruct (negb (truthy (located_summary raw))
              || negb (typeof (located_summary raw) =? "object"));
      [ now right | ].
    left. cbn [target_audience]. unfold or. now rewrite Ha, Ht. }
  rewrite Htarget.
  destruct (has_either _ _) as [ hasActivities | m ]; [ | now split ].
  destruct Haudience as [-> | ->]; cbn;
    destruct hasActivities; cbn; now split.
Qed.

Lemma validatePlanData_needs_target_witness :
  isValid (validatePlanData SamplesMore.no_target_payload None) = false.
Proof.
  apply validatePlanData_needs_target; reflexivity.
Defined.

End ParserEdges.

(** ** Scheduler: cancellation, success, single flight *)

Section SchedulerFacts.
Import UsePolling SpecScheduler.

Context {C : Type}.
Variable options : Options (C := C).

Ltac open_hook h :=
  destruct h as [st mounted tm hist active succeeded locked lastData susp own log];
  cbn in *; subst.

Lemma settle_halted (h : Hook (C := C)) :
  halted h ->
  halted (settle options h)
  /\ state (settle options h) = state h
  /\ callbacks (settle options h) = callbacks h
  /\ count_pollingFnCalls (settle options h) + List.length (awaiting (settle options h))
     = count_pollingFnCalls h + List.length (awaiting h).
Proof.
  intros [Ha Ht]. unfold settle, halted, callbacks, count_pollingFnCalls.
  destruct (awaiting h) as [ | n rest ] eqn:Hw.
  - rewrite Hw. repeat split; assumption.
  - unfold executePoll_resume. open_hook h.
    destruct (pollingFn options own) as [c [ result | message ]]; cbn.
    + destruct (isCompletedResponse result); cbn; rewrite andb_false_r; cbn;
        repeat split; lia.
    + rewrite andb_false_r. cbn. repeat split; lia.
Qed.

Lemma tick_halted (h : Hook (C := C)) :
  halted h ->
  halted (tick options h)
  /\ state (tick options h) = state h
  /\ callbacks (tick options h) = callbacks h
  /\ count_pollingFnCalls (tick options h) + List.length (awaiting (tick options h))
     = count_pollingFnCalls h + List.length (awaiting h).
Proof.
  intros H. unfold tick. destruct (awaiting h) as [ | n rest ] eqn:Hw.
  - cbn [step]. unfold fire_timer. destruct H as [Ha Ht]. rewrite Ht.
    rewrite Hw. repeat split; assumption.
  - cbn [step]. rewrite <- Hw. now apply settle_halted.
Qed.

Lemma run_halted (n : nat) (h : Hook (C := C)) :
  halted h ->
  halted (run options n h)
  /\ state (run options n h) = state h
  /\ callbacks (run options n h) = callbacks h
  /\ count_pollingFnCalls (run options n h) + List.length (awaiting (run options n h))
     = count_pollingFnCalls h + List.length (awaiting h).
Proof.
  revert h. induction n as [ | n IH ]; intros h H.
  - destruct H. repeat split; assumption || reflexivity.
  - cbn [run]. destruct (tick_halted h H) as (H1 & H2 & H3 & H4).
    destruct (IH _ H1) as ([I1 I1'] & I2 & I3 & I4).
    repeat split; congruence.
Qed.

Lemma stopPolling_halted (h : Hook (C := C)) : halted (stopPolling h).
Proof.
  unfold stopPolling, halted. open_hook h. destruct mounted; now split.
Qed.

(** X13.  [stopPolling] wins.  Whatever was pending when it is called,
    afterwards the scheduler starts no new attempt and arms no timer;
    only attempts already suspended at the awaited call settle, and
    their results are dropped: no callback is invoked and the state
    snapshot stays as [stopPolling] left it. *)
Theorem stop_wins (h : Hook (C := C)) (n : nat) :
  let stopped := stopPolling h in
  let later := run options n stopped in
  state later = state stopped
  /\ isPolling (state later) = negb (isMounted h) && isPolling (state h)
  /\ callbacks later = callbacks h
  /\ timer later = None
  /\ isActivePolling later = false
  /\ count_pollingFnCalls later + List.length (awaiting later)
     = count_pollingFnCalls h + List.length (awaiting h).
Proof.
  intros stopped later.
  destruct (run_halted n stopped (stopPolling_halted h)) as ([Ha Ht] & Hs & Hc & Hn).
  fold later in Ha, Ht, Hs, Hc, Hn.
  repeat split; try assumption.
  - rewrite Hs. subst stopped. unfold stopPolling. open_hook h.
    destruct mounted; reflexivity.
  - rewrite Hc. subst stopped. unfold stopPolling, callbacks. open_hook h.
    destruct mounted; reflexivity.
  - rewrite Hn. subst stopped. unfold stopPolling, count_pollingFnCalls.
    open_hook h. destruct mounted; reflexivity.
Qed.

Lemma resume_awaiting (n : nat) (h : Hook (C := C)) :
  awaiting (executePoll_resume options n h) = awaiting h.
Proof.
  unfold executePoll_resume, to_timeout, notify_maxAttempts, notify_success,
    notify_error, stopPolling, schedule_next.
  destruct (pollingFn options (owner h)) as [c [ result | message ]].
  - open_hook h.
    destruct (isCompletedResponse result), mounted, active,
      (onSuccess options), (onMaxAttemptsReached options),
      (maxAttemptsReached options n); cbn; try reflexivity;
      destruct (toldToStop options _); cbn; try reflexivity;
      destruct succeeded; reflexivity.
  - open_hook h.
    destruct mounted, active, (onError options), (onMaxAttemptsReached options),
      (maxAttemptsReached options n); reflexivity.
Qed.

Lemma begin_single_flight (n : nat) (h : Hook (C := C)) :
  awaiting h = [] -> timer h = None ->
  single_flight (executePoll_begin options n h).
Proof.
  intros Hw Ht. unfold executePoll_begin, single_flight, stopPolling.
  open_hook h.
  destruct locked; cbn; [ now left | ].
  destruct mounted, active; cbn; try (now left).
  destruct (toldToStop options _); cbn; [ now left | ].
  right. exists n. repeat split.
Qed.

Lemma step_single_flight (e : Event) (h : Hook (C := C)) :
  quiet e = true -> single_flight h -> single_flight (step options e h).
Proof.
  intros Hq Hinv. destruct e; try discriminate; cbn [step].
  - (* start *)
    unfold startPolling.
    destruct (isActivePolling h || isLocked h) eqn:Hbusy; [ exact Hinv | ].
    apply orb_false_elim in Hbusy. destruct Hbusy as [_ Hl].
    assert (Hw : awaiting h = []).
    { destruct Hinv as [Hw | (k & _ & _ & Hk)]; [ exact Hw | congruence ]. }
    destruct (0 <? initialDelay options)%Z.
    + left. open_hook h. reflexivity.
    + apply begin_single_flight; open_hook h; reflexivity.
  - (* unmount *)
    unfold unmount, single_flight in *. open_hook h.
    destruct Hinv as [Hw | (k & Hw & Ht & Hl)]; [ now left | ].
    right. exists k. now repeat split.
  - (* timer *)
    unfold fire_timer.
    destruct (timer h) as [ [ | n ] | ] eqn:Ht; [ | | exact Hinv ].
    + assert (Hw : awaiting h = []).
      { destruct Hinv as [Hw | (k & _ & Hk & _)]; [ exact Hw | congruence ]. }
      destruct (isMounted (set_timer None h) && isActivePolling (set_timer None h)).
      * apply begin_single_flight; open_hook h; reflexivity.
      * left. open_hook h. reflexivity.
    + assert (Hw : awaiting h = []).
      { destruct Hinv as [Hw | (k & _ & Hk & _)]; [ exact Hw | congruence ]. }
      destruct (isActivePolling (set_timer None h) && isMounted (set_timer None h)).
      * apply begin_single_flight; open_hook h; reflexivity.
      * left. open_hook h. reflexivity.
  - (* settle *)
    unfold settle. destruct (awaiting h) as [ | n rest ] eqn:Hw; [ now left | ].
    left. rewrite resume_awaiting.
    destruct Hinv as [Hn | (k & Hk & _)]; [ congruence | ].
    rewrite Hw in Hk. injection Hk as _ ->. open_hook h. reflexivity.
Qed.

(** X14.  Single flight.  From the first render on, as long as nobody
    calls [stop] or [reset], no sequence of starts, timers, settled
    calls and unmounting ever leaves more than one attempt suspended at
    the awaited call. *)
Theorem single_flight_without_stop (events : list Event) (c : C) :
  forallb quiet events = true ->
  List.length (awaiting (apply_events options events (mount c))) <= 1.
Proof.
  intros Hq.
  assert (Hinv : single_flight (apply_events options events (mount c))).
  { assert (Hstart : single_flight (mount c)) by now left.
    revert Hstart. generalize (mount c). unfold apply_events.
    induction events as [ | e events IH ]; intros h Hh; [ exact Hh | ].
    cbn [forallb] in Hq. apply andb_prop in Hq. destruct Hq as [He Hq].
    cbn [fold_left]. apply IH; [ exact Hq | ]. now apply step_single_flight. }
  destruct Hinv as [-> | (k & -> & _)]; cbn; lia.
Qed.

End SchedulerFacts.

Section SchedulerSuccess.
Import UsePolling SpecScheduler Spec.

Context {C : Type}.
Variable options : Options (C := C).

Hypothesis keeps_going :
  forall f, shouldContinuePolling options = Some f -> forall c, f c = true.
(** The polling function yields a completed response. *)
Hypothesis always_complete :
  forall c, exists result,
    snd (pollingFn options c) = Ok result /\ isCompletedResponse result = true.

Ltac open_hook h :=
  destruct h as [st mounted tm hist active succeeded locked lastData susp own log];
  cbn in *; subst.

Lemma tick_completes (h : Hook (C := C)) :
  waiting 1 h ->
  let h' := tick options h in
  status (state h') = success /\ attempt (state h') = 1
  /\ isPolling (state h') = isPolling (state h)
  /\ hasSuccessfulResponse h' = true
  /\ isCompletedResponse (data (state h')) = true
  /\ isActivePolling h' = false /\ isLocked h' = false
  /\ timer h' = None /\ awaiting h' = []
  /\ count_pollingFnCalls h' = 1
  /\ count_maxAttemptsCalls h' = 0
  /\ count_successCalls h' = count_successCalls h
                             + match onSuccess options with Some _ => 1 | None => 0 end.
Proof.
  intros (Hm & Ha & Hl & Ht & Hw & Hc & Hp) h'. subst h'.
  unfold tick. rewrite Hw. cbn [step]. unfold settle. rewrite Hw.
  unfold executePoll_resume, notify_success, count_successCalls.
  destruct (always_complete (owner h)) as (result & Hres & Hdone).
  open_hook h.
  destruct (pollingFn options own) as [c outcome]. cbn in Hres. subst outcome.
  rewrite Hdone. cbn.
  destruct (onSuccess options); cbn; repeat split; try assumption; lia.
Qed.

Lemma begin_snapshot (n : nat) (h : Hook (C := C)) :
  state (executePoll_begin options n h) = state h
  /\ calls (executePoll_begin options n h) = calls h.
Proof.
  unfold executePoll_begin.
  destruct (isLocked h); [ now split | ].
  destruct (negb (isMounted (set_isLocked true h))
            || negb (isActivePolling (set_isLocked true h)));
    [ now destruct h | ].
  rewrite (toldToStop_never options keeps_going). now destruct h.
Qed.

Lemma start_snapshot (c : C) :
  isPolling (state (startPolling options (mount c))) = true
  /\ calls (startPolling options (mount c)) = [].
Proof.
  unfold startPolling. cbn [mount isActivePolling isLocked orb].
  destruct (0 <? initialDelay options)%Z; [ now split | ].
  match goal with
  | |- context [executePoll_begin options 1 ?h] =>
      destruct (begin_snapshot 1 h) as [-> ->]
  end.
  now split.
Qed.

Lemma tick_delayed_snapshot (h : Hook (C := C)) :
  delayed h ->
  state (tick options h) = state h /\ calls (tick options h) = calls h.
Proof.
  intros (Hm & Ha & Hl & Ht & Hw & _).
  unfold tick. rewrite Hw. cbn [step]. unfold fire_timer. rewrite Ht.
  destruct (isMounted (set_timer None h) && isActivePolling (set_timer None h)).
  - destruct (begin_snapshot 1 (set_timer None h)) as [-> ->]. now destruct h.
  - now destruct h.
Qed.

(** X15.  When the polling function yields a completed response, the
    session ends at the first attempt: the status is [success], the
    polling function has been called once, [onSuccess] once if the owner
    supplied it, [onMaxAttemptsReached] never, and nothing is pending.
    The [isPolling] flag of the snapshot is still set: only
    [stopPolling] clears it. *)
Theorem polling_succeeds_at_once (c : C) (n : nat) :
  2 <= n ->
  let h := run options n (startPolling options (mount c)) in
  status (state h) = success
  /\ attempt (state h) = 1
  /\ isCompletedResponse (data (state h)) = true
  /\ isPolling (state h) = true
  /\ count_pollingFnCalls h = 1
  /\ count_successCalls h = match onSuccess options with Some _ => 1 | None => 0 end
  /\ count_maxAttemptsCalls h = 0
  /\ timer h = None /\ awaiting h = [] /\ isActivePolling h = false.
Proof.
  intros Hn h.
  assert (Hdone : forall h1, waiting 1 h1 ->
            isPolling (state h1) = true -> count_successCalls h1 = 0 ->
            forall k, let h2 := run options (S k) h1 in
            status (state h2) = success /\ attempt (state h2) = 1
            /\ isCompletedResponse (data (state h2)) = true
            /\ isPolling (state h2) = true
            /\ count_pollingFnCalls h2 = 1
            /\ count_successCalls h2 = match onSuccess options with Some _ => 1 | None => 0 end
            /\ count_maxAttemptsCalls h2 = 0
            /\ timer h2 = None /\ awaiting h2 = [] /\ isActivePolling h2 = false).
  { intros h1 Hw Hp Hs k h2. subst h2. cbn [run].
    destruct (tick_completes h1 Hw)
      as (T1 & T2 & T3 & T4 & T5 & T6 & T7 & T8 & T9 & T10 & T11 & T12).
    assert (Hhalt : halted (tick options h1)) by now split.
    destruct (run_halted options k _ Hhalt) as ([R1 R2] & R3 & R4 & R5).
    assert (Hawait : awaiting (run options k (tick options h1)) = []).
    { clear - T9 Hhalt. revert Hhalt T9. generalize (tick options h1).
      induction k as [ | k IH ]; intros h0 Hh Hw0; [ exact Hw0 | ].
      cbn [run]. assert (tick options h0 = h0) as ->.
      { unfold tick. rewrite Hw0. cbn [step]. unfold fire_timer.
        destruct Hh as [_ ->]. reflexivity. }
      now apply IH. }
    rewrite R3. rewrite Hawait, T9 in R5. cbn in R5.
    repeat split; try assumption; try congruence.
    - lia.
    - assert (Hcalls : calls (run options k (tick options h1)) = calls (tick options h1)).
      { clear - T9 Hhalt. revert Hhalt T9. generalize (tick options h1).
        induction k as [ | k IH ]; intros h0 Hh Hw0; [ reflexivity | ].
        cbn [run]. assert (tick options h0 = h0) as ->.
        { unfold tick. rewrite Hw0. cbn [step]. unfold fire_timer.
          destruct Hh as [_ ->]. reflexivity. }
        now apply IH. }
      unfold count_successCalls in *. rewrite Hcalls. lia.
    - assert (Hcalls : calls (run options k (tick options h1)) = calls (tick options h1)).
      { clear - T9 Hhalt. revert Hhalt T9. generalize (tick options h1).
        induction k as [ | k IH ]; intros h0 Hh Hw0; [ reflexivity | ].
        cbn [run]. assert (tick options h0 = h0) as ->.
        { unfold tick. rewrite Hw0. cbn [step]. unfold fire_timer.
          destruct Hh as [_ ->]. reflexivity. }
        now apply IH. }
      unfold count_maxAttemptsCalls in *. now rewrite Hcalls. }
  subst h.
  destruct (start_snapshot c) as [Hp Hc].
  destruct (startPolling_mount options keeps_going c) as [Hd | Hw].
  - destruct n as [ | [ | k ] ]; try lia.
    change (run options (S (S k)) (startPolling options (mount c)))
      with (run options (S k) (tick options (startPolling options (mount c)))).
    destruct (tick_delayed_snapshot _ Hd) as [Hs Hl].
    apply Hdone.
    + now apply tick_delayed.
    + now rewrite Hs.
    + unfold count_successCalls. now rewrite Hl, Hc.
  - destruct n as [ | k ]; try lia.
    apply Hdone; [ exact Hw | exact Hp | ].
    unfold count_successCalls. now rewrite Hc.
Qed.

End SchedulerSuccess.

Lemma polling_succeeds_at_once_witness :
  let h := UsePolling.run SamplesScheduler.always_ready 2
             (UsePolling.startPolling SamplesScheduler.always_ready
                (UsePolling.mount 0)) in
  UsePolling.status (UsePolling.state h) = UsePolling.success
  /\ UsePolling.count_pollingFnCalls h = 1
  /\ UsePolling.isPolling (UsePolling.state h) = true.
Proof.
  destruct (polling_succeeds_at_once SamplesScheduler.always_ready
              ltac:(intros f H; injection H as <-; reflexivity)
              ltac:(intros c; eexists; split; reflexivity)
              0 2 ltac:(repeat constructor))
    as (H1 & _ & _ & H4 & H5 & _).
  repeat split; assumption.
Defined.

(** Stopping and starting again while an attempt is suspended leaves two
    attempts in flight. *)
Example stop_start_overlaps :
  UsePolling.awaiting
    (SpecScheduler.apply_events Samples.always_running
       [ UsePolling.EvStart; UsePolling.EvStop; UsePolling.EvStart ]
       (UsePolling.mount 0))
  = [ 1; 1 ].
Proof. reflexivity. Qed.

Lemma single_flight_without_stop_witness :
  List.length
    (UsePolling.awaiting
       (SpecScheduler.apply_events Samples.always_running
          [ UsePolling.EvStart; UsePolling.EvStart; UsePolling.EvTimer ]
          (UsePolling.mount 0))) <= 1.
Proof.
  apply (single_flight_without_stop Samples.always_running). reflexivity.
Defined.

(** ** Competitor polling loop *)

Section CompetitorLoop.
Import CompetitorPolling SpecCompetitor.

Variable env : Env.

Ltac open_loop h :=
  destruct h as [h_data h_loading h_error h_valid h_raw h_interval h_count
                 h_mounted h_requests];
  cbn -[Nat.leb] in *; subst.

Lemma check_now_capped (stop : bool) (h : Hook) :
  capped h -> capped (check_now env stop h).
Proof.
  intros [Hc Hr]. unfold check_now, request, capped, startPolling, maxAttempts in *.
  open_loop h.
  assert (Hr' : Forall (fun a => a <= 30) (h_requests ++ [0])).
  { apply Forall_app. split; [ exact Hr | constructor; [ lia | constructor ] ]. }
  destruct (Api.getAnalysisAnswer _) as [ response | message ]; cbn -[Nat.leb].
  - destruct (Api.isAnalysisComplete response); cbn -[Nat.leb].
    + destruct stop; cbn -[Nat.leb]; split; [ lia | exact Hr' | lia | exact Hr' ].
    + destruct (negb (present (conversationId env)) || h_interval); cbn -[Nat.leb];
        split; [ lia | exact Hr' | lia | exact Hr' ].
  - split; [ lia | exact Hr' ].
Qed.

Lemma step_capped (e : Event) (h : Hook) : capped h -> capped (step env e h).
Proof.
  intros Hcap. destruct e; cbn [step].
  - destruct Hcap as [Hc Hr].
    unfold interval_tick, request, capped, maxAttempts in *. open_loop h.
    destruct h_interval; cbn -[Nat.leb]; [ | now split ].
    destruct (Nat.leb_spec 30 h_count); cbn -[Nat.leb];
      [ destruct h_mounted; cbn -[Nat.leb]; now split | ].
    destruct h_mounted; cbn -[Nat.leb]; [ | now split ].
    assert (Hr' : Forall (fun a => a <= 30) (h_requests ++ [h_count + 1])).
    { apply Forall_app. split; [ exact Hr | constructor; [ lia | constructor ] ]. }
    destruct (Api.getAnalysisAnswer _) as [ response | message ]; cbn -[Nat.leb].
    + destruct (Api.isAnalysisComplete response); cbn -[Nat.leb]; split; lia || exact Hr'.
    + destruct (3 <=? h_count + 1)%nat; cbn -[Nat.leb]; split; lia || exact Hr'.
  - unfold retryConnection.
    destruct (negb (present (conversationId env)));
      [ now destruct h | now apply check_now_capped ].
  - destruct Hcap as [Hc Hr]. unfold unmount, capped in *. now destruct h.
Qed.

(** X16.  Whatever the remote side answers and however ticks of the
    interval, retries and unmounting follow each other, the competitor
    hook never polls with an attempt count above 30. *)
Theorem competitor_attempts_capped (events : list Event) :
  let h := apply_events env events (mount env) in
  attemptCountRef h <= 30 /\ Forall (fun a => a <= 30) (requests h).
Proof.
  assert (Hstart : capped (mount env)).
  { unfold mount. destruct (present (conversationId env)).
    - apply check_now_capped. split; [ cbn -[Nat.leb]; unfold maxAttempts; lia | constructor ].
    - split; [ cbn -[Nat.leb]; unfold maxAttempts; lia | constructor ]. }
  revert Hstart. generalize (mount env). unfold apply_events.
  induction events as [ | e events IH ]; intros h Hh; [ exact Hh | ].
  cbn [fold_left]. apply IH. now apply step_capped.
Qed.

Lemma stopped_tick (h : Hook) :
  pollingIntervalRef h = false -> interval_tick env h = h.
Proof. intros H. unfold interval_tick. now rewrite H. Qed.

Lemma stopped_ticks (n : nat) (h : Hook) :
  pollingIntervalRef h = false -> ticks env n h = h.
Proof.
  intros H. induction n as [ | n IH ]; [ reflexivity | ].
  cbn [ticks]. now rewrite stopped_tick.
Qed.

Lemma ticks_add (a b : nat) (h : Hook) :
  ticks env (a + b) h = ticks env b (ticks env a h).
Proof.
  revert h. induction a as [ | a IH ]; intros h; [ reflexivity | ].
  cbn [Nat.add ticks]. apply IH.
Qed.

Lemma ticks_S (n : nat) (h : Hook) :
  ticks env (S n) h = ticks env n (interval_tick env h).
Proof. reflexivity. Qed.

(** X17.  A failed request is swallowed on the first and second poll:
    polling goes on and no error is shown.  From the third poll on, a
    single failed request stops polling and shows its message. *)
Theorem competitor_error_threshold (k : nat) (h : Hook) (message : string) :
  polling_at k h -> k < 30 ->
  Api.getAnalysisAnswer (http env (List.length (requests h)) (k + 1)) = Throw message ->
  let h' := interval_tick env h in
  attemptCountRef h' = k + 1
  /\ data h' = data h
  /\ (k + 1 < 3 -> pollingIntervalRef h' = true /\ error h' = error h)
  /\ (3 <= k + 1 ->
        pollingIntervalRef h' = false /\ error h' = Some message
        /\ forall n, ticks env n h' = h').
Proof.
  intros (Hi & Hm & Hk) Hlt Hreply h'. subst h'.
  unfold interval_tick, request, maxAttempts. open_loop h.
  destruct (Nat.leb_spec 30 k); [ lia | ]. cbn -[Nat.leb].
  rewrite Hreply. cbn -[Nat.leb].
  destruct (Nat.leb_spec 3 (k + 1)); cbn -[Nat.leb]; repeat split; try lia.
  intros n. now apply stopped_ticks.
Qed.

(** X18.  When the analysis never completes and no request fails, the
    hook polls exactly 30 times; the tick after that clears the interval
    and shows the time-out, and nothing happens afterwards. *)
Theorem competitor_times_out (h : Hook) (n : nat) :
  polling_at 0 h ->
  (forall made attempt,
      exists response,
        Api.getAnalysisAnswer (http env made attempt) = Ok response
        /\ Api.isAnalysisComplete response = false) ->
  31 <= n ->
  let h' := ticks env n h in
  pollingIntervalRef h' = false
  /\ error h' = Some "Analysis timed out. Please try again."
  /\ attemptCountRef h' = 30
  /\ requests h' = requests h ++ seq 1 30
  /\ data h' = data h.
Proof.
  intros Hstart Hrun Hn h'. subst h'.
  assert (Hpoll : forall d k h0, k + d = 30 -> polling_at k h0 ->
            polling_at 30 (ticks env d h0)
            /\ requests (ticks env d h0) = requests h0 ++ seq (k + 1) d
            /\ data (ticks env d h0) = data h0).
  { induction d as [ | d IH ]; intros k h0 Hk Hp.
    - assert (k = 30) by lia. subst k. cbn [ticks seq]. rewrite app_nil_r. repeat split; apply Hp.
    - cbn [ticks].
      destruct (Hrun (List.length (requests h0)) (k + 1)) as (response & Hr & Hc).
      assert (Hstep : polling_at (k + 1) (interval_tick env h0)
                      /\ requests (interval_tick env h0) = requests h0 ++ [k + 1]
                      /\ data (interval_tick env h0) = data h0).
      { destruct Hp as (Hi & Hm & Hcount).
        unfold interval_tick, request, maxAttempts, polling_at. open_loop h0.
        destruct (Nat.leb_spec 30 k); [ lia | ]. cbn -[Nat.leb].
        rewrite Hr. cbn -[Nat.leb]. rewrite Hc. cbn -[Nat.leb]. repeat split. }
      destruct Hstep as (Hp' & Hreq & Hdata).
      destruct (IH (k + 1) _ ltac:(lia) Hp') as (I1 & I2 & I3).
      split; [ exact I1 | split ].
      + rewrite I2, Hreq, <- app_assoc. cbn [app seq].
        now replace (k + 1 + 1) with (S (k + 1)) by lia.
      + congruence. }
  pose proof (Hpoll 30 0 h eq_refl Hstart) as Hthirty.
  remember (ticks env 30 h) as h30 eqn:Eh30.
  destruct Hthirty as ((Hi & Hm & Hc) & Hreq & Hdata).
  assert (Hn' : ticks env n h = ticks env (n - 31) (interval_tick env h30)).
  { replace n with (30 + S (n - 31)) at 1 by lia.
    rewrite ticks_add, <- Eh30. apply ticks_S. }
  rewrite Hn'. clear Hn' Eh30 Hpoll.
  assert (Hend : pollingIntervalRef (interval_tick env h30) = false
                 /\ error (interval_tick env h30)
                    = Some "Analysis timed out. Please try again."
                 /\ attemptCountRef (interval_tick env h30) = 30
                 /\ requests (interval_tick env h30) = requests h30
                 /\ data (interval_tick env h30) = data h30).
  { unfold interval_tick, maxAttempts. open_loop h30.
    repeat split. }
  destruct Hend as (E1 & E2 & E3 & E4 & E5).
  rewrite (stopped_ticks _ _ E1). change (0 + 1) with 1 in Hreq.
  repeat split; congruence.
Qed.

(** X19.  A complete response stops the loop for good: the interval is
    cleared, the data holds the response with an array of competitors,
    and later ticks change nothing. *)
Theorem competitor_completion (k : nat) (h : Hook) (response : value) :
  polling_at k h -> k < 30 ->
  Api.getAnalysisAnswer (http env (List.length (requests h)) (k + 1)) = Ok response ->
  Api.isAnalysisComplete response = true ->
  let h' := interval_tick env h in
  pollingIntervalRef h' = false
  /\ hasValidData h' = true /\ isLoading h' = false
  /\ (exists items,
        data h' = Some (mkCompetitorStackData (text (companyDomain env)) response
                          (JArr items)))
  /\ forall n, ticks env n h' = h'.
Proof.
  intros (Hi & Hm & Hk) Hlt Hreply Hdone h'. subst h'.
  destruct (complete_has_competitors_parts response Hdone) as (items & Hitems).
  unfold interval_tick, request, maxAttempts, accept. open_loop h.
  destruct (Nat.leb_spec 30 k); [ lia | ]. cbn -[Nat.leb].
  rewrite Hreply. cbn -[Nat.leb]. rewrite Hdone. cbn -[Nat.leb]. rewrite Hitems.
  repeat split.
  - now exists items.
  - intros n. now apply stopped_ticks.
Qed.

End CompetitorLoop.

Lemma competitor_error_threshold_witness :
  let h1 := CompetitorPolling.interval_tick SamplesCompetitor.failing_env
              (CompetitorPolling.mount SamplesCompetitor.failing_env) in
  let h3 := CompetitorPolling.interval_tick SamplesCompetitor.failing_env
              (CompetitorPolling.ticks SamplesCompetitor.failing_env 2
                 (CompetitorPolling.mount SamplesCompetitor.failing_env)) in
  (CompetitorPolling.pollingIntervalRef h1 = true
   /\ CompetitorPolling.error h1 = None)
  /\ CompetitorPolling.pollingIntervalRef h3 = false
  /\ CompetitorPolling.error h3 = Some "Failed to fetch".
Proof.
  split.
  - exact (proj1 (proj2 (proj2
      (competitor_error_threshold SamplesCompetitor.failing_env 0
         (CompetitorPolling.mount SamplesCompetitor.failing_env) "Failed to fetch"
         ltac:(repeat split) ltac:(repeat constructor) eq_refl)))
      ltac:(repeat constructor)).
  - destruct (competitor_error_threshold SamplesCompetitor.failing_env 2
      (CompetitorPolling.ticks SamplesCompetitor.failing_env 2
         (CompetitorPolling.mount SamplesCompetitor.failing_env)) "Failed to fetch"
      ltac:(repeat split) ltac:(repeat constructor) eq_refl) as (_ & _ & _ & H).
    destruct (H ltac:(repeat constructor)) as (H1 & H2 & _).
    split; [ exact H1 | exact H2 ].
Defined.

Lemma competitor_times_out_witness :
  let h := CompetitorPolling.ticks SamplesCompetitor.running_env 40
             (CompetitorPolling.mount SamplesCompetitor.running_env) in
  CompetitorPolling.error h = Some "Analysis timed out. Please try again."
  /\ List.length (CompetitorPolling.requests h) = 31.
Proof.
  destruct (competitor_times_out SamplesCompetitor.running_env
              (CompetitorPolling.mount SamplesCompetitor.running_env) 40
              ltac:(repeat split)
              ltac:(intros made attempt; eexists; split; reflexivity)
              ltac:(repeat constructor)) as (_ & H2 & _ & H4 & _).
  split; [ exact H2 | ]. rewrite H4. reflexivity.
Defined.

Lemma competitor_completion_witness :
  let h := CompetitorPolling.interval_tick SamplesCompetitor.ready_at_two
             (CompetitorPolling.interval_tick SamplesCompetitor.ready_at_two
                (CompetitorPolling.mount SamplesCompetitor.ready_at_two)) in
  CompetitorPolling.hasValidData h = true
  /\ CompetitorPolling.ticks SamplesCompetitor.ready_at_two 3 h = h.
Proof.
  destruct (competitor_completion SamplesCompetitor.ready_at_two 1
              (CompetitorPolling.interval_tick SamplesCompetitor.ready_at_two
                 (CompetitorPolling.mount SamplesCompetitor.ready_at_two))
              Samples.complete_response
              ltac:(repeat split) ltac:(repeat constructor) eq_refl eq_refl)
    as (_ & H2 & _ & _ & H5).
  split; [ exact H2 | exact (H5 3) ].
Defined.

(** ** Runs of the polling callback *)

Section CallbackRuns.
Import UseMarketingPlanData SpecCallback.

Variable env : Env.

Ltac open_session s :=
  destruct s as [s_dom s_conv s_nav s_valid s_wait s_miss s_plan s_load s_err
                 s_raw s_has s_polls s_cont s_auto s_saving s_rows s_navs];
  cbn in *; subst.

Lemma filed_nil (key address : string) : filed_under key address [].
Proof. constructor. Qed.

Lemma advance_refl (s : Session) : advance env s s.
Proof.
  unfold advance. repeat split; auto.
  exists []. split; [ now rewrite app_nil_r | apply filed_nil ].
Qed.

Lemma advance_frame (s s1 s' : Session) :
  same_frame s s1 -> advance env s1 s' -> advance env s s'.
Proof.
  intros (F1 & F2 & F3 & F4 & F5). unfold advance.
  now rewrite F1, F2, F3, F4, F5.
Qed.

Lemma saveMarketingPlan_filed (key : string) (data : value) (rows : list MarketingPlanService.Row) :
  exists new,
    snd (MarketingPlanService.saveMarketingPlan (db env) key (email env) data rows)
    = rows ++ new
    /\ filed_under key (email env) new.
Proof.
  unfold MarketingPlanService.saveMarketingPlan.
  destruct (key =? "") eqn:Ek; cbn [orb].
  { exists []. split; [ now rewrite app_nil_r | apply filed_nil ]. }
  destruct (email env =? "") eqn:Em.
  { exists []. split; [ now rewrite app_nil_r | apply filed_nil ]. }
  apply String.eqb_neq in Ek, Em.
  eexists. split; [ reflexivity | ]. repeat constructor; assumption.
Qed.

Lemma frame_advance (s t : Session) : same_frame s t -> advance env s t.
Proof. intros H. apply (advance_frame _ _ _ H), advance_refl. Qed.

Lemma advance_trans (s1 s2 s3 : Session) :
  advance env s1 s2 -> advance env s2 s3 -> advance env s1 s3.
Proof.
  intros (A1 & A2 & A3 & A4 & rowsA & A5 & A6) (B1 & B2 & B3 & B4 & rowsB & B5 & B6).
  rewrite A1 in B4, B6. unfold advance.
  split; [ congruence | ]. split; [ auto | ]. split; [ | split ].
  - intros H. destruct (A3 H) as (N & V). destruct (B3 N) as (N' & V').
    split; congruence.
  - intros H. destruct (A4 H) as [(N & V) | (N & V)].
    + destruct (B4 N) as [(N' & V') | (N' & V')]; [ left | right ];
        split; congruence.
    + destruct (B3 N) as (N' & V'). right. split; congruence.
  - exists (rowsA ++ rowsB). split.
    + now rewrite B5, A5, app_assoc.
    + apply Forall_app. now split.
Qed.

(** An entry that leaves rows and navigation alone. *)
Ltac no_effect :=
  cbn;
  split; [ reflexivity | ];
  split; [ intros; reflexivity || assumption | ];
  split; [ intros; try discriminate; now split | ];
  split; [ intros; try discriminate; left; now split | ];
  exists []; split; [ now rewrite app_nil_r | apply filed_nil ].

Lemma handleSuccessfulPlan_resume_advance (plan : ParsePlanData.MarketingPlan)
    (s : Session) :
  advance env s (handleSuccessfulPlan_resume plan s).
Proof.
  unfold handleSuccessfulPlan_resume, finally_saving, advance. open_session s.
  destruct s_nav, (present s_dom), s_valid, s_wait; try no_effect.
  cbn. split; [ reflexivity | ]. split; [ reflexivity | ].
  split; [ discriminate | ]. split; [ intros _; right; now split | ].
  exists []. split; [ now rewrite app_nil_r | apply filed_nil ].
Qed.

Lemma handleSuccessfulPlan_begin_advance
    (parsedData : option ParsePlanData.MarketingPlan) (rawData : value)
    (s : Session) :
  advance env s (fst (handleSuccessfulPlan_begin env parsedData rawData s)).
Proof.
  unfold handleSuccessfulPlan_begin.
  destruct (hasNavigatedRef s) eqn:Hn; [ apply advance_refl | ].
  destruct parsedData as [ plan | ];
    [ | apply frame_advance; unfold same_frame; now destruct s ].
  destruct (List.length (ParsePlanData.programs_list plan) =? 0)%nat;
    [ apply frame_advance; unfold same_frame; now destruct s | ].
  destruct (present (latestDomainRef s)) eqn:Hp.
  - cbn -[finally_saving MarketingPlanService.saveMarketingPlan]. rewrite Hp.
    destruct (nullish rawData || nullish (get rawData "response")).
    + apply frame_advance. unfold same_frame, finally_saving.
      open_session s. destruct s_wait; now repeat split.
    + destruct (saveMarketingPlan_filed
                  (ref_text (latestDomainRef s))
                  (dataToSave env rawData
                     (set_isSaving true (set_dataValidationPassedRef true s)))
                  (writes s)) as (new & Hw & Hfiled).
      destruct (MarketingPlanService.saveMarketingPlan _ _ _ _ _) as [res w].
      cbn [snd] in Hw. subst w.
      unfold advance. open_session s.
      split; [ reflexivity | ]. split; [ intros H; exact H | ].
      split; [ discriminate | ]. split; [ intros _; left; now split | ].
      exists new. now split.
  - cbn -[handleSuccessfulPlan_resume]. rewrite Hp.
    apply advance_frame
      with (s1 := set_isSaving true (set_dataValidationPassedRef true s));
      [ unfold same_frame; now destruct s | ].
    apply handleSuccessfulPlan_resume_advance.
Qed.

Lemma handleSuccessfulPlan_advance (parsedData : option ParsePlanData.MarketingPlan)
    (rawData : value) (s : Session) :
  advance env s (handleSuccessfulPlan env parsedData rawData s).
Proof.
  unfold handleSuccessfulPlan.
  pose proof (handleSuccessfulPlan_begin_advance parsedData rawData s) as Hb.
  destruct (handleSuccessfulPlan_begin env parsedData rawData s)
    as [s1 [ plan | ]]; cbn [fst] in Hb; [ | exact Hb ].
  apply (advance_trans _ _ _ Hb), handleSuccessfulPlan_resume_advance.
Qed.

Lemma handle_apiError_advance (errorMessage conversation : string) (s : Session) :
  advance env s (fst (handle_apiError errorMessage conversation s)).
Proof.
  unfold handle_apiError, advance.
  destruct (includes (toLowerCase errorMessage) "no agent response"
            || includes errorMessage "404").
  - open_session s.
    destruct (notFoundErrorThreshold <=? s_miss + 1)%Z; cbn;
      [ destruct s_auto; cbn | ];
      repeat split; auto; try (destruct s_nav; auto; fail);
      exists []; (split; [ now rewrite app_nil_r | apply filed_nil ]).
  - open_session s.
    repeat split; auto; try (destruct s_nav; auto; fail);
      exists []; (split; [ now rewrite app_nil_r | apply filed_nil ]).
Qed.

Lemma pollingCallback_advance (s : Session) :
  advance env s (fst (pollingCallback env s)).
Proof.
  unfold pollingCallback.
  destruct (negb (present (conversationIdRef s))); [ apply advance_refl | ].
  destruct (Api.getAnalysisAnswer _) as [ response | message ].
  - set (s1 := set_rawApiData response
                 (set_consecutive404ErrorsRef 0
                    (set_pollCounter (pollCounter s + 1) s))).
    assert (Hframe : same_frame s s1) by (unfold same_frame; now destruct s).
    apply (advance_frame _ _ _ Hframe).
    destruct (str_eq (get response "status") "failed");
      [ apply handle_apiError_advance | ].
    destruct (Api.isAnalysisComplete response); [ | apply advance_refl ].
    destruct (ParsePlanData.parsePlanData _ _) as [ [ plan | ] | message ];
      try apply handle_apiError_advance.
    pose proof (handleSuccessfulPlan_advance (Some plan) response s1) as H.
    destruct (minimumPollingTimeReachedRef _ && dataValidationPassedRef _);
      exact H.
  - set (s1 := set_pollCounter (pollCounter s + 1) s).
    assert (Hframe : same_frame s s1) by (unfold same_frame; now destruct s).
    apply (advance_frame _ _ _ Hframe), handle_apiError_advance.
Qed.

Lemma polls_domain (n : nat) (s : Session) :
  latestDomainRef (polls env n s) = latestDomainRef s.
Proof.
  revert s. induction n as [ | n IH ]; intros s; [ reflexivity | ].
  cbn [polls]. rewrite IH. apply pollingCallback_advance.
Qed.

(** X20.  The polling callback never switches polling back on: once
    [continuePolling] is false it stays false over any number of runs,
    whatever the remote side answers. *)
Theorem callback_never_resumes (n : nat) (s : Session) :
  continuePolling s = false -> continuePolling (polls env n s) = false.
Proof.
  revert s. induction n as [ | n IH ]; intros s H; [ exact H | ].
  cbn [polls]. apply IH.
  now apply (pollingCallback_advance s).
Qed.

(** X21.  Over any number of runs of the polling callback the hook
    navigates to the results page at most once, and only to the page of
    the session's domain. *)
Theorem navigates_at_most_once (n : nat) (s : Session) :
  hasNavigatedRef s = false -> navigations s = [] ->
  let s' := polls env n s in
  (hasNavigatedRef s' = false /\ navigations s' = [])
  \/ (hasNavigatedRef s' = true
      /\ navigations s'
         = [ ("/results/" ++ ref_text (latestDomainRef s))%string ]).
Proof.
  intros Hn Hnav s'. subst s'.
  assert (Hlatched : forall m t, hasNavigatedRef t = true ->
            hasNavigatedRef (polls env m t) = true
            /\ navigations (polls env m t) = navigations t).
  { induction m as [ | m IHm ]; intros t Ht; [ now split | ].
    cbn [polls].
    destruct (pollingCallback_advance t) as (_ & _ & Hkeep & _).
    destruct (Hkeep Ht) as (K1 & K2).
    destruct (IHm _ K1) as (I1 & I2). split; congruence. }
  revert s Hn Hnav. induction n as [ | n IH ]; intros s Hn Hnav; [ now left | ].
  cbn [polls].
  destruct (pollingCallback_advance s) as (Hdom & _ & _ & Hfresh & _).
  destruct (Hfresh Hn) as [ (F1 & F2) | (F1 & F2) ].
  - rewrite <- Hdom. apply IH; congruence.
  - right. destruct (Hlatched n _ F1) as (L1 & L2).
    split; [ exact L1 | ]. rewrite L2, F2, Hnav. reflexivity.
Qed.

(** X22.  Every row that runs of the polling callback hand to the plans
    table is filed under the session's domain and the user's address,
    neither of them empty. *)
Theorem rows_carry_session_key (n : nat) (s : Session) :
  exists rows,
    writes (polls env n s) = writes s ++ rows
    /\ filed_under (ref_text (latestDomainRef s)) (email env) rows.
Proof.
  revert s. induction n as [ | n IH ]; intros s.
  - exists []. split; [ now rewrite app_nil_r | apply filed_nil ].
  - cbn [polls].
    destruct (pollingCallback_advance s) as (Hdom & _ & _ & _ & new & Hw & Hf).
    destruct (IH (fst (pollingCallback env s))) as (rows & Hw' & Hf').
    exists (new ++ rows). split.
    + now rewrite Hw', Hw, app_assoc.
    + rewrite Hdom in Hf'. apply Forall_app. now split.
Qed.

End CallbackRuns.

Lemma callback_never_resumes_witness :
  UseMarketingPlanData.continuePolling
    (SpecCallback.polls ready_env 3
       (UseMarketingPlanData.mount (Some "acme.com") (Some "conv-12345"))) = false.
Proof.
  exact (callback_never_resumes ready_env 3
           (UseMarketingPlanData.mount (Some "acme.com") (Some "conv-12345")) eq_refl).
Defined.

Lemma navigates_at_most_once_witness :
  let s' := SpecCallback.polls ready_env 3 settled_session in
  (UseMarketingPlanData.hasNavigatedRef s' = false
   /\ UseMarketingPlanData.navigations s' = [])
  \/ (UseMarketingPlanData.hasNavigatedRef s' = true
      /\ UseMarketingPlanData.navigations s' = [ "/results/acme.com" ]).
Proof. exact (navigates_at_most_once ready_env 3 settled_session eq_refl eq_refl). Defined.

(** ** The two normalizers side by side *)

Section NormalizerPair.
Import DomainRegex SpecCallback.

Lemma no_space_trim (s : string) : no_space s = true -> trim s = s.
Proof.
  intros H. unfold trim.
  assert (Hstart : trimStart s = s).
  { destruct s as [ | c s ]; [ reflexivity | ].
    cbn [no_space] in H. apply andb_prop in H. destruct H as [Hc _].
    apply negb_true_iff in Hc. cbn [trimStart]. now rewrite Hc. }
  rewrite Hstart. clear Hstart.
  induction s as [ | c s IH ]; [ reflexivity | ].
  cbn [no_space] in H. apply andb_prop in H. destruct H as [Hc Hs].
  apply negb_true_iff in Hc.
  cbn [trimEnd all_space]. rewrite Hc. cbn [andb]. now rewrite IH.
Qed.

Lemma no_space_slice (n : nat) (s : string) :
  no_space s = true -> no_space (slice n s) = true.
Proof.
  revert s. induction n as [ | n IH ]; intros s H; [ now destruct s | ].
  destruct s as [ | c s ]; [ reflexivity | ].
  cbn [no_space] in H. apply andb_prop in H. cbn [slice]. now apply IH.
Qed.

Lemma no_space_strip_path (s : string) :
  no_space s = true -> no_space (strip_path s) = true.
Proof.
  induction s as [ | c s IH ]; [ reflexivity | ].
  cbn [no_space strip_path]. intros H. apply andb_prop in H. destruct H as [Hc Hs].
  destruct (Ascii.eqb c "/" && no_line_terminator s); [ reflexivity | ].
  cbn [no_space]. now rewrite Hc, IH.
Qed.

Lemma no_space_strips (s : string) :
  no_space s = true ->
  no_space (strip_www (strip_path (strip_protocol s))) = true.
Proof.
  intros H. unfold strip_www, strip_protocol.
  assert (Hp : no_space (strip_path
                 (if startsWith s "http://" then slice 7 s
                  else if startsWith s "https://" then slice 8 s else s)) = true).
  { apply no_space_strip_path.
    destruct (startsWith s "http://"); [ now apply no_space_slice | ].
    destruct (startsWith s "https://"); [ now apply no_space_slice | exact H ]. }
  destruct (startsWith _ "www."); [ now apply no_space_slice | exact Hp ].
Qed.

(** X23.  On lower-case input without white space the normalizer of the
    storage service and the normalizer of the domain utilities give the
    same key. *)
Theorem normalizers_agree (s : string) :
  all_lower s = true -> no_space s = true ->
  MarketingPlanService.normalizeDomain s = DomainUtils.normalizeDomain s.
Proof.
  intros Hl Hs.
  unfold MarketingPlanService.normalizeDomain, DomainUtils.normalizeDomain.
  rewrite (no_space_trim s Hs), (toLowerCase_fixed s Hl).
  destruct (s =? "") eqn:E.
  - apply String.eqb_eq in E. subst s. reflexivity.
  - cbv zeta.
    rewrite toLowerCase_fixed
      by (now apply all_lower_strip_www, all_lower_strip_path,
                    all_lower_strip_protocol).
    apply no_space_trim. now apply no_space_strips.
Qed.

(** X24.  The two normalizers differ in when they lower the case: for a
    lower-case host without slash and white space, the storage service
    keeps the prefix of "WWW.host" (lowered), the domain utilities
    remove it. *)
Theorem normalizers_differ_on_upper_www (host : string) :
  all_lower host = true -> no_space host = true -> includes host "/" = false ->
  MarketingPlanService.normalizeDomain ("WWW." ++ host) = ("www." ++ host)%string
  /\ DomainUtils.normalizeDomain ("WWW." ++ host) = host.
Proof.
  intros Hl Hs Hslash.
  assert (Hpath : forall a b c d,
            Ascii.eqb a "/" = false -> Ascii.eqb b "/" = false ->
            Ascii.eqb c "/" = false -> Ascii.eqb d "/" = false ->
            strip_path (String a (String b (String c (String d host))))
            = String a (String b (String c (String d host)))).
  { intros a b c d Ha Hb Hc Hd. cbn [strip_path].
    rewrite Ha, Hb, Hc, Hd. cbn [andb].
    now rewrite (no_slash_strip_path host Hslash). }
  split.
  - unfold MarketingPlanService.normalizeDomain.
    cbn [append String.eqb Ascii.eqb Bool.eqb].
    unfold strip_protocol. cbn [startsWith Ascii.eqb Bool.eqb andb].
    rewrite Hpath by reflexivity.
    unfold strip_www. cbn [startsWith Ascii.eqb Bool.eqb andb].
    change (toLowerCase (String "W" (String "W" (String "W" (String "." host)))))
      with (String "w" (String "w" (String "w" (String "." (toLowerCase host))))).
    rewrite (toLowerCase_fixed host Hl).
    apply no_space_trim. cbn [no_space]. now rewrite Hs.
  - unfold DomainUtils.normalizeDomain.
    rewrite no_space_trim by (cbn [append no_space]; now rewrite Hs).
    change (toLowerCase ("WWW." ++ host))
      with (String "w" (String "w" (String "w" (String "." (toLowerCase host))))).
    rewrite (toLowerCase_fixed host Hl).
    unfold strip_protocol. cbn [startsWith Ascii.eqb Bool.eqb andb].
    rewrite Hpath by reflexivity.
    unfold strip_www. cbn [startsWith Ascii.eqb Bool.eqb andb slice].
    reflexivity.
Qed.

End NormalizerPair.

Lemma normalizers_agree_witness :
  MarketingPlanService.normalizeDomain "https://www.acme.com/pricing?x=1"
  = DomainUtils.normalizeDomain "https://www.acme.com/pricing?x=1".
Proof. exact (normalizers_agree "https://www.acme.com/pricing?x=1" eq_refl eq_refl). Defined.

Lemma normalizers_differ_on_upper_www_witness :
  MarketingPlanService.normalizeDomain "WWW.acme.com" = "www.acme.com"
  /\ DomainUtils.normalizeDomain "WWW.acme.com" = "acme.com".
Proof. exact (normalizers_differ_on_upper_www "acme.com" eq_refl eq_refl eq_refl). Defined.

(** ** The request log *)

Section RequestLog.
Import ApiLogs.
Context {ApiLogEntry : Type}.

Lemma firstn_app_firstn (n : nat) (a b : list ApiLogEntry) :
  firstn n (a ++ firstn n b) = firstn n (a ++ b).
Proof.
  rewrite !firstn_app, firstn_firstn.
  replace (Nat.min (n - List.length a) n) with (n - List.length a) by lia.
  reflexivity.
Qed.

(** X25.  After any sequence of [addLog] calls on a log of at most 100
    entries, the log holds the newest entries first and is cut to the
    100 newest. *)
Theorem addLog_keeps_newest (logs apiLogs : list ApiLogEntry) :
  List.length apiLogs <= 100 ->
  addLogs logs apiLogs = firstn 100 (rev logs ++ apiLogs)
  /\ List.length (addLogs logs apiLogs) <= 100.
Proof.
  intros Hlen.
  assert (H : addLogs logs apiLogs = firstn 100 (rev logs ++ apiLogs)).
  { revert apiLogs Hlen. unfold addLogs.
    induction logs as [ | log logs IH ]; intros apiLogs Hlen.
    - cbn [fold_left rev app]. now rewrite firstn_all2.
    - cbn [fold_left rev].
      rewrite IH by (unfold addLog; rewrite length_firstn; lia).
      unfold addLog. now rewrite firstn_app_firstn, <- app_assoc. }
  split; [ exact H | ]. rewrite H, length_firstn. lia.
Qed.

End RequestLog.

Lemma addLog_keeps_newest_witness :
  ApiLogs.addLogs (seq 1 150) [ 0 ] = rev (seq 51 100).
Proof.
  rewrite (proj1 (addLog_keeps_newest (seq 1 150) [ 0 ] ltac:(cbn; lia))).
  reflexivity.
Defined.

(** ** Language detection *)

Section Languages.
Import LanguageDetection.

Lemma first_supported_accepted (browserLanguages : list (option string)) :
  isLanguageSupported (first_supported browserLanguages) = true
  /\ first_supported browserLanguages <> "".
Proof.
  induction browserLanguages as [ | [ lang | ] rest IH ];
    [ split; [ reflexivity | discriminate ] | | split; [ reflexivity | discriminate ] ].
  cbn [first_supported].
  destruct (lookup_truthy (toLowerCase (split_first "-" lang))) eqn:E; [ | exact IH ].
  split; [ exact E | ].
  intros Hempty. rewrite Hempty in E. discriminate.
Qed.

(** X26.  Whatever the browser reports, [detectUserLanguage] answers
    with a non-empty code that [isLanguageSupported] accepts. *)
Theorem detectUserLanguage_supported (b : Browser) :
  isLanguageSupported (detectUserLanguage b) = true
  /\ detectUserLanguage b <> "".
Proof. apply first_supported_accepted. Qed.

(** X27.  With a working [localStorage], the language answered by
    [getUserLanguage] sticks: later calls give the same answer even
    after the browser's language settings have changed. *)
Theorem getUserLanguage_sticks (b : Browser) (lang : option string)
    (langs : option (list (option string))) :
  writable b = true ->
  let '(b1, first) := getUserLanguage b in
  snd (getUserLanguage (change_settings lang langs b1)) = first.
Proof.
  intros Hw.
  assert (Hdetect : forall b0, writable b0 = true ->
            snd (getUserLanguage
                   (change_settings lang langs
                      (storeLanguagePreference (detectUserLanguage b0) b0)))
            = detectUserLanguage b0).
  { intros b0 H0. unfold storeLanguagePreference. rewrite H0.
    unfold getUserLanguage, getStoredLanguagePreference, change_settings.
    cbn [preference].
    destruct (first_supported_accepted
                (language b0 :: match languages b0 with Some l => l | None => [] end))
      as (_ & Hne).
    fold (detectUserLanguage b0) in Hne.
    apply String.eqb_neq in Hne. now rewrite Hne. }
  unfold getUserLanguage at 1, getStoredLanguagePreference.
  destruct (preference b) as [ stored | ] eqn:Ep; [ | now apply Hdetect ].
  destruct (stored =? "") eqn:Es; cbn [negb]; [ now apply Hdetect | ].
  unfold getUserLanguage, getStoredLanguagePreference, change_settings.
  cbn [preference]. now rewrite Ep, Es.
Qed.

End Languages.

Lemma getUserLanguage_sticks_witness :
  snd (LanguageDetection.getUserLanguage
         (LanguageDetection.change_settings (Some "de-DE") None
            (fst (LanguageDetection.getUserLanguage SamplesCallback.french_browser))))
  = "fr".
Proof.
  exact (getUserLanguage_sticks SamplesCallback.french_browser (Some "de-DE") None eq_refl).
Defined.
